(** * SushiBurrito backend: session core and realtime layer

    A shallow embedding of the authentication controllers
    ([controllers/auth.controller.js], both variants found in the
    repository), the refresh-token session table
    ([models/refresh_token_session.model.js]), the Socket.IO room assignment
    ([socket/middleware.js]), the socket event handlers ([socket/events.js])
    and the bounded notification history ([utils/notificationHistory.js]).

    Conventions.
    - Instants ([Date], [Date.now()]) are integers, in milliseconds.
    - JavaScript [undefined]/[null] is [None]; the empty string is falsy.
    - Express handlers are computations in a small state-and-exception
      monad over the session table and the response under construction.
    - Library calls whose code is not part of the repository ([jwt.sign],
      [jwt.verify], the SHA-256 digest, [crypto.randomUUID]) are parameters
      of the sections that use them. *)

From Stdlib Require Import ZArith List String Ascii Bool Lia.
From Stdlib Require Import DecimalString.
Import ListNotations.

Local Open Scope Z_scope.

(** ** JavaScript truthiness on optional strings *)

Module Js.

Definition truthy (v : option string) : bool :=
  match v with
  | Some s => negb (String.eqb s EmptyString)
  | None => false
  end.

(** [a || b] *)
Definition or (a b : option string) : option string :=
  if truthy a then a else b.

(** [a || null] *)
Definition or_null (a : option string) : option string :=
  if truthy a then a else None.

End Js.

(** ** The refresh-token session table *)

Module Store.

(** One row of [refresh_token_sessions]. *)
Record Session := mkSession {
  refresh_token_session_id : Z;
  session_id : string;
  usuario_id : Z;
  token_hash : string;
  replaced_by_token_hash : option string;
  revoked_at : option Z;
  expires_at : Z;
  user_agent : option string;
  ip_address : option string
}.

Definition t := list Session.



Definition is_null {A} (o : option A) : bool :=
  match o with None => true | Some _ => false end.

Definition terminal (s : Session) : Prop := revoked_at s <> None.

(** [autoIncrement]: the next primary key is above every key in use. *)
Definition next_id (st : t) : Z :=
  fold_right (fun s acc => Z.max (refresh_token_session_id s + 1) acc) 1 st.

(** The column constraints: [primaryKey] and the two [unique: true]. *)
Definition well_formed (st : t) : Prop :=
  NoDup (map refresh_token_session_id st) /\
  NoDup (map session_id st) /\
  NoDup (map token_hash st).

(** [Model.update(values, { where })]: every row selected by [p] is
    rewritten by [f]; the other rows are left alone. *)
Definition update_where (p : Session -> bool) (f : Session -> Session) (st : t) : t :=
  map (fun s => if p s then f s else s) st.

Definition set_revoked_at (now : Z) (s : Session) : Session :=
  mkSession (refresh_token_session_id s) (session_id s) (usuario_id s)
    (token_hash s) (replaced_by_token_hash s) (Some now) (expires_at s)
    (user_agent s) (ip_address s).

Definition set_rotated (now : Z) (h : string) (s : Session) : Session :=
  mkSession (refresh_token_session_id s) (session_id s) (usuario_id s)
    (token_hash s) (Some h) (Some now) (expires_at s)
    (user_agent s) (ip_address s).

(** Rows of user [uid] that are still ACTIVE. *)
Definition active_of (uid : Z) (st : t) : list Session :=
  filter (fun s => (usuario_id s =? uid) && is_null (revoked_at s)) st.

Definition has_session_id (sid : string) (st : t) : bool :=
  existsb (fun s => String.eqb (session_id s) sid) st.

Definition has_token_hash (h : string) (st : t) : bool :=
  existsb (fun s => String.eqb (token_hash s) h) st.

End Store.

(** ** HTTP requests and responses *)

Module Http.

(** The parts of an Express request the auth handlers read. *)
Record Request := mkRequest {
  cookie_refreshToken : option string;   (* req.cookies?.[REFRESH_COOKIE_NAME] *)
  body_refreshToken : option string;     (* req.body?.refreshToken *)
  header_user_agent : option string;     (* req.headers['user-agent'] *)
  ip : option string                     (* req.ip *)
}.

(** JSON bodies sent by the auth handlers. *)
Inductive Body :=
| Message (message : string)
| AccessToken (accessToken : string)
| Login (id : Z) (nombre rol accessToken : string)
| LoginWithRefresh (id : Z) (nombre rol accessToken refreshToken : string)
| MustChangePassword (mustChangePassword : bool) (usuario_id : Z) (message : string).

(** [res.cookie] and [res.clearCookie] on the refresh cookie
    (httpOnly, sameSite strict, path /api/auth). *)
Inductive CookieOp :=
| SetRefreshCookie (value : string) (maxAge : Z)
| ClearRefreshCookie.

Record Response := mkResponse {
  status : option Z;
  cookies : list CookieOp;
  body : option Body
}.

Definition empty : Response := mkResponse None [] None.

(** Does the body carry an access token? *)
Definition carries_access_token (r : Response) : bool :=
  match body r with
  | Some (AccessToken _) | Some (Login _ _ _ _) | Some (LoginWithRefresh _ _ _ _ _) => true
  | _ => false
  end.

Definition carries_refresh_token (r : Response) : bool :=
  match body r with
  | Some (LoginWithRefresh _ _ _ _ _) => true
  | _ => existsb (fun c => match c with SetRefreshCookie _ _ => true | _ => false end) (cookies r)
  end.

End Http.

(** ** Handlers: state over the table and the response, with exceptions *)

Module Handler.

Inductive Exn :=
| JsonWebTokenError
| TokenExpiredError
| SequelizeUniqueConstraintError
| TypeError.

Record World := mkWorld {
  db : Store.t;
  res : Http.Response
}.

Definition M (A : Type) : Type := World -> (Exn + A) * World.

Definition ret {A} (a : A) : M A := fun w => (inr a, w).

Definition throw {A} (e : Exn) : M A := fun w => (inl e, w).

Definition bind {A B} (m : M A) (k : A -> M B) : M B :=
  fun w => match m w with
           | (inl e, w') => (inl e, w')
           | (inr a, w') => k a w'
           end.

(** [try { m } catch (error) { h error }] *)
Definition try_catch {A} (m : M A) (h : Exn -> M A) : M A :=
  fun w => match m w with
           | (inl e, w') => h e w'
           | (inr a, w') => (inr a, w')
           end.

(** [db.sequelize.transaction(async (transaction) => m)]: when the callback
    throws, the table is rolled back and the exception is rethrown. *)
Definition transaction {A} (m : M A) : M A :=
  fun w => match m w with
           | (inl e, w') => (inl e, mkWorld (db w) (res w'))
           | (inr a, w') => (inr a, w')
           end.

Definition get_db : M Store.t := fun w => (inr (db w), w).

Definition modify_db (f : Store.t -> Store.t) : M unit :=
  fun w => (inr tt, mkWorld (f (db w)) (res w)).

Definition modify_res (f : Http.Response -> Http.Response) : M unit :=
  fun w => (inr tt, mkWorld (db w) (f (res w))).

(** [res.status(code).send(body)] *)
Definition send (code : Z) (b : Http.Body) : M unit :=
  modify_res (fun r => Http.mkResponse (Some code) (Http.cookies r) (Some b)).

Definition add_cookie (c : Http.CookieOp) : M unit :=
  modify_res (fun r => Http.mkResponse (Http.status r) (Http.cookies r ++ [c]) (Http.body r)).

(** Running a handler on a table, with a blank response. *)
Definition run {A} (m : M A) (st : Store.t) : World :=
  snd (m (mkWorld st Http.empty)).

End Handler.

Declare Scope handler_scope.
Delimit Scope handler_scope with handler.
Notation "x <- m ;; k" := (Handler.bind m (fun x => k))
  (at level 61, m at next level, right associativity) : handler_scope.
Notation "m ;; k" := (Handler.bind m (fun _ => k))
  (at level 61, right associativity) : handler_scope.

(** ** The users table, as the login handlers read it *)

Module Users.

(** A row of [usuarios] with its included [Rol] ([nombre_rol] only). *)
Record Usuario := mkUsuario {
  usuario_id : Z;
  nombre : string;
  rol_id : Z;
  correo : string;
  contrasena : string;
  must_change_password : bool;
  deleted_at : option Z;
  Rol : option string
}.

Definition t := list Usuario.

(** [Usuario.findOne({ where: { correo }, include: [Rol] })]; the model is
    [paranoid], so soft-deleted rows are not seen. *)
Definition findOne (mail : string) (us : t) : option Usuario :=
  find (fun u => String.eqb (correo u) mail && Store.is_null (deleted_at u)) us.

End Users.

(** ** Token codec and configuration

    [jsonwebtoken] and [crypto] are libraries; their code is not in the
    repository.  A signed token is a string; decoding with the refresh
    secret either fails (bad format or signature) or yields the claims. *)

Module Codec.

(** The payload of a refresh token: [{ id, sessionId }] plus the [iat] and
    [exp] stamps (in seconds) that [jwt.sign] adds for [expiresIn]. *)
Record Claims := mkClaims {
  id : Z;
  sessionId : string;
  iat : Z;
  exp : Z
}.

Class Env := {
  (** [ACCESS_TOKEN_EXPIRES_IN] and [REFRESH_TOKEN_EXPIRES_IN], in seconds *)
  ACCESS_TOKEN_EXPIRES_IN : Z;
  REFRESH_TOKEN_EXPIRES_IN : Z;
  REFRESH_TOKEN_MAX_AGE_MS : Z;
  (** [jwt.sign({ id }, ACCESS_TOKEN_SECRET, ...)] from id, iat and exp *)
  jwt_sign_access : Z -> Z -> Z -> string;
  (** [jwt.sign(payload, REFRESH_TOKEN_SECRET, ...)] *)
  jwt_sign_refresh : Claims -> string;
  (** signature check and parsing under [REFRESH_TOKEN_SECRET] *)
  jwt_decode_refresh : string -> option Claims;
  (** [crypto.createHash('sha256').update(token).digest('hex')] *)
  sha256_hex : string -> string;
  (** [jwt.sign({ id }, REFRESH_TOKEN_SECRET, ...)] of the stateless
      controller, from id, iat and exp *)
  jwt_sign_refresh_plain : Z -> Z -> Z -> string;
  (** [bcrypt.compare(plain, hash)] *)
  bcrypt_compare : string -> string -> bool
}.

(** [Math.floor(Date.now() / 1000)] *)
Definition seconds (now : Z) : Z := now / 1000.

End Codec.

(** ** The rotating-session auth controller *)

Module Auth.
Import Handler Codec.
Local Open Scope handler_scope.

Section Controller.
Context {E : Env}.

Definition createAccessToken (now : Z) (userId : Z) : string :=
  jwt_sign_access userId (seconds now) (seconds now + ACCESS_TOKEN_EXPIRES_IN).

Definition createRefreshToken (now : Z) (userId : Z) (sessionId : string) : string :=
  jwt_sign_refresh
    (mkClaims userId sessionId (seconds now) (seconds now + REFRESH_TOKEN_EXPIRES_IN)).

Definition hashToken (token : string) : string := sha256_hex token.

(** [jwt.verify(token, process.env.REFRESH_TOKEN_SECRET)] at instant [now]:
    throws on a token that does not decode and on an expired one. *)
Definition jwt_verify (now : Z) (token : string) : M Claims :=
  match jwt_decode_refresh token with
  | None => throw JsonWebTokenError
  | Some c => if exp c <=? seconds now then throw TokenExpiredError else ret c
  end.

Definition setRefreshCookie (refreshTokenValue : string) : M unit :=
  add_cookie (Http.SetRefreshCookie refreshTokenValue REFRESH_TOKEN_MAX_AGE_MS).

Definition clearRefreshCookie : M unit :=
  add_cookie Http.ClearRefreshCookie.

(** The [where] clause of the active-session lookup. *)
Definition matches_active (now : Z) (decoded : Claims) (tokenHash : string)
    (s : Store.Session) : bool :=
  String.eqb (Store.session_id s) (sessionId decoded)
  && (Store.usuario_id s =? id decoded)
  && String.eqb (Store.token_hash s) tokenHash
  && Store.is_null (Store.revoked_at s)
  && (now <? Store.expires_at s).

(** [db.RefreshTokenSession.findOne({ where })] *)
Definition findOne (p : Store.Session -> bool) : M (option Store.Session) :=
  st <- get_db ;; ret (find p st).

(** [db.RefreshTokenSession.update(values, { where })] *)
Definition update (f : Store.Session -> Store.Session) (p : Store.Session -> bool) : M unit :=
  modify_db (Store.update_where p f).

(** [instance.update(values)]: the row with the instance's primary key. *)
Definition instance_update (inst : Store.Session) (f : Store.Session -> Store.Session) : M unit :=
  modify_db (Store.update_where
    (fun s => Store.refresh_token_session_id s =? Store.refresh_token_session_id inst) f).

(** [db.RefreshTokenSession.create(values)]: the insert is refused when
    [session_id] or [token_hash] is already taken. *)
Definition create (session_id : string) (usuario_id : Z) (token_hash : string)
    (expires_at : Z) (user_agent ip_address : option string) : M unit :=
  st <- get_db ;;
  if Store.has_session_id session_id st || Store.has_token_hash token_hash st
  then throw SequelizeUniqueConstraintError
  else modify_db (fun st =>
         st ++ [Store.mkSession (Store.next_id st) session_id usuario_id token_hash
                  None None expires_at user_agent ip_address]).

(** user [uid]'s rows that are not yet revoked *)
Definition active_of_user (uid : Z) (s : Store.Session) : bool :=
  (Store.usuario_id s =? uid) && Store.is_null (Store.revoked_at s).

(** [export const refreshToken = async (req, res) => ...];
    [uuid] is what [crypto.randomUUID()] returns during this call. *)
Definition refreshToken (now : Z) (uuid : string) (req : Http.Request) : M unit :=
  let refreshTokenValue := Js.or (Http.cookie_refreshToken req) (Http.body_refreshToken req) in
  match refreshTokenValue with
  | Some tok =>
    if negb (Js.truthy refreshTokenValue)
    then send 401 (Http.Message "Refresh Token es requerido.")
    else
    try_catch
      (decoded <- jwt_verify now tok ;;
       let tokenHash := hashToken tok in
       activeSession <- findOne (matches_active now decoded tokenHash) ;;
       match activeSession with
       | None =>
           update (Store.set_revoked_at now) (active_of_user (id decoded)) ;;
           clearRefreshCookie ;;
           send 403 (Http.Message "Refresh Token inválido o reutilizado.")
       | Some row =>
           let newSessionId := uuid in
           let newRefreshTokenValue := createRefreshToken now (id decoded) newSessionId in
           let newRefreshTokenHash := hashToken newRefreshTokenValue in
           transaction
             (instance_update row (Store.set_rotated now newRefreshTokenHash) ;;
              create newSessionId (id decoded) newRefreshTokenHash
                (now + REFRESH_TOKEN_MAX_AGE_MS)
                (Js.or_null (Http.header_user_agent req))
                (Js.or_null (Http.ip req))) ;;
           let newAccessToken := createAccessToken now (id decoded) in
           setRefreshCookie newRefreshTokenValue ;;
           send 200 (Http.AccessToken newAccessToken)
       end)
      (fun _ =>
         clearRefreshCookie ;;
         send 403 (Http.Message "Refresh Token inválido o expirado. Por favor, inicie sesión de nuevo."))
  | None => send 401 (Http.Message "Refresh Token es requerido.")
  end.

(** the [where] clause of logout *)
Definition matches_logout (decoded : Claims) (s : Store.Session) : bool :=
  String.eqb (Store.session_id s) (sessionId decoded)
  && (Store.usuario_id s =? id decoded)
  && Store.is_null (Store.revoked_at s).

(** [export const logout = async (req, res) => ...] *)
Definition logout (now : Z) (req : Http.Request) : M unit :=
  try_catch
    (let refreshTokenValue := Js.or (Http.cookie_refreshToken req) (Http.body_refreshToken req) in
     match refreshTokenValue with
     | Some tok =>
         if Js.truthy refreshTokenValue
         then decoded <- jwt_verify now tok ;;
              update (Store.set_revoked_at now) (matches_logout decoded)
         else ret tt
     | None => ret tt
     end ;;
     clearRefreshCookie ;;
     send 200 (Http.Message "Sesión cerrada exitosamente."))
    (fun _ =>
       clearRefreshCookie ;;
       send 200 (Http.Message "Sesión cerrada exitosamente.")).

(** [usuario.Rol.nombre_rol]: a [TypeError] when the association is null *)
Definition nombre_rol (usuario : Users.Usuario) : M string :=
  match Users.Rol usuario with
  | Some r => ret r
  | None => throw TypeError
  end.

(** [error.message] *)
Definition error_message (e : Exn) : string :=
  match e with
  | JsonWebTokenError => "invalid token"
  | TokenExpiredError => "jwt expired"
  | SequelizeUniqueConstraintError => "Validation error"
  | TypeError => "Cannot read properties of null (reading 'nombre_rol')"
  end.

(** [export const login = async (req, res) => ...] with
    [req.body = { correo, contraseña }] *)
Definition login (users : Users.t) (now : Z) (uuid : string)
    (mail password : string) (req : Http.Request) : M unit :=
  try_catch
    (match Users.findOne mail users with
     | None => send 404 (Http.Message "Usuario no encontrado.")
     | Some usuario =>
       if negb (bcrypt_compare password (Users.contrasena usuario))
       then send 401 (Http.Message "Contraseña inválida.")
       else
         let accessToken := createAccessToken now (Users.usuario_id usuario) in
         let sessionId := uuid in
         let refreshTokenValue := createRefreshToken now (Users.usuario_id usuario) sessionId in
         create sessionId (Users.usuario_id usuario) (hashToken refreshTokenValue)
           (now + REFRESH_TOKEN_MAX_AGE_MS)
           (Js.or_null (Http.header_user_agent req))
           (Js.or_null (Http.ip req)) ;;
         setRefreshCookie refreshTokenValue ;;
         rol <- nombre_rol usuario ;;
         send 200 (Http.Login (Users.usuario_id usuario) (Users.nombre usuario) rol accessToken)
     end)
    (fun error => send 500 (Http.Message (error_message error))).

End Controller.
End Auth.

(** ** The stateless auth controller (the one [routes/auth.routes.js] mounts) *)

Module AuthStateless.
Import Handler Codec.
Local Open Scope handler_scope.

Section Controller.
Context {E : Env}.

(** [res.status(code).json(body)] *)
Definition json (code : Z) (b : Http.Body) : M unit := send code b.

(** [export const login = async (req, res) => ...] *)
Definition login (users : Users.t) (now : Z) (mail password : string) : M unit :=
  try_catch
    (match Users.findOne mail users with
     | None => json 404 (Http.Message "Usuario no encontrado.")
     | Some usuario =>
       if negb (bcrypt_compare password (Users.contrasena usuario))
       then json 401 (Http.Message "Contraseña inválida.")
       else if Users.must_change_password usuario
       then json 200 (Http.MustChangePassword true (Users.usuario_id usuario)
                        "Debe cambiar su contraseña antes de continuar.")
       else
         let accessToken :=
           jwt_sign_access (Users.usuario_id usuario) (seconds now) (seconds now + 900) in
         let refreshToken :=
           jwt_sign_refresh_plain (Users.usuario_id usuario) (seconds now) (seconds now + 604800) in
         rol <- Auth.nombre_rol usuario ;;
         json 200 (Http.LoginWithRefresh (Users.usuario_id usuario) (Users.nombre usuario)
                     rol accessToken refreshToken)
     end)
    (fun _ => json 500 (Http.Message "Error en el inicio de sesión.")).

(** [export const refreshToken = async (req, res) => ...] of the stateless
    controller, with [const { refreshToken } = req.body] *)
Definition refreshToken (now : Z) (body_refreshToken : option string) : M unit :=
  match body_refreshToken with
  | Some tok =>
    if negb (Js.truthy body_refreshToken)
    then json 401 (Http.Message "Refresh Token requerido.")
    else
    try_catch
      (decoded <- Auth.jwt_verify now tok ;;
       let newAccessToken :=
         jwt_sign_access (id decoded) (seconds now) (seconds now + 900) in
       json 200 (Http.AccessToken newAccessToken))
      (fun error => json 500 (Http.Message (Auth.error_message error)))
  | None => json 401 (Http.Message "Refresh Token requerido.")
  end.

End Controller.
End AuthStateless.

(** ** The notification history ([utils/notificationHistory.js]) *)

Module History.

(** [new Date().toISOString()] as a function of the instant. *)
Class Clock := { toISOString : Z -> string }.

(** A notification [{ type, message, data, timestamp, priority }];
    [data] is a flat list of named values. *)
Record Notification := mkNotification {
  type : string;
  message : string;
  data : list (string * string);
  timestamp : option string;
  priority : option string
}.

(** The instance state: [this.history] and [this.maxHistory]. *)
Record t := mkHistory {
  history : list Notification;
  maxHistory : Z
}.

(** [constructor()] *)
Definition constructor : t := mkHistory [] 6.

(** [Array.prototype.slice(0, end)] for an integer [end]: a negative [end]
    counts from the back, and the bounds are clamped to the array. *)
Definition slice0 {A} (l : list A) (e : Z) : list A :=
  let len := Z.of_nat (List.length l) in
  let k := if e <? 0 then Z.max (len + e) 0 else Z.min e len in
  firstn (Z.to_nat k) l.

Definition with_timestamp (ts : string) (n : Notification) : Notification :=
  mkNotification (type n) (message n) (data n) (Some ts) (priority n).

Section Methods.
Context {C : Clock}.

(** the notification as it is stored: stamped when it carries no timestamp *)
Definition stamped (now : Z) (n : Notification) : Notification :=
  if negb (Js.truthy (timestamp n)) then with_timestamp (toISOString now) n else n.

(** [addNotification(notification)] at instant [now] *)
Definition addNotification (now : Z) (notification : Notification) (this : t) : t :=
  let unshifted := stamped now notification :: history this in
  if maxHistory this <? Z.of_nat (List.length unshifted)
  then mkHistory (slice0 unshifted (maxHistory this)) (maxHistory this)
  else mkHistory unshifted (maxHistory this).

(** [getRecentNotifications(limit = this.maxHistory)] *)
Definition getRecentNotifications (limit : option Z) (this : t) : list Notification :=
  slice0 (history this)
    (match limit with Some l => l | None => maxHistory this end).

(** [clearHistory()] *)
Definition clearHistory (this : t) : t := mkHistory [] (maxHistory this).

(** Appending a sequence of timed notifications, first to last. *)
Definition addAll (events : list (Z * Notification)) (this : t) : t :=
  fold_left (fun h e => addNotification (fst e) (snd e) h) events this.

End Methods.
End History.

(** ** Socket connections: rooms and per-connection events *)

Module Realtime.

(** Events a handler emits back on the socket. *)
Inductive Outbound :=
| conexion_confirmada (message : string) (userId : Z) (userRol : string) (timestamp : string)
| historial_dashboard (historial : list History.Notification)
| error (message : string)
| sala_unida (message sala : string)
| sala_abandonada (message sala : string)
| estado_conexion (conectado : bool) (salas : list string) (timestamp : string).

(** Events a client sends. *)
Inductive Inbound :=
| cliente_conectado
| obtener_historial
| unir_sala_pedido (pedidoId : option Z)
| salir_sala_pedido (pedidoId : option Z)
| disconnect (reason : string)
| error_event.

(** The connection context after [authenticateSocket], with the rooms
    joined so far (a [Set], in insertion order) and what was emitted. *)
Record Socket := mkSocket {
  socket_id : string;
  userId : Z;
  userRol : string;
  userName : string;
  rooms : list string;
  emitted : list Outbound
}.

Definition mem (room : string) (l : list string) : bool :=
  existsb (String.eqb room) l.

(** [socket.join(room)] *)
Definition join (room : string) (s : Socket) : Socket :=
  if mem room (rooms s) then s
  else mkSocket (socket_id s) (userId s) (userRol s) (userName s)
         (rooms s ++ [room]) (emitted s).

(** [socket.leave(room)] *)
Definition leave (room : string) (s : Socket) : Socket :=
  mkSocket (socket_id s) (userId s) (userRol s) (userName s)
    (filter (fun r => negb (String.eqb room r)) (rooms s)) (emitted s).

(** [socket.emit(event, payload)] *)
Definition emit (o : Outbound) (s : Socket) : Socket :=
  mkSocket (socket_id s) (userId s) (userRol s) (userName s)
    (rooms s) (emitted s ++ [o]).

(** Template interpolation of an integer. *)
Definition string_of_Z (z : Z) : string := NilZero.string_of_int (Z.to_int z).

(** [export const assignUserToRooms = (socket) => ...] *)
Definition assignUserToRooms (socket : Socket) : Socket :=
  let s := join "notificaciones_globales" socket in
  let s :=
    if String.eqb (userRol socket) "cocinero" then join "cocineros" s
    else if String.eqb (userRol socket) "mesero" then join "meseros" s
    else if String.eqb (userRol socket) "administrador"
         then join "meseros" (join "cocineros" (join "administradores" s))
    else s in
  join (String.append "usuario_" (string_of_Z (userId socket))) s.

(** JavaScript truthiness of an order id *)
Definition truthy_id (pedidoId : option Z) : bool :=
  match pedidoId with
  | Some n => negb (n =? 0)
  | None => false
  end.

Definition pedido_room (n : Z) : string := String.append "pedido_" (string_of_Z n).

Section Events.
Context {C : History.Clock}.

(** The handlers installed by [registerSocketEvents], run on one inbound
    event against the shared [notificationHistory]. *)
Definition on_event (hist : History.t) (now : Z) (ev : Inbound) (socket : Socket) : Socket :=
  match ev with
  | cliente_conectado =>
      let s := emit (conexion_confirmada
                       "Conectado exitosamente al servidor de notificaciones"
                       (userId socket) (userRol socket) (History.toISOString now)) socket in
      if String.eqb (userRol socket) "administrador"
      then emit (historial_dashboard (History.getRecentNotifications None hist)) s
      else s
  | obtener_historial =>
      if String.eqb (userRol socket) "administrador"
      then emit (historial_dashboard (History.getRecentNotifications None hist)) socket
      else emit (error "No autorizado para obtener historial") socket
  | unir_sala_pedido pedidoId =>
      match pedidoId with
      | Some n =>
          if truthy_id pedidoId
          then emit (sala_unida
                       (String.append "Unido a la sala del pedido " (string_of_Z n))
                       (pedido_room n))
                 (join (pedido_room n) socket)
          else socket
      | None => socket
      end
  | salir_sala_pedido pedidoId =>
      match pedidoId with
      | Some n =>
          if truthy_id pedidoId
          then emit (sala_abandonada
                       (String.append "Abandonada la sala del pedido " (string_of_Z n))
                       (pedido_room n))
                 (leave (pedido_room n) socket)
          else socket
      | None => socket
      end
  | disconnect _ => socket
  | error_event => socket
  end.

(** The [io.on('connection', ...)] callback of [createSocketServer]. *)
Definition on_connection (now : Z) (socket : Socket) : Socket :=
  let s := assignUserToRooms socket in
  emit (estado_conexion true (rooms s) (History.toISOString now)) s.

End Events.
End Realtime.

(** ** Notions used to state the properties *)

Module Props.
Import Handler Codec.

Section Sessions.
Context {E : Env}.

(** The refresh token a request presents, if any: cookie first, body as
    the fallback, and an empty string counts as absent. *)
Definition presented (req : Http.Request) : option string :=
  let v := Js.or (Http.cookie_refreshToken req) (Http.body_refreshToken req) in
  if Js.truthy v then v else None.

(** [tok] passes [jwt.verify] at [now] and carries the claims [c]. *)
Definition verifies (now : Z) (tok : string) (c : Claims) : Prop :=
  jwt_decode_refresh tok = Some c /\ seconds now < exp c.

(** Forced revocation: every ACTIVE row of the user gets [revoked_at]. *)
Definition revoke_all (now uid : Z) (st : Store.t) : Store.t :=
  Store.update_where (Auth.active_of_user uid) (Store.set_revoked_at now) st.

(** The table after rotating [row] into a new session [uuid]. *)
Definition rotated (now : Z) (uuid : string) (req : Http.Request) (c : Claims)
    (row : Store.Session) (st : Store.t) : Store.t :=
  let h := Auth.hashToken (Auth.createRefreshToken now (id c) uuid) in
  let st1 := Store.update_where
               (fun s => Store.refresh_token_session_id s =? Store.refresh_token_session_id row)
               (Store.set_rotated now h) st in
  st1 ++ [Store.mkSession (Store.next_id st1) uuid (id c) h None None
            (now + REFRESH_TOKEN_MAX_AGE_MS)
            (Js.or_null (Http.header_user_agent req)) (Js.or_null (Http.ip req))].

(** The four responses of [refreshToken] and the one of [logout]. *)
Definition token_required : Http.Response :=
  Http.mkResponse (Some 401) [] (Some (Http.Message "Refresh Token es requerido.")).

Definition forbidden_reused : Http.Response :=
  Http.mkResponse (Some 403) [Http.ClearRefreshCookie]
    (Some (Http.Message "Refresh Token inválido o reutilizado.")).

Definition forbidden_invalid : Http.Response :=
  Http.mkResponse (Some 403) [Http.ClearRefreshCookie]
    (Some (Http.Message "Refresh Token inválido o expirado. Por favor, inicie sesión de nuevo.")).

Definition refreshed (now : Z) (uuid : string) (c : Claims) : Http.Response :=
  Http.mkResponse (Some 200)
    [Http.SetRefreshCookie (Auth.createRefreshToken now (id c) uuid) REFRESH_TOKEN_MAX_AGE_MS]
    (Some (Http.AccessToken (Auth.createAccessToken now (id c)))).

Definition logged_out : Http.Response :=
  Http.mkResponse (Some 200) [Http.ClearRefreshCookie]
    (Some (Http.Message "Sesión cerrada exitosamente.")).

(** What [jwt.verify] returns at [now], [None] when it throws. *)
Definition verified (now : Z) (tok : string) : option Claims :=
  match jwt_decode_refresh tok with
  | Some c => if exp c <=? seconds now then None else Some c
  | None => None
  end.






End Sessions.

(** The notification an append stores for a timed event. *)
Definition stamp_event {C : History.Clock} (e : Z * History.Notification)
    : History.Notification :=
  History.stamped (fst e) (snd e).

(** The states the shared history can be in: it starts empty and is only
    changed by appends and by [clearHistory]. *)
Inductive reachable {C : History.Clock} : History.t -> Prop :=
| reach_constructor : reachable History.constructor
| reach_add now n h : reachable h -> reachable (History.addNotification now n h)
| reach_clear h : reachable h -> reachable (History.clearHistory h).

(** Room assignment as the specification words it: a mapping from the role
    to the role-specific rooms. *)
Definition role_rooms (rol : string) : list string :=
  if String.eqb rol "cocinero" then ["cocineros"%string]
  else if String.eqb rol "mesero" then ["meseros"%string]
  else if String.eqb rol "administrador"
       then ["administradores"; "cocineros"; "meseros"]%string
  else [].

Definition user_room (uid : Z) : string :=
  String.append "usuario_" (Realtime.string_of_Z uid).

(** The rooms a connection of this role and user is to join, in order. *)
Definition rooms_for (rol : string) (uid : Z) : list string :=
  "notificaciones_globales"%string :: role_rooms rol ++ [user_room uid].

End Props.

(** ** A concrete environment, for examples *)

Module Fixture.
Import Codec.

(** Tokens are written [R:<session>] for user 7 and [Q:<session>] for
    user 8; they expire at second 2000. *)
Definition decode (tok : string) : option Claims :=
  match tok with
  | String "R"%char (String ":"%char sid) => Some (mkClaims 7 sid 0 2000)
  | String "Q"%char (String ":"%char sid) => Some (mkClaims 8 sid 0 2000)
  | _ => None
  end.

Definition sign (c : Claims) : string :=
  String.append (if id c =? 7 then "R:" else "Q:") (sessionId c).

#[local] Instance env : Env := {|
  ACCESS_TOKEN_EXPIRES_IN := 900;
  REFRESH_TOKEN_EXPIRES_IN := 604800;
  REFRESH_TOKEN_MAX_AGE_MS := 604800000;
  jwt_sign_access := fun uid i _ =>
    String.append "A:" (String.append (Realtime.string_of_Z uid)
      (String.append "@" (Realtime.string_of_Z i)));
  jwt_sign_refresh := sign;
  jwt_decode_refresh := decode;
  sha256_hex := fun tok => String.append "#" tok;
  jwt_sign_refresh_plain := fun uid _ _ => String.append "P:" (Realtime.string_of_Z uid);
  bcrypt_compare := fun plain h => String.eqb (String.append "$" plain) h
|}.

#[local] Instance clock : History.Clock := {|
  History.toISOString := fun now => String.append "T" (Realtime.string_of_Z now)
|}.

(** User 7 holds session [s1], live until instant 5000. *)
Definition s1 : Store.Session :=
  Store.mkSession 1 "s1" 7 "#R:s1" None None 5000 None None.

(** A second live session of user 7, and one of user 8. *)
Definition s2 : Store.Session :=
  Store.mkSession 2 "s2" 7 "#R:s2" None None 9000 (Some "firefox"%string) None.

Definition s3 : Store.Session :=
  Store.mkSession 3 "s3" 8 "#Q:s3" None None 9000 None None.

Definition table : Store.t := [s1; s2; s3].

Definition with_cookie (tok : string) : Http.Request :=
  Http.mkRequest (Some tok) None None None.

Definition no_token : Http.Request :=
  Http.mkRequest None (Some EmptyString) None None.

Definition ana : Users.Usuario :=
  Users.mkUsuario 7 "Ana" 1 "ana@sushi.co" "$secreta" true None (Some "mesero"%string).

Definition beto : Users.Usuario :=
  Users.mkUsuario 8 "Beto" 2 "beto@sushi.co" "$clave" false None (Some "cocinero"%string).

Definition note (k : Z) : History.Notification :=
  History.mkNotification "nuevo_pedido" (Realtime.string_of_Z k) [] None (Some "high"%string).

Definition ten : list (Z * History.Notification) :=
  map (fun k => (k, note k)) [1; 2; 3; 4; 5; 6; 7; 8; 9; 10].

Definition socket_of (rol : string) : Realtime.Socket :=
  Realtime.mkSocket "sock" 7 rol "Ana" ["sock"%string] [].

(** The claims carried by [R:s1]. *)
Definition claims_s1 : Claims := mkClaims 7 "s1" 0 2000.



End Fixture.

(** ** Sequences of auth requests *)

Module Calls.
Import Handler Codec.

(** One request to the rotating-session controller, with the UUID that
    [crypto.randomUUID()] returns while it is handled. *)
Inductive Call :=
| Login (mail password : string) (uuid : string) (req : Http.Request)
| Refresh (uuid : string) (req : Http.Request)
| Logout (req : Http.Request).

Section Run.
Context {E : Env}.

Definition handle (users : Users.t) (now : Z) (c : Call) : M unit :=
  match c with
  | Login mail password uuid req => Auth.login users now uuid mail password req
  | Refresh uuid req => Auth.refreshToken now uuid req
  | Logout req => Auth.logout now req
  end.

(** The table after a sequence of timed requests, handled one by one. *)
Definition run_calls (users : Users.t) (calls : list (Z * Call)) (st : Store.t) : Store.t :=
  fold_left (fun acc tc => db (run (handle users (fst tc) (snd tc)) acc)) calls st.

End Run.

(** The columns of a row that are written once. *)
Definition identity (s : Store.Session)
    : Z * string * Z * string * Z * option string * option string :=
  (Store.refresh_token_session_id s, Store.session_id s, Store.usuario_id s,
   Store.token_hash s, Store.expires_at s, Store.user_agent s, Store.ip_address s).

(** The rows that belong to user [uid]. *)
Definition sessions_of (uid : Z) (st : Store.t) : Store.t :=
  filter (fun s => Store.usuario_id s =? uid) st.

(** [acts_for users now c uid]: the request carries a credential of user
    [uid]: the mail of [uid] for a login, a refresh token that verifies
    with [uid] in its claims otherwise. *)
Definition acts_for {E : Env} (users : Users.t) (now : Z) (c : Call) (uid : Z) : Prop :=
  match c with
  | Login mail _ _ _ =>
      exists u, Users.findOne mail users = Some u /\ Users.usuario_id u = uid
  | Refresh _ req | Logout req =>
      exists tok cl, Props.presented req = Some tok /\ Props.verifies now tok cl /\ id cl = uid
  end.

End Calls.

(** ** Socket handshake ([socket/middleware.js], [socket/index.js]) *)

Module Gateway.
Import Codec.

(** Signature check and parsing under [ACCESS_TOKEN_SECRET]: the [id] and
    the [exp] stamp (in seconds) of the payload. *)
Class AccessCodec := { jwt_decode_access : string -> option (Z * Z) }.

(** The errors passed to [next]. *)
Inductive Rejection :=
| TokenRequired        (* 'Token de autenticación requerido' *)
| UserNotFound         (* 'Usuario no encontrado' *)
| InvalidOrExpired.    (* 'Token inválido o expirado' *)

(** [db.Usuario.findByPk(id, { include: [Rol] })] on the paranoid model. *)
Definition findByPk (uid : Z) (us : Users.t) : option Users.Usuario :=
  find (fun u => (Users.usuario_id u =? uid) && Store.is_null (Users.deleted_at u)) us.

Section Handshake.
Context {A : AccessCodec} {C : History.Clock}.

(** [export const authenticateSocket = async (socket, next) => ...]:
    [token] is [socket.handshake.auth.token]; the result is the error given
    to [next] or the socket with [userId], [userRol] and [userName]
    attached.  A new socket is in the room of its own id. *)
Definition authenticateSocket (users : Users.t) (now : Z)
    (token : option string) (socket_id : string) : Rejection + Realtime.Socket :=
  match token with
  | Some tok =>
    if negb (Js.truthy token) then inl TokenRequired
    else
      match jwt_decode_access tok with
      | None => inl InvalidOrExpired
      | Some (uid, e) =>
          if e <=? seconds now then inl InvalidOrExpired
          else
            match findByPk uid users with
            | None => inl UserNotFound
            | Some usuario =>
                match Users.Rol usuario with
                | None => inl InvalidOrExpired
                | Some rol =>
                    inr (Realtime.mkSocket socket_id (Users.usuario_id usuario) rol
                           (Users.nombre usuario) [socket_id] [])
                end
            end
      end
  | None => inl TokenRequired
  end.

(** [io.use(authenticateSocket)] followed by the [connection] callback,
    which only runs for an accepted handshake. *)
Definition connect (users : Users.t) (now : Z)
    (token : option string) (socket_id : string) : Rejection + Realtime.Socket :=
  match authenticateSocket users now token socket_id with
  | inl e => inl e
  | inr socket => inr (Realtime.on_connection now socket)
  end.

(** A connection handling a sequence of timed inbound events. *)
Definition on_events (hist : History.t) (events : list (Z * Realtime.Inbound))
    (socket : Realtime.Socket) : Realtime.Socket :=
  fold_left (fun s e => Realtime.on_event hist (fst e) (snd e) s) events socket.

End Handshake.

(** The room names the server uses for roles and for everybody. *)
Definition reserved : list string :=
  ["notificaciones_globales"; "cocineros"; "meseros"; "administradores"]%string.

End Gateway.

(** ** The notification bus ([socket/events.js], builders of
       [utils/notificationHistory.js]) *)

Module Bus.

(** The fields of an order the builders read: [Mesa_numero_mesa] is
    [pedido.Mesa?.numero_mesa] and [Usuario_nombre] is
    [pedido.Usuario?.nombre]. *)
Record Pedido := mkPedido {
  pedido_id : Z;
  mesa_id : Z;
  Mesa_numero_mesa : option Z;
  Usuario_nombre : option string;
  estado : string;
  fecha_actualizacion : option string
}.

Record Mesa := mkMesa {
  m_mesa_id : Z;
  m_numero_mesa : Z;
  m_estado : string
}.

(** [io.to(room).emit(event, payload)] *)
Record Broadcast := mkBroadcast {
  room : string;
  event : string;
  payload : History.Notification
}.

(** The shared [notificationHistory] and what was broadcast so far. *)
Record t := mkBus {
  hist : History.t;
  sent : list Broadcast
}.

Definition start : t := mkBus History.constructor [].

(** Values of [data], written as text: a number in decimal, an
    [undefined] value left out. *)
Definition num (k : string) (z : Z) : list (string * string) :=
  [(k, Realtime.string_of_Z z)].

Definition str (k : string) (v : string) : list (string * string) := [(k, v)].

Definition opt_num (k : string) (z : option Z) : list (string * string) :=
  match z with Some n => num k n | None => [] end.

Definition opt_str (k : string) (v : option string) : list (string * string) :=
  match v with Some x => str k x | None => [] end.

(** [pedido.Mesa?.numero_mesa || 'N/A'] inside a template *)
Definition mesa_or_NA (p : Pedido) : string :=
  match Mesa_numero_mesa p with
  | Some n => if n =? 0 then "N/A"%string else Realtime.string_of_Z n
  | None => "N/A"%string
  end.

Definition cat (l : list string) : string := String.concat EmptyString l.

Section Emitters.
Context {C : History.Clock}.

(** [createNewPedidoNotification(pedido)] *)
Definition createNewPedidoNotification (now : Z) (p : Pedido) : History.Notification :=
  History.mkNotification "nuevo_pedido"
    (cat ["Nuevo pedido #"; Realtime.string_of_Z (pedido_id p);
          " creado en mesa "; mesa_or_NA p]%string)
    (num "pedido_id" (pedido_id p) ++ num "mesa_id" (mesa_id p)
     ++ opt_num "mesa_numero" (Mesa_numero_mesa p)
     ++ opt_str "mesero" (Usuario_nombre p) ++ str "estado" (estado p))
    (Some (History.toISOString now)) (Some "high"%string).

(** [createEstadoNotification(pedido, estadoAnterior)] *)
Definition createEstadoNotification (now : Z) (p : Pedido) (estadoAnterior : string)
    : History.Notification :=
  History.mkNotification "cambio_estado_pedido"
    (cat ["Pedido #"; Realtime.string_of_Z (pedido_id p); " cambió de ";
          String (ascii_of_nat 34) EmptyString; estadoAnterior;
          String (ascii_of_nat 34) EmptyString; " a ";
          String (ascii_of_nat 34) EmptyString; estado p;
          String (ascii_of_nat 34) EmptyString]%string)
    (num "pedido_id" (pedido_id p) ++ num "mesa_id" (mesa_id p)
     ++ str "estado_anterior" estadoAnterior ++ str "estado_nuevo" (estado p)
     ++ str "timestamp"
          (if Js.truthy (fecha_actualizacion p)
           then match fecha_actualizacion p with Some d => d | None => EmptyString end
           else History.toISOString now))
    (Some (History.toISOString now)) (Some "medium"%string).

(** [createCanceladoNotification(pedido)] *)
Definition createCanceladoNotification (now : Z) (p : Pedido) : History.Notification :=
  History.mkNotification "pedido_cancelado"
    (cat ["Pedido #"; Realtime.string_of_Z (pedido_id p); " fue cancelado"]%string)
    (num "pedido_id" (pedido_id p) ++ num "mesa_id" (mesa_id p)
     ++ opt_num "mesa_numero" (Mesa_numero_mesa p)
     ++ str "motivo" "Cancelado por el sistema")
    (Some (History.toISOString now)) (Some "high"%string).

(** The [{ type, message, data, timestamp }] payload sent to role rooms,
    built from the notification after it went through [addNotification]. *)
Definition role_payload (type_ message_ : string) (n : History.Notification)
    : History.Notification :=
  History.mkNotification type_ message_ (History.data n) (History.timestamp n) None.

Definition quoted (s : string) : string :=
  cat [String (ascii_of_nat 34) EmptyString; s; String (ascii_of_nat 34) EmptyString].

(** [export const emitNuevoPedido = (io, pedido) => ...] *)
Definition emitNuevoPedido (now : Z) (p : Pedido) (bus : t) : t :=
  let notification := createNewPedidoNotification now p in
  let stored := History.stamped now notification in
  mkBus (History.addNotification now notification (hist bus))
    (sent bus ++
     [mkBroadcast "cocineros" "nuevo_pedido"
        (role_payload "nuevo_pedido"
           (cat ["Nuevo pedido recibido - Mesa "; mesa_or_NA p]%string) stored);
      mkBroadcast "meseros" "nuevo_pedido"
        (role_payload "nuevo_pedido"
           (cat ["Pedido creado - Mesa "; mesa_or_NA p]%string) stored);
      mkBroadcast "administradores" "actualizar_dashboard" stored]).

(** [export const emitCambioEstado = (io, pedido, estadoAnterior) => ...] *)
Definition emitCambioEstado (now : Z) (p : Pedido) (estadoAnterior : string) (bus : t) : t :=
  let notification := createEstadoNotification now p estadoAnterior in
  let stored := History.stamped now notification in
  let numero := Realtime.string_of_Z (pedido_id p) in
  mkBus (History.addNotification now notification (hist bus))
    (sent bus ++
     [mkBroadcast "cocineros" "cambio_estado_pedido"
        (role_payload "cambio_estado_pedido"
           (cat ["Pedido #"; numero; " ahora está "; quoted (estado p)]%string) stored);
      mkBroadcast "meseros" "cambio_estado_pedido"
        (role_payload "cambio_estado_pedido"
           (cat ["Pedido #"; numero; " actualizado a "; quoted (estado p)]%string) stored);
      mkBroadcast (Realtime.pedido_room (pedido_id p)) "cambio_estado_pedido"
        (role_payload "cambio_estado_pedido"
           (cat ["Tu pedido cambió a "; quoted (estado p)]%string) stored);
      mkBroadcast "administradores" "actualizar_dashboard" stored]).

(** [export const emitPedidoCancelado = (io, pedido) => ...] *)
Definition emitPedidoCancelado (now : Z) (p : Pedido) (bus : t) : t :=
  let notification := createCanceladoNotification now p in
  let stored := History.stamped now notification in
  mkBus (History.addNotification now notification (hist bus))
    (sent bus ++
     [mkBroadcast "notificaciones_globales" "pedido_cancelado"
        (role_payload "pedido_cancelado"
           (cat ["Pedido #"; Realtime.string_of_Z (pedido_id p);
                 " ha sido cancelado"]%string) stored);
      mkBroadcast "administradores" "actualizar_dashboard" stored]).

(** [export const emitMesaActualizada = (io, mesa) => ...] *)
Definition emitMesaActualizada (now : Z) (m : Mesa) (bus : t) : t :=
  let notification :=
    History.mkNotification "mesa_actualizada"
      (cat ["Mesa "; Realtime.string_of_Z (m_numero_mesa m); " ahora está ";
            quoted (m_estado m)]%string)
      (num "mesa_id" (m_mesa_id m) ++ num "numero_mesa" (m_numero_mesa m)
       ++ str "estado" (m_estado m))
      (Some (History.toISOString now)) (Some "low"%string) in
  mkBus (hist bus)
    (sent bus ++
     [mkBroadcast "meseros" "mesa_actualizada" notification;
      mkBroadcast "administradores" "mesa_actualizada" notification]).

(** A domain event handed to the bus. *)
Inductive Emit :=
| NuevoPedido (p : Pedido)
| CambioEstado (p : Pedido) (estadoAnterior : string)
| PedidoCancelado (p : Pedido)
| MesaActualizada (m : Mesa).

Definition emit_one (now : Z) (e : Emit) (bus : t) : t :=
  match e with
  | NuevoPedido p => emitNuevoPedido now p bus
  | CambioEstado p prev => emitCambioEstado now p prev bus
  | PedidoCancelado p => emitPedidoCancelado now p bus
  | MesaActualizada m => emitMesaActualizada now m bus
  end.

Definition emit_all (events : list (Z * Emit)) (bus : t) : t :=
  fold_left (fun b e => emit_one (fst e) (snd e) b) events bus.

(** The notification an event puts in the history, if it puts one. *)
Definition notification_of (now : Z) (e : Emit) : list History.Notification :=
  match e with
  | NuevoPedido p => [createNewPedidoNotification now p]
  | CambioEstado p prev => [createEstadoNotification now p prev]
  | PedidoCancelado p => [createCanceladoNotification now p]
  | MesaActualizada _ => []
  end.

Definition recorded (events : list (Z * Emit)) : list History.Notification :=
  flat_map (fun e => notification_of (fst e) (snd e)) events.

End Emitters.

(** What a connection in the rooms [rooms socket] receives of a list of
    broadcasts: one delivery per broadcast to a room it is in. *)
Definition received (socket : Realtime.Socket) (l : list Broadcast) : list Broadcast :=
  filter (fun b => Realtime.mem (room b) (Realtime.rooms socket)) l.

Definition is_event (name : string) (b : Broadcast) : bool := String.eqb (event b) name.

End Bus.

(** ** Passwords and user accounts

    [forgotPassword] and [resetPassword] of the rotating-session
    [controllers/auth.controller.js]; [createUser], [changePassword],
    [deleteUser] and [restoreUser] of [controllers/usuario.controller.js],
    with the hooks of the [Usuario] model. *)

Module Accounts.
Import Codec.

(** [bcrypt.hash(plain, salt)]; the salt is drawn by the library. *)
Class Hasher := { bcrypt_hash : string -> string -> string }.

(** A mail handed to the transporter: recipient and what it carries (the
    reset link, or the temporary password). *)
Record Mail := mkMail {
  to : string;
  carries : string
}.

Definition reply (code : Z) (message : string) : Http.Response :=
  Http.mkResponse (Some code) [] (Some (Http.Message message)).

Definition set_contrasena (h : string) (u : Users.Usuario) : Users.Usuario :=
  Users.mkUsuario (Users.usuario_id u) (Users.nombre u) (Users.rol_id u) (Users.correo u)
    h (Users.must_change_password u) (Users.deleted_at u) (Users.Rol u).

Definition set_deleted_at (d : option Z) (u : Users.Usuario) : Users.Usuario :=
  Users.mkUsuario (Users.usuario_id u) (Users.nombre u) (Users.rol_id u) (Users.correo u)
    (Users.contrasena u) (Users.must_change_password u) d (Users.Rol u).

(** The rows a paranoid [Model.update] or [destroy] with
    [where: { usuario_id }] touches. *)
Definition live_with_id (uid : Z) (u : Users.Usuario) : bool :=
  (Users.usuario_id u =? uid) && Store.is_null (Users.deleted_at u).

Definition update_users (p : Users.Usuario -> bool) (f : Users.Usuario -> Users.Usuario)
    (us : Users.t) : Users.t :=
  map (fun u => if p u then f u else u) us.

Definition count_users (p : Users.Usuario -> bool) (us : Users.t) : Z :=
  Z.of_nat (List.length (filter p us)).

(** [autoIncrement] on [usuario_id] *)
Definition next_id (us : Users.t) : Z :=
  fold_right (fun u acc => Z.max (Users.usuario_id u + 1) acc) 1 us.

Definition reset_link (resetToken : string) : string :=
  String.append "http://localhost:5173/#/reset-password?token=" resetToken.

Definition generic_answer : string :=
  "Si el correo está registrado, recibirás un enlace para restablecer tu contraseña.".

Section Handlers.
Context {E : Env} {A : Gateway.AccessCodec} {H : Hasher}.

(** [export const forgotPassword = async (req, res) => ...];
    [delivered] tells whether [transporter.sendMail] resolves.  The result
    is the mail sent, if any, and the response. *)
Definition forgotPassword (users : Users.t) (now : Z) (mail : string) (delivered : bool)
    : list Mail * Http.Response :=
  match Users.findOne mail users with
  | None => ([], reply 200 generic_answer)
  | Some usuario =>
      let resetToken :=
        jwt_sign_access (Users.usuario_id usuario) (seconds now) (seconds now + 900) in
      let resetLink := reset_link resetToken in
      if delivered
      then ([mkMail (Users.correo usuario) resetLink], reply 200 generic_answer)
      else ([], reply 500 "Error interno al procesar la solicitud.")
  end.

(** [export const resetPassword = async (req, res) => ...] with
    [req.body = { token, newPassword }]; [salt] is the salt [bcrypt.hash]
    draws. *)
Definition resetPassword (users : Users.t) (now : Z) (salt : string)
    (token newPassword : option string) : Users.t * Http.Response :=
  match token, newPassword with
  | Some tok, Some pw =>
    if negb (Js.truthy token) || negb (Js.truthy newPassword)
    then (users, reply 400 "Token y nueva contraseña son requeridos.")
    else
      match Gateway.jwt_decode_access tok with
      | None => (users, reply 401 "Token inválido.")
      | Some (uid, e) =>
          if e <=? seconds now
          then (users, reply 401 "El token ha expirado. Por favor, solicita un nuevo enlace.")
          else
            let hashedPassword := bcrypt_hash pw salt in
            let updated := count_users (live_with_id uid) users in
            let users' := update_users (live_with_id uid) (set_contrasena hashedPassword) users in
            if updated =? 0
            then (users', reply 404 "Usuario no encontrado o token inválido.")
            else (users', reply 200 "Contraseña actualizada exitosamente.")
      end
  | _, _ => (users, reply 400 "Token y nueva contraseña son requeridos.")
  end.

(** The [beforeUpdate] hook of the model: the password is hashed when it
    changed. *)
Definition beforeUpdate (salt : string) (previous usuario : Users.Usuario) : Users.Usuario :=
  if String.eqb (Users.contrasena usuario) (Users.contrasena previous)
  then usuario
  else set_contrasena (bcrypt_hash (Users.contrasena usuario) salt) usuario.

(** [export const changePassword = async (req, res) => ...] with
    [req.body = { usuario_id, nuevaContraseña }] *)
Definition changePassword (users : Users.t) (salt : string)
    (usuario_id : Z) (nueva : string) : Users.t * Http.Response :=
  match Gateway.findByPk usuario_id users with
  | None => (users, reply 404 "Usuario no encontrado.")
  | Some usuario =>
      let edited :=
        Users.mkUsuario (Users.usuario_id usuario) (Users.nombre usuario)
          (Users.rol_id usuario) (Users.correo usuario) nueva false
          (Users.deleted_at usuario) (Users.Rol usuario) in
      let saved := beforeUpdate salt usuario edited in
      (update_users (fun u => Users.usuario_id u =? Users.usuario_id usuario)
         (fun _ => saved) users,
       reply 200 "Contraseña actualizada correctamente.")
  end.

(** [export const deleteUser = async (req, res) => ...]: a soft delete at
    instant [now]. *)
Definition deleteUser (users : Users.t) (now : Z) (uid : Z) : Users.t * Http.Response :=
  let num := count_users (live_with_id uid) users in
  (update_users (live_with_id uid) (set_deleted_at (Some now)) users,
   reply 200 (if num =? 1 then "Usuario eliminado correctamente (soft delete)."
              else "Usuario no encontrado.")).

(** [export const restoreUser = async (req, res) => ...] *)
Definition restoreUser (users : Users.t) (uid : Z) : Users.t * Http.Response :=
  match find (fun u => Users.usuario_id u =? uid) users with
  | None => (users, reply 404 "Usuario no encontrado.")
  | Some usuario =>
      (update_users (fun u => Users.usuario_id u =? Users.usuario_id usuario)
         (set_deleted_at None) users,
       reply 200 "Usuario restaurado correctamente.")
  end.

(** [export const createUser = async (req, res) => ...] with
    [req.body = { correo, rol_id }].  [temporal] is what
    [crypto.randomBytes(6).toString('hex')] returns, [roles] the role table
    the [Rol] association reads, [valid_email] the model's [isEmail] check,
    and [first] and [second] tell whether each of the two calls of
    [sendTemporaryPasswordEmail] succeeds.  The result is the table, the
    mails sent and the response. *)
Definition createUser (users : Users.t) (roles : Z -> option string)
    (valid_email : string -> bool) (temporal salt : string)
    (mail : string) (rol_id : option Z) (first second : bool)
    : Users.t * list Mail * Http.Response :=
  match Users.findOne mail users with
  | Some _ => (users, [], reply 400 "El usuario ya existe.")
  | None =>
      match rol_id with
      | None => (users, [], reply 500 "Error al crear usuario.")
      | Some rid =>
          if negb (valid_email mail)
             || existsb (fun u => String.eqb (Users.correo u) mail) users
          then (users, [], reply 500 "Error al crear usuario.")
          else
            let stored :=
              if Js.truthy (Some temporal) then bcrypt_hash temporal salt else temporal in
            let usuario :=
              Users.mkUsuario (next_id users) "Pendiente" rid mail stored true None (roles rid) in
            let users' := users ++ [usuario] in
            let sent1 := if first then [mkMail mail temporal] else [] in
            if second
            then (users', sent1 ++ [mkMail mail temporal],
                  reply 201 "Usuario creado y contraseña temporal enviada.")
            else (users', sent1, reply 500 "Error al crear usuario.")
      end
  end.

End Handlers.

(** [usuario_id] is the primary key and [correo] is [unique]. *)
Definition well_formed (us : Users.t) : Prop :=
  NoDup (map Users.usuario_id us) /\ NoDup (map Users.correo us).

End Accounts.

(** ** More sample data *)

Module Sample.

(** The access tokens [Fixture.env] signs at second 1 for users 7, 8 and
    9; they expire at second 901. *)
#[local] Instance access : Gateway.AccessCodec := {|
  Gateway.jwt_decode_access := fun tok =>
    if String.eqb tok "A:7@1" then Some (7, 901)
    else if String.eqb tok "A:8@1" then Some (8, 901)
    else if String.eqb tok "A:9@1" then Some (9, 901)
    else None
|}.

(** Hashes as [Fixture.env] compares them. *)
#[local] Instance hasher : Accounts.Hasher := {|
  Accounts.bcrypt_hash := fun plain _ => String.append "$" plain
|}.

Definition carla : Users.Usuario :=
  Users.mkUsuario 9 "Carla" 3 "carla@sushi.co" "$admin" false None
    (Some "administrador"%string).

Definition staff : Users.t := [Fixture.ana; Fixture.beto; carla].

Definition roles (rol_id : Z) : option string :=
  if rol_id =? 1 then Some "mesero"%string
  else if rol_id =? 2 then Some "cocinero"%string
  else if rol_id =? 3 then Some "administrador"%string
  else None.

Definition isEmail (mail : string) : bool :=
  existsb (fun c => Ascii.eqb c "@"%char) (list_ascii_of_string mail).

Definition pedido : Bus.Pedido :=
  Bus.mkPedido 41 3 (Some 12) (Some "Ana"%string) "preparando" None.

Definition mesa : Bus.Mesa := Bus.mkMesa 3 12 "ocupada".

(** Eight events handed to the bus, one of them a table update. *)
Definition emits : list (Z * Bus.Emit) :=
  [(1, Bus.NuevoPedido pedido); (2, Bus.CambioEstado pedido "pendiente");
   (3, Bus.MesaActualizada mesa); (4, Bus.NuevoPedido pedido);
   (5, Bus.PedidoCancelado pedido); (6, Bus.NuevoPedido pedido);
   (7, Bus.CambioEstado pedido "preparando"); (8, Bus.NuevoPedido pedido)].

(** What a connection sends: it follows order 41, asks for the history
    and stops following. *)
Definition inbound : list (Z * Realtime.Inbound) :=
  [(10, Realtime.unir_sala_pedido (Some 41));
   (11, Realtime.obtener_historial);
   (12, Realtime.salir_sala_pedido (Some 41))].

(** A login of Beto, a refresh with the cookie it set, a logout. *)
Definition calls : list (Z * Calls.Call) :=
  [(1000, Calls.Login "beto@sushi.co" "clave" "u1" Fixture.no_token);
   (1200, Calls.Refresh "u2" (Fixture.with_cookie "Q:u1"));
   (1300, Calls.Logout (Fixture.with_cookie "Q:u2"))].

(** The connections of Carla and of Beto once the handshake at instant
    1000 is accepted. *)
Definition carla_socket : Realtime.Socket :=
  Realtime.on_connection (C := Fixture.clock) 1000
    (Realtime.mkSocket "sock" 9 "administrador" "Carla" ["sock"%string] []).

Definition beto_socket : Realtime.Socket :=
  Realtime.on_connection (C := Fixture.clock) 1000
    (Realtime.mkSocket "sock" 8 "cocinero" "Beto" ["sock"%string] []).

End Sample.

(** * Properties *)

(** ** Facts about the table *)

Section StoreFacts.
Import Store.

Lemma update_where_map {A} (proj : Session -> A) p f st :
  (forall s, proj (f s) = proj s) ->
  map proj (update_where p f st) = map proj st.
Proof.
  intros Hf. unfold update_where. rewrite map_map.
  apply map_ext. intros s. destruct (p s); auto.
Qed.

Lemma update_where_length p f st :
  List.length (update_where p f st) = List.length st.
Proof. unfold update_where. apply length_map. Qed.


Lemma update_where_In (p : Session -> bool) f st s :
  In s st -> In (if p s then f s else s) (update_where p f st).
Proof. intros H. unfold update_where. now apply (in_map (fun s => if p s then f s else s)). Qed.

Lemma has_session_id_spec sid st :
  has_session_id sid st = false <-> ~ In sid (map session_id st).
Proof.
  unfold has_session_id. induction st as [|s st IH]; simpl.
  - tauto.
  - rewrite orb_false_iff, IH. destruct (String.eqb_spec (session_id s) sid); intuition congruence.
Qed.

Lemma has_token_hash_spec h st :
  has_token_hash h st = false <-> ~ In h (map token_hash st).
Proof.
  unfold has_token_hash. induction st as [|s st IH]; simpl.
  - tauto.
  - rewrite orb_false_iff, IH. destruct (String.eqb_spec (token_hash s) h); intuition congruence.
Qed.

Lemma has_session_id_update sid p f st :
  (forall s, session_id (f s) = session_id s) ->
  has_session_id sid (update_where p f st) = has_session_id sid st.
Proof.
  intros Hf. unfold has_session_id, update_where.
  induction st as [|s st IH]; simpl; [reflexivity|].
  rewrite IH. destruct (p s); [rewrite Hf|]; reflexivity.
Qed.

Lemma has_token_hash_update h p f st :
  (forall s, token_hash (f s) = token_hash s) ->
  has_token_hash h (update_where p f st) = has_token_hash h st.
Proof.
  intros Hf. unfold has_token_hash, update_where.
  induction st as [|s st IH]; simpl; [reflexivity|].
  rewrite IH. destruct (p s); [rewrite Hf|]; reflexivity.
Qed.

Lemma next_id_above st s :
  In s st -> refresh_token_session_id s < next_id st.
Proof.
  unfold next_id. induction st as [|a st IH]; simpl; [tauto|].
  intros [->|H]; [|specialize (IH H)]; lia.
Qed.

Lemma next_id_fresh st : ~ In (next_id st) (map refresh_token_session_id st).
Proof.
  intros H. apply in_map_iff in H. destruct H as [s [Heq Hs]].
  apply next_id_above in Hs. lia.
Qed.

Lemma well_formed_update p f st :
  (forall s, refresh_token_session_id (f s) = refresh_token_session_id s) ->
  (forall s, session_id (f s) = session_id s) ->
  (forall s, token_hash (f s) = token_hash s) ->
  well_formed st -> well_formed (update_where p f st).
Proof.
  intros H1 H2 H3 [W1 [W2 W3]]. unfold well_formed.
  now rewrite !update_where_map by assumption.
Qed.

Lemma NoDup_snoc {A} (l : list A) (a : A) :
  NoDup l -> ~ In a l -> NoDup (l ++ [a]).
Proof.
  intros Hl Ha. apply NoDup_app; [assumption|repeat constructor; auto|].
  intros x Hx [<-|[]]. contradiction.
Qed.

Lemma well_formed_insert st row :
  well_formed st ->
  refresh_token_session_id row = next_id st ->
  has_session_id (session_id row) st = false ->
  has_token_hash (token_hash row) st = false ->
  well_formed (st ++ [row]).
Proof.
  intros [W1 [W2 W3]] Hid Hs Hh. unfold well_formed.
  rewrite !map_app. simpl. repeat split; apply NoDup_snoc; try assumption.
  - rewrite Hid. apply next_id_fresh.
  - now apply has_session_id_spec.
  - now apply has_token_hash_spec.
Qed.

(** Two rows of a well-formed table with the same key are the same row. *)
Lemma NoDup_map_inj {A B} (f : A -> B) (l : list A) (a b : A) :
  NoDup (map f l) -> In a l -> In b l -> f a = f b -> a = b.
Proof.
  induction l as [|x l IH]; simpl; [tauto|].
  intros Hnd Ha Hb Heq. inversion Hnd as [|? ? Hx Hl]; subst.
  destruct Ha as [->|Ha], Hb as [->|Hb]; auto.
  - exfalso. apply Hx. rewrite Heq. now apply in_map.
  - exfalso. apply Hx. rewrite <- Heq. now apply in_map.
Qed.

End StoreFacts.

(** ** The rotating-session controller *)

Section AuthFacts.
Import Handler Codec Props.
Context {E : Env}.

Lemma refreshToken_eq now uuid req st :
  run (Auth.refreshToken now uuid req) st =
  match presented req with
  | None => mkWorld st token_required
  | Some tok =>
    match verified now tok with
    | None => mkWorld st forbidden_invalid
    | Some c =>
      match find (Auth.matches_active now c (Auth.hashToken tok)) st with
      | None => mkWorld (revoke_all now (id c) st) forbidden_reused
      | Some row =>
        if Store.has_session_id uuid st
           || Store.has_token_hash (Auth.hashToken (Auth.createRefreshToken now (id c) uuid)) st
        then mkWorld st forbidden_invalid
        else mkWorld (rotated now uuid req c row st) (refreshed now uuid c)
      end
    end
  end.
Proof.
  unfold presented, Auth.refreshToken, run.
  destruct (Js.or _ _) as [tok|] eqn:Hor; [|reflexivity].
  destruct (Js.truthy (Some tok)) eqn:Ht; [|reflexivity].
  cbn [negb].
  unfold try_catch, bind, Auth.jwt_verify, verified.
  destruct (jwt_decode_refresh tok) as [c|]; [|reflexivity].
  destruct (exp c <=? seconds now); [reflexivity|].
  cbn -[Store.has_session_id Store.has_token_hash Store.update_where].
  destruct (find _ st) as [row|]; [|reflexivity].
  unfold transaction.
  cbn -[Store.has_session_id Store.has_token_hash Store.update_where].
  rewrite has_session_id_update, has_token_hash_update by reflexivity.
  destruct (Store.has_session_id uuid st || _); reflexivity.
Qed.

Lemma logout_eq now req st :
  run (Auth.logout now req) st =
  mkWorld
    match presented req with
    | None => st
    | Some tok =>
      match verified now tok with
      | None => st
      | Some c => Store.update_where (Auth.matches_logout c) (Store.set_revoked_at now) st
      end
    end
    logged_out.
Proof.
  unfold presented, Auth.logout, run.
  destruct (Js.or _ _) as [tok|] eqn:Hor; [|reflexivity].
  destruct (Js.truthy (Some tok)) eqn:Ht; [|reflexivity].
  unfold try_catch, bind, Auth.jwt_verify, verified.
  destruct (jwt_decode_refresh tok) as [c|]; [|reflexivity].
  destruct (exp c <=? seconds now); reflexivity.
Qed.


Lemma verified_iff now tok c : verified now tok = Some c <-> verifies now tok c.
Proof.
  unfold verified, verifies. destruct (jwt_decode_refresh tok) as [c'|].
  - destruct (Z.leb_spec (exp c') (seconds now)); split.
    + discriminate.
    + intros [Hc Hlt]. injection Hc as ->. lia.
    + intros Hc. injection Hc as ->. auto.
    + intros [Hc _]. exact Hc.
  - split; [discriminate|]. intros [Hc _]. discriminate.
Qed.

Lemma verified_none_iff now tok :
  verified now tok = None <->
  (jwt_decode_refresh tok = None \/
   exists c, jwt_decode_refresh tok = Some c /\ exp c <= seconds now).
Proof.
  unfold verified. destruct (jwt_decode_refresh tok) as [c|].
  - destruct (Z.leb_spec (exp c) (seconds now)); split.
    + intros _. right. now exists c.
    + reflexivity.
    + discriminate.
    + intros [Hc|[c' [Hc Hle]]]; [discriminate|]. injection Hc as <-. lia.
  - split; auto.
Qed.

Lemma find_all_false {A} (p : A -> bool) l :
  (forall x, In x l -> p x = false) -> find p l = None.
Proof.
  induction l as [|a l IH]; simpl; [reflexivity|].
  intros H. rewrite (H a) by auto. apply IH. intros x Hx. apply H. auto.
Qed.

Lemma active_of_revoke_all now uid st :
  Store.active_of uid (revoke_all now uid st) = [].
Proof.
  unfold Store.active_of, revoke_all, Store.update_where, Auth.active_of_user.
  induction st as [|s st IH]; simpl; [reflexivity|].
  destruct (Store.usuario_id s =? uid) eqn:Hu; simpl.
  - destruct (Store.revoked_at s) eqn:Hr; simpl; rewrite Hu; simpl.
    + rewrite Hr. simpl. exact IH.
    + exact IH.
  - rewrite Hu. simpl. exact IH.
Qed.


Lemma presented_none_iff req :
  presented req = None <->
  Js.truthy (Http.cookie_refreshToken req) = false /\
  Js.truthy (Http.body_refreshToken req) = false.
Proof.
  unfold presented, Js.or.
  destruct (Js.truthy (Http.cookie_refreshToken req)) eqn:Hc.
  - rewrite Hc. destruct (Http.cookie_refreshToken req); [|discriminate].
    split; [discriminate|]. intros [H _]. discriminate.
  - destruct (Js.truthy (Http.body_refreshToken req)) eqn:Hb.
    + destruct (Http.body_refreshToken req); [|discriminate].
      split; [discriminate|]. intros [_ H]. discriminate.
    + tauto.
Qed.

(** C5: a refresh request with neither a refresh cookie nor a body token
    is answered 401 and leaves the table, and the cookie, untouched. *)
Theorem refresh_without_token_is_401 :
  forall now uuid req st,
    Js.truthy (Http.cookie_refreshToken req) = false ->
    Js.truthy (Http.body_refreshToken req) = false ->
    let w := run (Auth.refreshToken now uuid req) st in
    Http.status (res w) = Some 401 /\
    db w = st /\
    Http.cookies (res w) = [] /\
    res w = token_required.
Proof.
  intros now uuid req st Hc Hb. cbv zeta.
  rewrite refreshToken_eq.
  assert (Hp : presented req = None) by (apply presented_none_iff; auto).
  rewrite Hp. repeat split.
Qed.

(** C9: a presented token that does not decode under the refresh secret,
    or that has expired, gets 403 with the cookie cleared and no row
    changed; the reuse answer, and any change of the table, only happens
    for a token that verifies. *)
Theorem refresh_unverified_touches_no_row :
  (forall now uuid req st tok,
      presented req = Some tok ->
      (jwt_decode_refresh tok = None \/
       exists c, jwt_decode_refresh tok = Some c /\ exp c <= seconds now) ->
      let w := run (Auth.refreshToken now uuid req) st in
      Http.status (res w) = Some 403 /\
      Http.cookies (res w) = [Http.ClearRefreshCookie] /\
      db w = st) /\
  (forall now uuid req st,
      let w := run (Auth.refreshToken now uuid req) st in
      db w <> st ->
      exists tok c, presented req = Some tok /\ verifies now tok c) /\
  (forall now uuid req st,
      let w := run (Auth.refreshToken now uuid req) st in
      res w = forbidden_reused ->
      exists tok c,
        presented req = Some tok /\ verifies now tok c /\
        find (Auth.matches_active now c (Auth.hashToken tok)) st = None /\
        db w = revoke_all now (id c) st).
Proof.
  split; [|split].
  - intros now uuid req st tok Hp Hv. cbv zeta.
    rewrite refreshToken_eq, Hp.
    apply verified_none_iff in Hv. rewrite Hv. repeat split.
  - intros now uuid req st. cbv zeta. rewrite refreshToken_eq.
    destruct (presented req) as [tok|].
    + destruct (verified now tok) as [c|] eqn:Hv.
      * intros _. exists tok, c. split; [reflexivity|]. now apply verified_iff.
      * simpl. congruence.
    + simpl. congruence.
  - intros now uuid req st. cbv zeta. rewrite refreshToken_eq.
    destruct (presented req) as [tok|]; [|discriminate].
    destruct (verified now tok) as [c|] eqn:Hv; [|discriminate].
    destruct (find _ st) as [row|] eqn:Hf.
    + destruct (_ || _); discriminate.
    + intros _. exists tok, c. split; [reflexivity|].
      split; [now apply verified_iff|]. split; [assumption|reflexivity].
Qed.

Lemma matches_active_true now c h s :
  Auth.matches_active now c h s = true <->
  Store.session_id s = sessionId c /\ Store.usuario_id s = id c /\
  Store.token_hash s = h /\ Store.revoked_at s = None /\ now < Store.expires_at s.
Proof.
  unfold Auth.matches_active. rewrite !andb_true_iff.
  rewrite !String.eqb_eq, Z.eqb_eq, Z.ltb_lt.
  destruct (Store.revoked_at s); simpl; intuition congruence.
Qed.





(** C3: the lookup wants [expires_at] strictly after the current instant:
    a session expiring exactly now is not matched, although it was a moment
    earlier, and presenting its token takes the reuse branch. *)
Theorem expiry_is_strict :
  forall now uuid req st tok c s,
    Store.well_formed st ->
    presented req = Some tok ->
    verifies now tok c ->
    In s st ->
    Store.session_id s = sessionId c ->
    Store.usuario_id s = id c ->
    Store.token_hash s = Auth.hashToken tok ->
    Store.revoked_at s = None ->
    Store.expires_at s = now ->
    Auth.matches_active now c (Auth.hashToken tok) s = false /\
    Auth.matches_active (now - 1) c (Auth.hashToken tok) s = true /\
    find (Auth.matches_active now c (Auth.hashToken tok)) st = None /\
    run (Auth.refreshToken now uuid req) st =
      mkWorld (revoke_all now (id c) st) forbidden_reused.
Proof.
  intros now uuid req st tok c s [_ [_ Wh]] Hp Hv Hs Hsid Hu Hh Hr He.
  assert (Hnot : Auth.matches_active now c (Auth.hashToken tok) s = false).
  { destruct (Auth.matches_active now c _ s) eqn:Hm; [|reflexivity].
    apply matches_active_true in Hm. lia. }
  assert (Hnone : find (Auth.matches_active now c (Auth.hashToken tok)) st = None).
  { apply find_all_false. intros x Hx.
    destruct (Auth.matches_active now c _ x) eqn:Hm; [|reflexivity].
    pose proof (proj1 (matches_active_true _ _ _ _) Hm) as [_ [_ [Hxh _]]].
    assert (x = s) by (apply (NoDup_map_inj Store.token_hash st); auto; congruence).
    subst x. congruence. }
  split; [exact Hnot|]. split.
  - apply matches_active_true. repeat split; auto. lia.
  - split; [exact Hnone|].
    rewrite refreshToken_eq, Hp. apply verified_iff in Hv. now rewrite Hv, Hnone.
Qed.

Lemma matches_logout_revoked now c s :
  Auth.matches_logout c (Store.set_revoked_at now s) = false.
Proof. unfold Auth.matches_logout. simpl. apply andb_false_r. Qed.

Lemma seconds_mono a b : a <= b -> seconds a <= seconds b.
Proof. intros H. unfold seconds. apply Z.div_le_mono; lia. Qed.

Lemma verified_later now now' tok c :
  now <= now' -> verified now' tok = Some c -> verified now tok = Some c.
Proof.
  intros Hle Hv. apply verified_iff in Hv. apply verified_iff.
  destruct Hv as [Hd Hlt]. split; [exact Hd|].
  pose proof (seconds_mono _ _ Hle). lia.
Qed.

(** C4: logout answers 200 with the cookie cleared and one fixed message
    whatever is presented; a token that verifies gets the ACTIVE rows of its
    session and user revoked, anything else changes no row; and logging out
    again with the same request changes nothing more. *)
Theorem logout_always_succeeds :
  forall now req st,
    let w := run (Auth.logout now req) st in
    Http.status (res w) = Some 200 /\
    Http.cookies (res w) = [Http.ClearRefreshCookie] /\
    res w = logged_out /\
    (forall tok c,
        presented req = Some tok -> verifies now tok c ->
        db w = Store.update_where (Auth.matches_logout c) (Store.set_revoked_at now) st /\
        forall s, In s (db w) ->
                  Store.session_id s = sessionId c -> Store.usuario_id s = id c ->
                  Store.revoked_at s <> None) /\
    (presented req = None -> db w = st) /\
    (forall tok, presented req = Some tok -> verified now tok = None -> db w = st) /\
    (forall now', now <= now' -> run (Auth.logout now' req) (db w) = w).
Proof.
  intros now req st. cbv zeta. rewrite logout_eq. cbn [db res].
  split; [reflexivity|]. split; [reflexivity|]. split; [reflexivity|].
  split; [|split; [|split]].
  - intros tok c Hp Hv. rewrite Hp. apply verified_iff in Hv. rewrite Hv.
    split; [reflexivity|].
    intros s Hs Hsid Hu. unfold Store.update_where in Hs.
    apply in_map_iff in Hs. destruct Hs as [s0 [Hg Hs0]].
    destruct (Auth.matches_logout c s0) eqn:Hm.
    + subst s. discriminate.
    + subst s. unfold Auth.matches_logout in Hm.
      rewrite Hsid, Hu, String.eqb_refl, Z.eqb_refl in Hm. simpl in Hm.
      destruct (Store.revoked_at s0); [discriminate|discriminate Hm].
  - intros Hp. now rewrite Hp.
  - intros tok Hp Hv. now rewrite Hp, Hv.
  - intros now' Hle. rewrite logout_eq. f_equal.
    destruct (presented req) as [tok|]; [|reflexivity].
    destruct (verified now' tok) as [c|] eqn:Hv'; [|reflexivity].
    rewrite (verified_later _ _ _ _ Hle Hv').
    unfold Store.update_where. rewrite map_map. apply map_ext.
    intros s. destruct (Auth.matches_logout c s) eqn:Hm.
    + now rewrite matches_logout_revoked.
    + now rewrite Hm.
Qed.

(** *** Rotation chains *)

Lemma refreshToken_200 now uuid req st :
  Http.status (res (run (Auth.refreshToken now uuid req) st)) = Some 200 ->
  exists tok c row,
    presented req = Some tok /\ verified now tok = Some c /\
    find (Auth.matches_active now c (Auth.hashToken tok)) st = Some row /\
    Store.has_session_id uuid st = false /\
    Store.has_token_hash (Auth.hashToken (Auth.createRefreshToken now (id c) uuid)) st = false /\
    run (Auth.refreshToken now uuid req) st =
      mkWorld (rotated now uuid req c row st) (refreshed now uuid c).
Proof.
  rewrite refreshToken_eq.
  destruct (presented req) as [tok|]; [|discriminate].
  destruct (verified now tok) as [c|] eqn:Hv; [|discriminate].
  destruct (find _ st) as [row|] eqn:Hf; [|discriminate].
  destruct (Store.has_session_id uuid st) eqn:Hs; [discriminate|].
  destruct (Store.has_token_hash _ st) eqn:Hh; [discriminate|].
  intros _. exists tok, c, row. repeat split; assumption || reflexivity.
Qed.

Lemma well_formed_rotated now uuid req c row st :
  Store.well_formed st ->
  Store.has_session_id uuid st = false ->
  Store.has_token_hash (Auth.hashToken (Auth.createRefreshToken now (id c) uuid)) st = false ->
  Store.well_formed (rotated now uuid req c row st).
Proof.
  intros W Hs Hh. unfold rotated. apply well_formed_insert.
  - now apply well_formed_update.
  - reflexivity.
  - cbn [Store.session_id]. now rewrite has_session_id_update.
  - cbn [Store.token_hash]. now rewrite has_token_hash_update.
Qed.

Lemma filter_unique {A B} (f : A -> B) (P : A -> bool) (l : list A) (r : A) :
  NoDup (map f l) -> In r l -> P r = true ->
  (forall s, In s l -> P s = true -> f s = f r) ->
  filter P l = [r].
Proof.
  induction l as [|a l IH]; simpl; [tauto|].
  intros Hnd Hr HP Hall. inversion Hnd as [|? ? Ha Hl]; subst.
  assert (Hnone : ~ In r l -> forall s, In s l -> P s = false).
  { intros Hnr s Hs. destruct (P s) eqn:HPs; [exfalso|reflexivity].
    destruct Hr as [->|Hr]; [|contradiction].
    apply Ha. rewrite <- (Hall s); auto. now apply in_map. }
  destruct Hr as [->|Hr].
  - rewrite HP. f_equal.
    destruct (filter P l) as [|x xs] eqn:Hf; [reflexivity|exfalso].
    assert (Hx : In x (filter P l)) by (rewrite Hf; now left).
    apply filter_In in Hx. destruct Hx as [Hx HPx].
    apply Ha. rewrite <- (Hall x); auto. now apply in_map.
  - destruct (P a) eqn:HPa.
    + exfalso. apply Ha. rewrite (Hall a); auto. now apply in_map.
    + apply IH; auto.
Qed.






Lemma find_app_split {A} (p : A -> bool) l1 l2 :
  find p (l1 ++ l2) = match find p l1 with Some x => Some x | None => find p l2 end.
Proof. induction l1 as [|a l1 IH]; simpl; [reflexivity|]. destruct (p a); auto. Qed.

Lemma find_map_same {A} (p : A -> bool) (g : A -> A) l :
  (forall x, p (g x) = p x) ->
  find p (map g l) = option_map g (find p l).
Proof.
  intros Hg. induction l as [|a l IH]; simpl; [reflexivity|].
  rewrite Hg. destruct (p a); auto.
Qed.

Lemma filter_nothing {A} (P : A -> bool) l :
  (forall x, In x l -> P x = false) -> filter P l = [].
Proof.
  induction l as [|a l IH]; simpl; [reflexivity|].
  intros H. rewrite (H a) by auto. apply IH. auto.
Qed.


Section Rotation.
Variables (now : Z) (uuid : string) (req : Http.Request) (c : Claims).
Variables (row : Store.Session) (st : Store.t) (h_old : string).

#[local] Abbreviation h_new := (Auth.hashToken (Auth.createRefreshToken now (id c) uuid)).
#[local] Abbreviation st' := (rotated now uuid req c row st).

Hypothesis W : Store.well_formed st.
Hypothesis Hfound : find (Auth.matches_active now c h_old) st = Some row.
Hypothesis Hfresh : Store.has_token_hash h_new st = false.






End Rotation.




End AuthFacts.

(** ** The stateless controller *)

Section StatelessFacts.
Import Handler Codec.
Context {E : Env}.

(** C10: in the mounted login, a user flagged [must_change_password] who
    gives the right password gets 200 with [mustChangePassword: true] and
    the user id, and neither an access token, nor a refresh token, nor a
    session row. *)
Theorem login_must_change_password :
  forall users now mail password st u,
    Users.findOne mail users = Some u ->
    bcrypt_compare password (Users.contrasena u) = true ->
    Users.must_change_password u = true ->
    let w := run (AuthStateless.login users now mail password) st in
    res w = Http.mkResponse (Some 200) []
              (Some (Http.MustChangePassword true (Users.usuario_id u)
                       "Debe cambiar su contraseña antes de continuar.")) /\
    Http.carries_access_token (res w) = false /\
    Http.carries_refresh_token (res w) = false /\
    db w = st.
Proof.
  intros users now mail password st u Hu Hpw Hflag. cbv zeta.
  unfold AuthStateless.login, run, try_catch. rewrite Hu, Hpw, Hflag.
  repeat split.
Qed.

End StatelessFacts.

(** ** The notification history *)

Section HistoryFacts.
Import History Props.
Context {C : Clock}.

Lemma slice0_firstn {A} (l : list A) (e : Z) :
  0 <= e -> slice0 l e = firstn (Z.to_nat e) l.
Proof.
  intros He. unfold slice0.
  destruct (Z.ltb_spec e 0) as [Hneg|_]; [lia|].
  destruct (Z.le_gt_cases e (Z.of_nat (List.length l))) as [Hle|Hgt].
  - now rewrite Z.min_l.
  - rewrite Z.min_r by lia. rewrite Nat2Z.id.
    rewrite !firstn_all2; auto. lia.
Qed.

Lemma addNotification_history now n h :
  maxHistory h = 6 ->
  history (addNotification now n h) = firstn 6 (stamped now n :: history h) /\
  maxHistory (addNotification now n h) = 6.
Proof.
  intros Hmax. unfold addNotification. rewrite Hmax.
  destruct (Z.ltb_spec 6 (Z.of_nat (List.length (stamped now n :: history h)))) as [Hlt|Hge];
    cbn [history maxHistory]; split; auto.
  - now rewrite slice0_firstn by lia.
  - rewrite firstn_all2; auto. lia.
Qed.

Lemma firstn_app_firstn {A} n (a b : list A) :
  firstn n (a ++ firstn n b) = firstn n (a ++ b).
Proof.
  rewrite !firstn_app, firstn_firstn. do 2 f_equal. lia.
Qed.

Lemma addAll_history events :
  forall h, maxHistory h = 6 -> (List.length (history h) <= 6)%nat ->
    history (addAll events h) = firstn 6 (rev (map stamp_event events) ++ history h) /\
    maxHistory (addAll events h) = 6.
Proof.
  induction events as [|e events IH]; intros h Hmax Hlen.
  - cbn [addAll fold_left map rev app]. rewrite firstn_all2; auto.
  - cbn [addAll fold_left].
    destruct (addNotification_history (fst e) (snd e) h Hmax) as [Hh Hm].
    assert (Hlen' : (List.length (history (addNotification (fst e) (snd e) h)) <= 6)%nat).
    { rewrite Hh. apply firstn_le_length. }
    destruct (IH _ Hm Hlen') as [IHh IHm]. unfold addAll in IHh, IHm.
    split; [|exact IHm].
    rewrite IHh, Hh. cbn [map rev].
    rewrite firstn_app_firstn.
    change (stamped (fst e) (snd e)) with (stamp_event e).
    rewrite <- app_assoc. reflexivity.
Qed.

Lemma stamped_spec now n :
  (Js.truthy (timestamp n) = false ->
   stamped now n = with_timestamp (toISOString now) n) /\
  (Js.truthy (timestamp n) = true -> stamped now n = n).
Proof. unfold stamped. destruct (Js.truthy (timestamp n)); split; auto; discriminate. Qed.

Lemma addAll_from_empty events :
  history (addAll events constructor) = firstn 6 (rev (map stamp_event events)) /\
  maxHistory (addAll events constructor) = 6.
Proof.
  destruct (addAll_history events constructor) as [Hh Hm]; cbn; auto; try lia.
  rewrite Hh. cbn [constructor history]. now rewrite app_nil_r.
Qed.

(** The capacity invariant, by induction on how the history was reached. *)
Lemma reachable_bounded h :
  reachable h -> maxHistory h = 6 /\ (List.length (history h) <= 6)%nat.
Proof.
  induction 1 as [|now n h Hr [IHm IHl]|h Hr [IHm IHl]].
  - split; [reflexivity|cbn; lia].
  - destruct (addNotification_history now n h IHm) as [Hh Hm].
    split; [exact Hm|]. rewrite Hh. apply firstn_le_length.
  - split; [exact IHm|cbn; lia].
Qed.

Lemma reachable_addAll events : forall h, reachable h -> reachable (addAll events h).
Proof.
  induction events as [|e events IH]; intros h Hr; cbn [addAll fold_left].
  - exact Hr.
  - apply IH. now apply reach_add.
Qed.

Lemma getRecentNotifications_default h :
  reachable h -> getRecentNotifications None h = history h.
Proof.
  intros Hr. destruct (reachable_bounded h Hr) as [Hm Hl].
  unfold getRecentNotifications. rewrite Hm, slice0_firstn by lia.
  now apply firstn_all2.
Qed.

(** C6: the history, which starts empty and changes only by appends and
    clears, never holds more than 6 entries; an append stamps a notification
    that has no timestamp, puts it in front and keeps the first 6;
    [getRecentNotifications] returns a prefix of what is kept, newest first;
    so after 10 appends, asking for 10 gives the last 6 appended, newest
    first. *)
Theorem history_keeps_last_six :
  (forall h, reachable h -> (List.length (history h) <= 6)%nat) /\
  (forall now n h,
      reachable h ->
      history (addNotification now n h) = firstn 6 (stamped now n :: history h)) /\
  (forall now n,
      (Js.truthy (timestamp n) = false ->
       timestamp (stamped now n) = Some (toISOString now) /\
       type (stamped now n) = type n /\ message (stamped now n) = message n /\
       data (stamped now n) = data n /\ priority (stamped now n) = priority n) /\
      (Js.truthy (timestamp n) = true -> stamped now n = n)) /\
  (forall limit h,
      0 <= limit ->
      getRecentNotifications (Some limit) h = firstn (Z.to_nat limit) (history h)) /\
  (forall events,
      history (addAll events constructor) = firstn 6 (rev (map stamp_event events))) /\
  (forall events,
      List.length events = 10%nat ->
      getRecentNotifications (Some 10) (addAll events constructor) =
        rev (map stamp_event (skipn 4 events))).
Proof.
  split; [|split; [|split; [|split; [|split]]]].
  - intros h Hr. now apply reachable_bounded.
  - intros now n h Hr. apply addNotification_history. now apply reachable_bounded.
  - intros now n. destruct (stamped_spec now n) as [Hf Ht]. split.
    + intros H. rewrite (Hf H). repeat split.
    + exact Ht.
  - intros limit h Hl. unfold getRecentNotifications. now apply slice0_firstn.
  - intros events. apply addAll_from_empty.
  - intros events Hlen. unfold getRecentNotifications.
    rewrite slice0_firstn by lia. destruct (addAll_from_empty events) as [-> _].
    change (Z.to_nat 10) with 10%nat. rewrite firstn_firstn.
    change (Nat.min 10 6) with 6%nat.
    rewrite firstn_rev, length_map, Hlen, skipn_map. reflexivity.
Qed.

End HistoryFacts.

(** ** Rooms and socket events *)

Section RealtimeFacts.
Import Realtime Props.
Context {C : History.Clock}.

Lemma mem_In room l : mem room l = true <-> In room l.
Proof.
  unfold mem. rewrite existsb_exists. split.
  - intros [x [Hx Heq]]. apply String.eqb_eq in Heq. now subst.
  - intros H. exists room. split; [assumption|apply String.eqb_refl].
Qed.

Lemma join_rooms room s r :
  In r (rooms (join room s)) <-> In r (rooms s) \/ r = room.
Proof.
  unfold join. destruct (mem room (rooms s)) eqn:Hm.
  - apply mem_In in Hm. split; [auto|]. intros [H| ->]; assumption.
  - cbn [rooms]. rewrite in_app_iff. simpl. intuition.
Qed.

Lemma join_frame room s :
  socket_id (join room s) = socket_id s /\ userId (join room s) = userId s /\
  userRol (join room s) = userRol s /\ userName (join room s) = userName s /\
  emitted (join room s) = emitted s.
Proof. unfold join. destruct (mem room (rooms s)); repeat split. Qed.

Lemma join_NoDup room s : NoDup (rooms s) -> NoDup (rooms (join room s)).
Proof.
  intros H. unfold join. destruct (mem room (rooms s)) eqn:Hm; [assumption|].
  cbn [rooms]. apply NoDup_snoc; [assumption|].
  intros Hin. apply mem_In in Hin. congruence.
Qed.

(** The switch of [assignUserToRooms] joins the rooms of [rooms_for], in
    that order. *)
Lemma assignUserToRooms_joins s :
  assignUserToRooms s =
  fold_left (fun acc r => join r acc) (rooms_for (userRol s) (userId s)) s.
Proof.
  unfold assignUserToRooms, rooms_for, role_rooms, user_room.
  destruct (String.eqb (userRol s) "cocinero"); [reflexivity|].
  destruct (String.eqb (userRol s) "mesero"); [reflexivity|].
  destruct (String.eqb (userRol s) "administrador"); reflexivity.
Qed.

Lemma fold_join_rooms l : forall s r,
  In r (rooms (fold_left (fun acc r => join r acc) l s)) <-> In r (rooms s) \/ In r l.
Proof.
  induction l as [|a l IH]; intros s r; cbn [fold_left].
  - simpl. tauto.
  - rewrite IH, join_rooms. simpl. intuition.
Qed.

Lemma fold_join_frame l : forall s,
  let s' := fold_left (fun acc r => join r acc) l s in
  socket_id s' = socket_id s /\ userId s' = userId s /\
  userRol s' = userRol s /\ userName s' = userName s /\
  emitted s' = emitted s /\ (NoDup (rooms s) -> NoDup (rooms s')).
Proof.
  induction l as [|a l IH]; intros s; cbn [fold_left].
  - cbv zeta. tauto.
  - cbv zeta. destruct (IH (join a s)) as [H1 [H2 [H3 [H4 [H5 H6]]]]].
    destruct (join_frame a s) as [J1 [J2 [J3 [J4 J5]]]].
    repeat split; try congruence.
    intros Hnd. apply H6. now apply join_NoDup.
Qed.

Lemma fold_join_fresh l : forall s,
  NoDup l -> (forall r, In r l -> ~ In r (rooms s)) ->
  rooms (fold_left (fun acc r => join r acc) l s) = rooms s ++ l.
Proof.
  induction l as [|a l IH]; intros s Hnd Hfresh; cbn [fold_left].
  - now rewrite app_nil_r.
  - inversion Hnd as [|? ? Ha Hl]; subst.
    assert (Hm : mem a (rooms s) = false).
    { destruct (mem a (rooms s)) eqn:Hm; [|reflexivity].
      apply mem_In in Hm. exfalso. apply (Hfresh a); simpl; auto. }
    rewrite IH; auto.
    + unfold join. rewrite Hm. cbn [rooms]. now rewrite <- app_assoc.
    + intros r Hr Hin. apply join_rooms in Hin. destruct Hin as [Hin| ->].
      * apply (Hfresh r); simpl; auto.
      * contradiction.
Qed.

Lemma rooms_for_NoDup rol uid : NoDup (rooms_for rol uid).
Proof.
  unfold rooms_for, role_rooms, user_room.
  destruct (String.eqb rol "cocinero"); [|destruct (String.eqb rol "mesero");
    [|destruct (String.eqb rol "administrador")]];
    cbn [app];
    repeat (apply NoDup_cons; [cbn; intuition discriminate|]); apply NoDup_nil.
Qed.

(** C7: the rooms a connection joins are a function of its role and user
    id: the global room, the rooms of the role (cooks; waiters; for an
    administrator the administrators', cooks' and waiters' rooms; none for
    any other role) and the user's own room; the connection callback runs
    the assignment once. *)
Theorem rooms_follow_the_role :
  forall s,
    let s' := assignUserToRooms s in
    let global := "notificaciones_globales"%string in
    let own := user_room (userId s) in
    (forall r, In r (rooms s') <->
               In r (rooms s) \/ In r (rooms_for (userRol s) (userId s))) /\
    ((forall r, In r (rooms_for (userRol s) (userId s)) -> ~ In r (rooms s)) ->
     rooms s' = rooms s ++ rooms_for (userRol s) (userId s)) /\
    (userRol s = "cocinero"%string ->
     rooms_for (userRol s) (userId s) = [global; "cocineros"%string; own]) /\
    (userRol s = "mesero"%string ->
     rooms_for (userRol s) (userId s) = [global; "meseros"%string; own]) /\
    (userRol s = "administrador"%string ->
     rooms_for (userRol s) (userId s) =
       [global; "administradores"%string; "cocineros"%string; "meseros"%string; own]) /\
    (userRol s <> "cocinero"%string -> userRol s <> "mesero"%string ->
     userRol s <> "administrador"%string ->
     rooms_for (userRol s) (userId s) = [global; own]) /\
    (userId s' = userId s /\ userRol s' = userRol s /\ emitted s' = emitted s) /\
    (NoDup (rooms s) -> NoDup (rooms s')) /\
    (forall now, rooms (on_connection now s) = rooms s').
Proof.
  intros s. cbv zeta. rewrite assignUserToRooms_joins.
  destruct (fold_join_frame (rooms_for (userRol s) (userId s)) s)
    as [_ [H2 [H3 [_ [H5 H6]]]]].
  split; [|split; [|split; [|split; [|split; [|split; [|split; [|split]]]]]]].
  - intros r. apply fold_join_rooms.
  - intros Hfresh. apply fold_join_fresh; [apply rooms_for_NoDup|exact Hfresh].
  - intros ->. reflexivity.
  - intros ->. reflexivity.
  - intros ->. reflexivity.
  - intros Hc Hm Ha. unfold rooms_for, role_rooms.
    apply String.eqb_neq in Hc, Hm, Ha. now rewrite Hc, Hm, Ha.
  - auto.
  - exact H6.
  - intros now. unfold on_connection. cbn [emit rooms].
    now rewrite assignUserToRooms_joins.
Qed.

(** C8: on [obtener_historial] an administrator is sent the current
    history snapshot (all of the history, as it never exceeds its capacity)
    and anybody else an [error] event; exactly one event is emitted either
    way. *)
Theorem history_request_is_answered :
  forall hist now s,
    let s' := on_event hist now obtener_historial s in
    (userRol s = "administrador"%string ->
     emitted s' = emitted s ++
       [historial_dashboard (History.getRecentNotifications None hist)]) /\
    (userRol s <> "administrador"%string ->
     emitted s' = emitted s ++ [error "No autorizado para obtener historial"]) /\
    List.length (emitted s') = S (List.length (emitted s)) /\
    rooms s' = rooms s /\
    (reachable hist ->
     History.getRecentNotifications None hist = History.history hist).
Proof.
  intros hist now s. cbv zeta. cbn [on_event].
  split; [|split; [|split; [|split]]].
  - intros ->. reflexivity.
  - intros Hne. apply String.eqb_neq in Hne. now rewrite Hne.
  - destruct (String.eqb (userRol s) "administrador"); cbn [emit emitted];
      rewrite length_app; simpl; lia.
  - destruct (String.eqb (userRol s) "administrador"); reflexivity.
  - apply getRecentNotifications_default.
Qed.

End RealtimeFacts.

(** ** The properties on concrete runs *)

Lemma table_well_formed : Store.well_formed Fixture.table.
Proof.
  unfold Store.well_formed, Fixture.table. cbn [map].
  repeat split;
    repeat (apply NoDup_cons; [simpl; intuition congruence|]); apply NoDup_nil.
Defined.



Lemma expiry_is_strict_witness :
  Props.verifies (E := Fixture.env) 5000 "R:s1" Fixture.claims_s1 /\
  In Fixture.s1 Fixture.table /\
  Store.expires_at Fixture.s1 = 5000 /\
  Auth.matches_active 5000 Fixture.claims_s1 "#R:s1" Fixture.s1 = false /\
  Auth.matches_active 4999 Fixture.claims_s1 "#R:s1" Fixture.s1 = true /\
  Handler.run (Auth.refreshToken (E := Fixture.env) 5000 "u1" (Fixture.with_cookie "R:s1"))
    Fixture.table
  = Handler.mkWorld (Props.revoke_all 5000 7 Fixture.table) Props.forbidden_reused.
Proof.
  assert (V : Props.verifies (E := Fixture.env) 5000 "R:s1" Fixture.claims_s1)
    by (split; [reflexivity|vm_compute; reflexivity]).
  assert (I : In Fixture.s1 Fixture.table) by (left; reflexivity).
  pose proof (expiry_is_strict (E := Fixture.env)
                5000 "u1"%string (Fixture.with_cookie "R:s1") Fixture.table "R:s1"%string
                Fixture.claims_s1 Fixture.s1
                table_well_formed eq_refl V I eq_refl eq_refl eq_refl eq_refl eq_refl)
    as [H1 [H2 [_ H4]]].
  split; [exact V|]. split; [exact I|]. split; [reflexivity|].
  split; [exact H1|]. split; [exact H2|exact H4].
Defined.

Lemma logout_always_succeeds_witness :
  Props.verifies (E := Fixture.env) 1000 "R:s1" Fixture.claims_s1 /\
  1000 <= 2000 /\
  Handler.db (Handler.run (Auth.logout (E := Fixture.env) 1000 (Fixture.with_cookie "R:s1"))
                Fixture.table)
  = [Store.set_revoked_at 1000 Fixture.s1; Fixture.s2; Fixture.s3] /\
  Handler.run (Auth.logout (E := Fixture.env) 2000 (Fixture.with_cookie "R:s1"))
    (Handler.db (Handler.run (Auth.logout (E := Fixture.env) 1000 (Fixture.with_cookie "R:s1"))
                   Fixture.table))
  = Handler.run (Auth.logout (E := Fixture.env) 1000 (Fixture.with_cookie "R:s1"))
      Fixture.table /\
  Handler.res (Handler.run (Auth.logout (E := Fixture.env) 1000 Fixture.no_token)
                 Fixture.table) = Props.logged_out.
Proof.
  assert (V : Props.verifies (E := Fixture.env) 1000 "R:s1" Fixture.claims_s1)
    by (split; [reflexivity|vm_compute; reflexivity]).
  assert (L : 1000 <= 2000) by lia.
  pose proof (logout_always_succeeds (E := Fixture.env)
                1000 (Fixture.with_cookie "R:s1") Fixture.table)
    as [_ [_ [_ [Hrev [_ [_ Hidem]]]]]].
  pose proof (logout_always_succeeds (E := Fixture.env) 1000 Fixture.no_token Fixture.table)
    as [_ [_ [Hres _]]].
  split; [exact V|]. split; [exact L|].
  split; [exact (proj1 (Hrev "R:s1"%string Fixture.claims_s1 eq_refl V))|].
  split; [exact (Hidem 2000 L)|exact Hres].
Defined.

Lemma refresh_without_token_is_401_witness :
  Js.truthy (Http.cookie_refreshToken Fixture.no_token) = false /\
  Js.truthy (Http.body_refreshToken Fixture.no_token) = false /\
  Http.status (Handler.res
    (Handler.run (Auth.refreshToken (E := Fixture.env) 1000 "u1" Fixture.no_token)
       Fixture.table)) = Some 401 /\
  Handler.db
    (Handler.run (Auth.refreshToken (E := Fixture.env) 1000 "u1" Fixture.no_token)
       Fixture.table) = Fixture.table.
Proof.
  pose proof (refresh_without_token_is_401 (E := Fixture.env)
                1000 "u1"%string Fixture.no_token Fixture.table eq_refl eq_refl)
    as [H1 [H2 _]].
  split; [reflexivity|]. split; [reflexivity|]. split; [exact H1|exact H2].
Defined.

Lemma refresh_unverified_touches_no_row_witness :
  (Codec.jwt_decode_refresh (Env := Fixture.env) "X:s1" = None /\
   Handler.db
     (Handler.run (Auth.refreshToken (E := Fixture.env) 1000 "u1" (Fixture.with_cookie "X:s1"))
        Fixture.table) = Fixture.table) /\
  (Codec.jwt_decode_refresh (Env := Fixture.env) "R:s1" = Some Fixture.claims_s1 /\
   Codec.exp Fixture.claims_s1 <= Codec.seconds 2000000 /\
   Handler.db
     (Handler.run (Auth.refreshToken (E := Fixture.env) 2000000 "u1" (Fixture.with_cookie "R:s1"))
        Fixture.table) = Fixture.table).
Proof.
  assert (X : Codec.exp Fixture.claims_s1 <= Codec.seconds 2000000)
    by (vm_compute; discriminate).
  split.
  - split; [reflexivity|].
    exact (proj2 (proj2
      (proj1 (refresh_unverified_touches_no_row (E := Fixture.env))
         1000 "u1"%string (Fixture.with_cookie "X:s1") Fixture.table "X:s1"%string
         eq_refl (or_introl eq_refl)))).
  - split; [reflexivity|]. split; [exact X|].
    exact (proj2 (proj2
      (proj1 (refresh_unverified_touches_no_row (E := Fixture.env))
         2000000 "u1"%string (Fixture.with_cookie "R:s1") Fixture.table "R:s1"%string
         eq_refl (or_intror (ex_intro _ Fixture.claims_s1 (conj eq_refl X)))))).
Defined.

Lemma login_must_change_password_witness :
  Users.findOne "ana@sushi.co" [Fixture.ana; Fixture.beto] = Some Fixture.ana /\
  Codec.bcrypt_compare (Env := Fixture.env) "secreta" (Users.contrasena Fixture.ana) = true /\
  Users.must_change_password Fixture.ana = true /\
  Http.carries_access_token
    (Handler.res (Handler.run
       (AuthStateless.login (E := Fixture.env) [Fixture.ana; Fixture.beto] 1000
          "ana@sushi.co" "secreta") Fixture.table)) = false /\
  Handler.db (Handler.run
       (AuthStateless.login (E := Fixture.env) [Fixture.ana; Fixture.beto] 1000
          "ana@sushi.co" "secreta") Fixture.table) = Fixture.table.
Proof.
  pose proof (login_must_change_password (E := Fixture.env)
                [Fixture.ana; Fixture.beto] 1000 "ana@sushi.co"%string "secreta"%string
                Fixture.table Fixture.ana eq_refl eq_refl eq_refl)
    as [_ [H2 [_ H4]]].
  split; [reflexivity|]. split; [reflexivity|]. split; [reflexivity|].
  split; [exact H2|exact H4].
Defined.

Lemma history_keeps_last_six_witness :
  List.length Fixture.ten = 10%nat /\
  History.getRecentNotifications (Some 10)
    (History.addAll (C := Fixture.clock) Fixture.ten History.constructor)
  = rev (map (Props.stamp_event (C := Fixture.clock)) (skipn 4 Fixture.ten)) /\
  map History.message
    (History.getRecentNotifications (Some 10)
       (History.addAll (C := Fixture.clock) Fixture.ten History.constructor))
  = ["10"; "9"; "8"; "7"; "6"; "5"]%string.
Proof.
  pose proof (proj2 (proj2 (proj2 (proj2 (proj2
                (history_keeps_last_six (C := Fixture.clock))))))
                Fixture.ten eq_refl) as H.
  split; [reflexivity|]. split; [exact H|].
  rewrite H. reflexivity.
Defined.

Lemma rooms_follow_the_role_witness :
  Realtime.userRol (Fixture.socket_of "administrador") = "administrador"%string /\
  Realtime.rooms (Realtime.on_connection (C := Fixture.clock) 5
                    (Fixture.socket_of "administrador"))
  = Realtime.rooms (Realtime.assignUserToRooms (Fixture.socket_of "administrador")) /\
  Realtime.rooms (Realtime.assignUserToRooms (Fixture.socket_of "administrador"))
  = ["sock"; "notificaciones_globales"; "administradores"; "cocineros"; "meseros";
     "usuario_7"]%string /\
  Realtime.userRol (Fixture.socket_of "gerente") <> "cocinero"%string /\
  Realtime.userRol (Fixture.socket_of "gerente") <> "mesero"%string /\
  Realtime.userRol (Fixture.socket_of "gerente") <> "administrador"%string /\
  Realtime.rooms (Realtime.assignUserToRooms (Fixture.socket_of "gerente"))
  = ["sock"; "notificaciones_globales"; "usuario_7"]%string.
Proof.
  pose proof (rooms_follow_the_role (C := Fixture.clock) (Fixture.socket_of "administrador"))
    as [_ [Hex [_ [_ [Hadm [_ [_ [_ Hconn]]]]]]]].
  pose proof (rooms_follow_the_role (C := Fixture.clock) (Fixture.socket_of "gerente"))
    as [_ [Hex' [_ [_ [_ [Hnone _]]]]]].
  assert (N1 : Realtime.userRol (Fixture.socket_of "gerente") <> "cocinero"%string)
    by (cbn; discriminate).
  assert (N2 : Realtime.userRol (Fixture.socket_of "gerente") <> "mesero"%string)
    by (cbn; discriminate).
  assert (N3 : Realtime.userRol (Fixture.socket_of "gerente") <> "administrador"%string)
    by (cbn; discriminate).
  split; [reflexivity|]. split; [exact (Hconn 5)|].
  split.
  { rewrite Hex.
    - rewrite (Hadm eq_refl). reflexivity.
    - rewrite (Hadm eq_refl). intros r Hin [<-|[]]. cbn in Hin. intuition discriminate. }
  split; [exact N1|]. split; [exact N2|]. split; [exact N3|].
  rewrite Hex'.
  - rewrite (Hnone N1 N2 N3). reflexivity.
  - rewrite (Hnone N1 N2 N3). intros r Hin [<-|[]]. cbn in Hin. intuition discriminate.
Defined.

Lemma history_request_is_answered_witness :
  Realtime.userRol (Fixture.socket_of "mesero") <> "administrador"%string /\
  Realtime.emitted
    (Realtime.on_event (C := Fixture.clock) History.constructor 5
       Realtime.obtener_historial (Fixture.socket_of "mesero"))
  = [Realtime.error "No autorizado para obtener historial"] /\
  Realtime.emitted
    (Realtime.on_event (C := Fixture.clock)
       (History.addAll (C := Fixture.clock) Fixture.ten History.constructor) 5
       Realtime.obtener_historial (Fixture.socket_of "administrador"))
  = [Realtime.historial_dashboard
       (History.getRecentNotifications None
          (History.addAll (C := Fixture.clock) Fixture.ten History.constructor))].
Proof.
  assert (N : Realtime.userRol (Fixture.socket_of "mesero") <> "administrador"%string)
    by (cbn; discriminate).
  pose proof (history_request_is_answered (C := Fixture.clock)
                History.constructor 5 (Fixture.socket_of "mesero"))
    as [_ [Hno _]].
  pose proof (history_request_is_answered (C := Fixture.clock)
                (History.addAll (C := Fixture.clock) Fixture.ten History.constructor) 5
                (Fixture.socket_of "administrador"))
    as [Hyes _].
  split; [exact N|]. split; [exact (Hno N)|exact (Hyes eq_refl)].
Defined.

(** * Further properties *)

(** ** Sessions over sequences of requests *)

Section SessionExtras.
Import Handler Codec Props Calls.
Context {E : Env}.

(** The decision tree of the rotating [login]. *)
Lemma login_eq users now uuid mail password req st :
  run (Auth.login users now uuid mail password req) st =
  match Users.findOne mail users with
  | None =>
      mkWorld st (Http.mkResponse (Some 404) [] (Some (Http.Message "Usuario no encontrado.")))
  | Some u =>
      if negb (bcrypt_compare password (Users.contrasena u))
      then mkWorld st
             (Http.mkResponse (Some 401) [] (Some (Http.Message "Contraseña inválida.")))
      else
        let tok := Auth.createRefreshToken now (Users.usuario_id u) uuid in
        if Store.has_session_id uuid st || Store.has_token_hash (Auth.hashToken tok) st
        then mkWorld st
               (Http.mkResponse (Some 500) []
                  (Some (Http.Message (Auth.error_message SequelizeUniqueConstraintError))))
        else
          let st' := st ++ [Store.mkSession (Store.next_id st) uuid (Users.usuario_id u)
                              (Auth.hashToken tok) None None (now + REFRESH_TOKEN_MAX_AGE_MS)
                              (Js.or_null (Http.header_user_agent req))
                              (Js.or_null (Http.ip req))] in
          match Users.Rol u with
          | Some r =>
              mkWorld st'
                (Http.mkResponse (Some 200)
                   [Http.SetRefreshCookie tok REFRESH_TOKEN_MAX_AGE_MS]
                   (Some (Http.Login (Users.usuario_id u) (Users.nombre u) r
                            (Auth.createAccessToken now (Users.usuario_id u)))))
          | None =>
              mkWorld st'
                (Http.mkResponse (Some 500)
                   [Http.SetRefreshCookie tok REFRESH_TOKEN_MAX_AGE_MS]
                   (Some (Http.Message (Auth.error_message TypeError))))
          end
  end.
Proof.
  unfold Auth.login, run, try_catch.
  destruct (Users.findOne mail users) as [u|]; [|reflexivity].
  destruct (bcrypt_compare password (Users.contrasena u)); [|reflexivity].
  cbn [negb]. unfold bind, Auth.create, get_db, Auth.nombre_rol.
  cbn -[Store.has_session_id Store.has_token_hash Auth.error_message].
  destruct (Store.has_session_id uuid st || _); [reflexivity|].
  destruct (Users.Rol u); reflexivity.
Qed.





(** X2: a login with an unknown or soft-deleted mail is answered 404 and
    one with a wrong password 401; neither writes a row nor sets a
    cookie. *)
Theorem login_failure_leaves_no_trace :
  (forall users now uuid mail password req st,
      (forall u, In u users -> Users.correo u = mail -> Users.deleted_at u <> None) ->
      run (Auth.login users now uuid mail password req) st =
        mkWorld st (Http.mkResponse (Some 404) []
                      (Some (Http.Message "Usuario no encontrado.")))) /\
  (forall users now uuid mail password req st u,
      Users.findOne mail users = Some u ->
      bcrypt_compare password (Users.contrasena u) = false ->
      run (Auth.login users now uuid mail password req) st =
        mkWorld st (Http.mkResponse (Some 401) []
                      (Some (Http.Message "Contraseña inválida.")))).
Proof.
  split.
  - intros users now uuid mail password req st Hdel.
    rewrite login_eq.
    assert (Hnone : Users.findOne mail users = None).
    { unfold Users.findOne. apply find_all_false. intros u Hu.
      destruct (String.eqb_spec (Users.correo u) mail) as [Heq|]; [|reflexivity].
      specialize (Hdel u Hu Heq). destruct (Users.deleted_at u); [reflexivity|congruence]. }
    now rewrite Hnone.
  - intros users now uuid mail password req st u Hu Hpw.
    rewrite login_eq, Hu, Hpw. reflexivity.
Qed.



(** X4: a refresh token whose session was closed by logout is treated as
    reuse when it is presented again: 403, and every ACTIVE row of the user
    is revoked. *)
Theorem logged_out_token_is_reuse :
  forall st now now' uuid req req' tok c,
    presented req = Some tok ->
    presented req' = Some tok ->
    verifies now tok c ->
    verifies now' tok c ->
    let st1 := db (run (Auth.logout now req) st) in
    let w := run (Auth.refreshToken now' uuid req') st1 in
    res w = forbidden_reused /\
    db w = revoke_all now' (id c) st1 /\
    Store.active_of (id c) (db w) = [].
Proof.
  intros st now now' uuid req req' tok c Hp Hp' Hv Hv'. cbv zeta.
  rewrite logout_eq, Hp. cbn [db].
  apply verified_iff in Hv, Hv'. rewrite Hv.
  rewrite refreshToken_eq, Hp', Hv'.
  rewrite find_all_false.
  - cbn [db res]. repeat split. apply active_of_revoke_all.
  - intros x Hx. unfold Store.update_where in Hx. apply in_map_iff in Hx.
    destruct Hx as [s [<- _]].
    unfold Auth.matches_logout, Auth.matches_active.
    destruct (String.eqb (Store.session_id s) (sessionId c)) eqn:Hs;
      destruct (Store.usuario_id s =? id c) eqn:Hu;
      destruct (Store.revoked_at s) eqn:Hr; cbn;
      rewrite ?Hs, ?Hu, ?Hr; cbn; rewrite ?andb_false_r; reflexivity.
Qed.


(** *** What a request can and cannot change *)

Lemma filter_map_fixed {A} (p : A -> bool) (g : A -> A) l :
  (forall s, In s l -> p (g s) = p s) ->
  (forall s, In s l -> p s = true -> g s = s) ->
  filter p (map g l) = filter p l.
Proof.
  induction l as [|a l IH]; intros Hp Hg; cbn [map filter]; [reflexivity|].
  rewrite Hp by (now left). destruct (p a) eqn:Hpa.
  - rewrite Hg by (auto; now left). f_equal. apply IH; intros; [apply Hp|apply Hg]; auto;
      now right.
  - apply IH; intros; [apply Hp|apply Hg]; auto; now right.
Qed.

Lemma sessions_of_update uid (p : Store.Session -> bool) f st :
  (forall s, Store.usuario_id (f s) = Store.usuario_id s) ->
  (forall s, In s st -> p s = true -> Store.usuario_id s <> uid) ->
  sessions_of uid (Store.update_where p f st) = sessions_of uid st.
Proof.
  intros Hf Hp. unfold sessions_of, Store.update_where. apply filter_map_fixed.
  - intros s _. destruct (p s); [now rewrite Hf|reflexivity].
  - intros s Hs Hu. destruct (p s) eqn:Hps; [|reflexivity].
    apply Z.eqb_eq in Hu. exfalso. now apply (Hp s Hs Hps).
Qed.

Lemma sessions_of_snoc_other uid st row :
  Store.usuario_id row <> uid ->
  sessions_of uid (st ++ [row]) = sessions_of uid st.
Proof.
  intros Hne. unfold sessions_of. rewrite filter_app. cbn [filter].
  apply Z.eqb_neq in Hne. rewrite Hne. apply app_nil_r.
Qed.

(** X6: a request changes the rows of a user only if it carries a
    credential of that user: the user's mail for a login, a verifying
    refresh token of the user for refresh and logout. *)
Theorem sessions_change_only_for_their_user :
  forall users now call uid st,
    Store.well_formed st ->
    ~ acts_for users now call uid ->
    sessions_of uid (db (run (handle users now call) st)) = sessions_of uid st.
Proof.
  intros users now call uid st W Hnot.
  destruct call as [mail password uuid req|uuid req|req]; cbn [handle].
  - rewrite login_eq.
    destruct (Users.findOne mail users) as [u|] eqn:Hu; [|reflexivity].
    destruct (negb _); [reflexivity|]. cbv zeta.
    destruct (_ || _); [reflexivity|].
    assert (Hne : Users.usuario_id u <> uid).
    { intros Heq. apply Hnot. cbn. now exists u. }
    destruct (Users.Rol u); cbn [db]; now apply sessions_of_snoc_other.
  - rewrite refreshToken_eq.
    destruct (presented req) as [tok|] eqn:Hp; [|reflexivity].
    destruct (verified now tok) as [c|] eqn:Hv; [|reflexivity].
    assert (Hne : id c <> uid).
    { intros Heq. apply Hnot. cbn. exists tok, c. split; [assumption|].
      split; [now apply verified_iff|assumption]. }
    destruct (find _ st) as [row|] eqn:Hf.
    + destruct (_ || _); [reflexivity|]. cbn [db]. unfold rotated.
      rewrite sessions_of_snoc_other by exact Hne.
      apply sessions_of_update; [reflexivity|].
      intros s Hs Hpk. apply Z.eqb_eq in Hpk.
      apply find_some in Hf. destruct Hf as [Hrow Hm].
      apply matches_active_true in Hm. destruct Hm as [_ [Hru _]].
      assert (s = row).
      { destruct W as [Wpk _].
        apply (NoDup_map_inj Store.refresh_token_session_id st); auto. }
      subst s. congruence.
    + cbn [db]. unfold revoke_all. apply sessions_of_update; [reflexivity|].
      intros s _ Ha. unfold Auth.active_of_user in Ha.
      apply andb_true_iff in Ha. destruct Ha as [Ha _].
      apply Z.eqb_eq in Ha. congruence.
  - rewrite logout_eq. cbn [db].
    destruct (presented req) as [tok|] eqn:Hp; [|reflexivity].
    destruct (verified now tok) as [c|] eqn:Hv; [|reflexivity].
    assert (Hne : id c <> uid).
    { intros Heq. apply Hnot. cbn. exists tok, c. split; [assumption|].
      split; [now apply verified_iff|assumption]. }
    apply sessions_of_update; [reflexivity|].
    intros s _ Ha. unfold Auth.matches_logout in Ha.
    apply andb_true_iff in Ha. destruct Ha as [Ha _].
    apply andb_true_iff in Ha. destruct Ha as [_ Ha].
    apply Z.eqb_eq in Ha. congruence.
Qed.

(** Rewriting ACTIVE rows by a function that only sets [revoked_at] and
    [replaced_by_token_hash] keeps every identity column and every
    terminal row. *)
Lemma update_active_keeps (p : Store.Session -> bool) f st :
  (forall s, identity (f s) = identity s) ->
  (forall s, In s st -> p s = true -> Store.revoked_at s = None) ->
  map identity (Store.update_where p f st) = map identity st /\
  (forall s, In s st -> Store.revoked_at s <> None -> In s (Store.update_where p f st)).
Proof.
  intros Hf Hp. split.
  - now apply update_where_map.
  - intros s Hs Hterm. pose proof (update_where_In p f st s Hs) as Hin.
    destruct (p s) eqn:Hps; [|exact Hin].
    exfalso. apply Hterm. now apply Hp.
Qed.

Lemma handle_invariant users now call st :
  Store.well_formed st ->
  let st' := db (run (handle users now call) st) in
  Store.well_formed st' /\
  (exists ext, map identity st' = map identity st ++ ext) /\
  (forall s, In s st -> Store.revoked_at s <> None -> In s st').
Proof.
  intros W. cbv zeta.
  assert (Hsame : Store.well_formed st /\
                  (exists ext, map identity st = map identity st ++ ext) /\
                  (forall s, In s st -> Store.revoked_at s <> None -> In s st)).
  { split; [exact W|]. split; [exists []; now rewrite app_nil_r|auto]. }
  assert (Hupd : forall p f,
             (forall s, identity (f s) = identity s) ->
             (forall s, In s st -> p s = true -> Store.revoked_at s = None) ->
             Store.well_formed (Store.update_where p f st) /\
             (exists ext, map identity (Store.update_where p f st) = map identity st ++ ext) /\
             (forall s, In s st -> Store.revoked_at s <> None ->
                        In s (Store.update_where p f st))).
  { intros p f Hf Hp. destruct (update_active_keeps p f st Hf Hp) as [Hid Hterm].
    split; [|split; [exists []; now rewrite app_nil_r|exact Hterm]].
    apply well_formed_update; auto; intros s; specialize (Hf s);
      unfold identity in Hf; congruence. }
  destruct call as [mail password uuid req|uuid req|req]; cbn [handle].
  - rewrite login_eq.
    destruct (Users.findOne mail users) as [u|]; [|exact Hsame].
    destruct (negb _); [exact Hsame|]. cbv zeta.
    destruct (Store.has_session_id uuid st) eqn:Hs; [exact Hsame|].
    destruct (Store.has_token_hash _ st) eqn:Hh; [exact Hsame|].
    cbn [orb].
    assert (Hins : forall row,
               Store.refresh_token_session_id row = Store.next_id st ->
               Store.session_id row = uuid ->
               Store.token_hash row =
                 Auth.hashToken (Auth.createRefreshToken now (Users.usuario_id u) uuid) ->
               Store.well_formed (st ++ [row]) /\
               (exists ext, map identity (st ++ [row]) = map identity st ++ ext) /\
               (forall s, In s st -> Store.revoked_at s <> None -> In s (st ++ [row]))).
    { intros row H1 H2 H3. split; [|split].
      - apply well_formed_insert; auto; congruence.
      - exists [identity row]. now rewrite map_app.
      - intros s Hin _. apply in_or_app. now left. }
    destruct (Users.Rol u); cbn [db]; now apply Hins.
  - rewrite refreshToken_eq.
    destruct (presented req) as [tok|]; [|exact Hsame].
    destruct (verified now tok) as [c|]; [|exact Hsame].
    destruct (find _ st) as [row|] eqn:Hf.
    + destruct (Store.has_session_id uuid st) eqn:Hs; [exact Hsame|].
      destruct (Store.has_token_hash _ st) eqn:Hh; [exact Hsame|].
      cbn [orb db].
      pose proof (find_some _ _ Hf) as [Hrow Hm].
      apply matches_active_true in Hm. destruct Hm as [_ [_ [_ [Hact _]]]].
      destruct (Hupd (fun s => Store.refresh_token_session_id s =?
                                Store.refresh_token_session_id row)
                     (Store.set_rotated now
                        (Auth.hashToken (Auth.createRefreshToken now (id c) uuid))))
        as [_ [[ext Hext] Hterm]]; [reflexivity| |].
      { intros s Hs' Hpk. apply Z.eqb_eq in Hpk.
        assert (s = row).
        { destruct W as [Wpk _].
          apply (NoDup_map_inj Store.refresh_token_session_id st); auto. }
        now subst s. }
      split; [now apply well_formed_rotated|]. split.
      * unfold rotated. rewrite map_app, Hext. rewrite <- app_assoc. eexists. reflexivity.
      * intros s Hs' Ht. unfold rotated. apply in_or_app. left. now apply Hterm.
    + cbn [db]. apply Hupd; [reflexivity|].
      intros s _ Ha. unfold Auth.active_of_user in Ha.
      apply andb_true_iff in Ha. destruct Ha as [_ Ha].
      now destruct (Store.revoked_at s).
  - rewrite logout_eq. cbn [db].
    destruct (presented req) as [tok|]; [|exact Hsame].
    destruct (verified now tok) as [c|]; [|exact Hsame].
    apply Hupd; [reflexivity|].
    intros s _ Ha. unfold Auth.matches_logout in Ha.
    apply andb_true_iff in Ha. destruct Ha as [_ Ha].
    now destruct (Store.revoked_at s).
Qed.

(** X7: over any sequence of logins, refreshes and logouts the table only
    grows: the written-once columns of the rows form a prefix of the later
    table, a terminal row is never changed or removed, and the keys stay
    unique; in particular every table reached from the empty one has unique
    keys. *)
Theorem sessions_are_append_only :
  (forall users calls st,
      Store.well_formed st ->
      let st' := run_calls users calls st in
      Store.well_formed st' /\
      (exists ext, map identity st' = map identity st ++ ext) /\
      (forall s, In s st -> Store.revoked_at s <> None -> In s st')) /\
  (forall users calls, Store.well_formed (run_calls users calls [])).
Proof.
  assert (Hall : forall users calls st,
             Store.well_formed st ->
             Store.well_formed (run_calls users calls st) /\
             (exists ext, map identity (run_calls users calls st) = map identity st ++ ext) /\
             (forall s, In s st -> Store.revoked_at s <> None ->
                        In s (run_calls users calls st))).
  { intros users calls. induction calls as [|[now call] calls IH]; intros st W.
    - cbn. split; [exact W|]. split; [exists []; now rewrite app_nil_r|auto].
    - unfold run_calls. cbn [fold_left fst snd].
      destruct (handle_invariant users now call st W) as [W1 [[ext1 H1] T1]].
      destruct (IH _ W1) as [W2 [[ext2 H2] T2]]. unfold run_calls in W2, H2, T2.
      split; [exact W2|]. split.
      + exists (ext1 ++ ext2). now rewrite H2, H1, app_assoc.
      + intros s Hs Ht. apply T2; [now apply T1|exact Ht]. }
  split.
  - intros users calls st W. cbv zeta. now apply Hall.
  - intros users calls. apply Hall. repeat split; apply NoDup_nil.
Qed.
End SessionExtras.

(** ** The stateless controller, all outcomes *)

Section StatelessExtras.
Import Handler Codec Props.
Context {E : Env}.

Lemma stateless_refresh_eq now body st :
  run (AuthStateless.refreshToken now body) st =
  mkWorld st
    (if Js.truthy body
     then match body with
          | Some tok =>
              match jwt_decode_refresh tok with
              | None =>
                  Http.mkResponse (Some 500) []
                    (Some (Http.Message (Auth.error_message JsonWebTokenError)))
              | Some c =>
                  if exp c <=? seconds now
                  then Http.mkResponse (Some 500) []
                         (Some (Http.Message (Auth.error_message TokenExpiredError)))
                  else Http.mkResponse (Some 200) []
                         (Some (Http.AccessToken
                                  (jwt_sign_access (id c) (seconds now) (seconds now + 900))))
              end
          | None => Http.mkResponse (Some 401) [] (Some (Http.Message "Refresh Token requerido."))
          end
     else Http.mkResponse (Some 401) [] (Some (Http.Message "Refresh Token requerido."))).
Proof.
  unfold AuthStateless.refreshToken, run. destruct body as [tok|]; [|reflexivity].
  destruct (Js.truthy (Some tok)); [|reflexivity]. cbn [negb].
  unfold try_catch, bind, Auth.jwt_verify.
  destruct (jwt_decode_refresh tok) as [c|]; [|reflexivity].
  destruct (exp c <=? seconds now); reflexivity.
Qed.

(** X8: the stateless refresh never reads or writes the session table and
    never sets a cookie: no token gives 401, a token that does not verify
    gives 500, and a token that verifies gives a new access token whatever
    the table holds. *)
Theorem stateless_refresh_never_consults_sessions :
  forall now body st,
    let w := run (AuthStateless.refreshToken now body) st in
    db w = st /\
    Http.cookies (res w) = [] /\
    (Js.truthy body = false -> Http.status (res w) = Some 401) /\
    (forall tok, body = Some tok -> Js.truthy body = true -> verified now tok = None ->
                 Http.status (res w) = Some 500) /\
    (forall tok c, body = Some tok -> Js.truthy body = true -> verifies now tok c ->
                   res w = Http.mkResponse (Some 200) []
                             (Some (Http.AccessToken
                                      (jwt_sign_access (id c) (seconds now)
                                         (seconds now + 900))))).
Proof.
  intros now body st. cbv zeta. rewrite stateless_refresh_eq. cbn [db res].
  split; [reflexivity|]. split; [|split; [|split]].
  - destruct (Js.truthy body); [|reflexivity]. destruct body as [tok|]; [|reflexivity].
    destruct (jwt_decode_refresh tok) as [c|]; [|reflexivity].
    destruct (exp c <=? seconds now); reflexivity.
  - intros ->. reflexivity.
  - intros tok -> -> Hv. unfold verified in Hv.
    destruct (jwt_decode_refresh tok) as [c|]; [|reflexivity].
    destruct (exp c <=? seconds now); [reflexivity|discriminate].
  - intros tok c -> -> Hv. apply verified_iff in Hv. unfold verified in Hv.
    destruct (jwt_decode_refresh tok) as [c'|]; [|discriminate].
    destruct (exp c' <=? seconds now); [discriminate|]. now injection Hv as ->.
Qed.

Lemma stateless_login_eq users now mail password st :
  run (AuthStateless.login users now mail password) st =
  mkWorld st
    match Users.findOne mail users with
    | None => Http.mkResponse (Some 404) [] (Some (Http.Message "Usuario no encontrado."))
    | Some u =>
        if negb (bcrypt_compare password (Users.contrasena u))
        then Http.mkResponse (Some 401) [] (Some (Http.Message "Contraseña inválida."))
        else if Users.must_change_password u
        then Http.mkResponse (Some 200) []
               (Some (Http.MustChangePassword true (Users.usuario_id u)
                        "Debe cambiar su contraseña antes de continuar."))
        else match Users.Rol u with
             | Some r =>
                 Http.mkResponse (Some 200) []
                   (Some (Http.LoginWithRefresh (Users.usuario_id u) (Users.nombre u) r
                            (jwt_sign_access (Users.usuario_id u) (seconds now)
                               (seconds now + 900))
                            (jwt_sign_refresh_plain (Users.usuario_id u) (seconds now)
                               (seconds now + 604800))))
             | None =>
                 Http.mkResponse (Some 500) []
                   (Some (Http.Message "Error en el inicio de sesión."))
             end
    end.
Proof.
  unfold AuthStateless.login, run, try_catch.
  destruct (Users.findOne mail users) as [u|]; [|reflexivity].
  destruct (bcrypt_compare password (Users.contrasena u)); [|reflexivity]. cbn [negb].
  destruct (Users.must_change_password u); [reflexivity|].
  unfold bind, Auth.nombre_rol. destruct (Users.Rol u); reflexivity.
Qed.

(** X9: the stateless login never writes a session row nor sets a cookie:
    an unknown or soft-deleted mail gives 404, a wrong password 401, a user
    without role 500, and otherwise both tokens travel in the body. *)
Theorem stateless_login_outcomes :
  forall users now mail password st,
    let w := run (AuthStateless.login users now mail password) st in
    db w = st /\
    Http.cookies (res w) = [] /\
    ((forall u, In u users -> Users.correo u = mail -> Users.deleted_at u <> None) ->
     Http.status (res w) = Some 404) /\
    (forall u, Users.findOne mail users = Some u ->
               bcrypt_compare password (Users.contrasena u) = false ->
               Http.status (res w) = Some 401 /\
               Http.carries_access_token (res w) = false) /\
    (forall u r, Users.findOne mail users = Some u ->
                 bcrypt_compare password (Users.contrasena u) = true ->
                 Users.must_change_password u = false ->
                 Users.Rol u = Some r ->
                 res w = Http.mkResponse (Some 200) []
                           (Some (Http.LoginWithRefresh (Users.usuario_id u) (Users.nombre u) r
                                    (jwt_sign_access (Users.usuario_id u) (seconds now)
                                       (seconds now + 900))
                                    (jwt_sign_refresh_plain (Users.usuario_id u) (seconds now)
                                       (seconds now + 604800))))) /\
    (forall u, Users.findOne mail users = Some u ->
               bcrypt_compare password (Users.contrasena u) = true ->
               Users.must_change_password u = false ->
               Users.Rol u = None ->
               Http.status (res w) = Some 500 /\
               Http.carries_access_token (res w) = false).
Proof.
  intros users now mail password st. cbv zeta. rewrite stateless_login_eq. cbn [db res].
  split; [reflexivity|]. split; [|split; [|split; [|split]]].
  - destruct (Users.findOne mail users) as [u|]; [|reflexivity].
    destruct (negb _); [reflexivity|].
    destruct (Users.must_change_password u); [reflexivity|].
    destruct (Users.Rol u); reflexivity.
  - intros Hdel.
    assert (Hnone : Users.findOne mail users = None).
    { unfold Users.findOne. apply find_all_false. intros u Hu.
      destruct (String.eqb_spec (Users.correo u) mail) as [Heq|]; [|reflexivity].
      specialize (Hdel u Hu Heq). destruct (Users.deleted_at u); [reflexivity|congruence]. }
    now rewrite Hnone.
  - intros u -> ->. split; reflexivity.
  - intros u r -> -> -> ->. reflexivity.
  - intros u -> -> -> ->. split; reflexivity.
Qed.
End StatelessExtras.

(** ** Handshake, rooms and fan-out *)

Section GatewayExtras.
Import Codec Realtime Props Gateway.
Context {A : AccessCodec} {C : History.Clock}.

Lemma findByPk_Some uid us u :
  findByPk uid us = Some u ->
  In u us /\ Users.usuario_id u = uid /\ Users.deleted_at u = None.
Proof.
  unfold findByPk. intros H. apply find_some in H. destruct H as [Hin Hp].
  apply andb_true_iff in Hp. destruct Hp as [Hid Hdel]. apply Z.eqb_eq in Hid.
  destruct (Users.deleted_at u); [discriminate|]. auto.
Qed.

Lemma user_room_not_reserved uid : ~ In (user_room uid) reserved.
Proof. unfold user_room, reserved. cbn. intuition discriminate. Qed.

Lemma role_rooms_reserved rol r : In r (role_rooms rol) -> In r reserved.
Proof.
  unfold role_rooms, reserved.
  destruct (String.eqb rol "cocinero"); [|destruct (String.eqb rol "mesero");
    [|destruct (String.eqb rol "administrador")]]; cbn; intuition.
Qed.

(** X10: a handshake is refused, so that the connection callback never
    runs, when the token is missing or empty, does not decode, has expired,
    or names a user that is absent or soft-deleted. *)
Theorem handshake_rejections :
  forall users now token sid,
    (Js.truthy token = false -> connect users now token sid = inl TokenRequired) /\
    (forall tok, token = Some tok -> Js.truthy token = true ->
                 jwt_decode_access tok = None ->
                 connect users now token sid = inl InvalidOrExpired) /\
    (forall tok uid e, token = Some tok -> Js.truthy token = true ->
                       jwt_decode_access tok = Some (uid, e) -> e <= seconds now ->
                       connect users now token sid = inl InvalidOrExpired) /\
    (forall tok uid e, token = Some tok -> Js.truthy token = true ->
                       jwt_decode_access tok = Some (uid, e) -> seconds now < e ->
                       (forall u, In u users -> Users.usuario_id u = uid ->
                                  Users.deleted_at u <> None) ->
                       connect users now token sid = inl UserNotFound).
Proof.
  intros users now token sid. unfold connect, authenticateSocket.
  split; [|split; [|split]].
  - intros Ht. destruct token as [tok|]; [|reflexivity]. now rewrite Ht.
  - intros tok -> Ht Hd. now rewrite Ht, Hd.
  - intros tok uid e -> Ht Hd He. rewrite Ht, Hd. cbn [negb].
    destruct (Z.leb_spec e (seconds now)); [reflexivity|lia].
  - intros tok uid e -> Ht Hd He Hdel. rewrite Ht, Hd. cbn [negb].
    destruct (Z.leb_spec e (seconds now)); [lia|].
    destruct (findByPk uid users) as [u|] eqn:Hf; [|reflexivity].
    apply findByPk_Some in Hf. destruct Hf as [Hin [Hid Hnd]].
    exfalso. now apply (Hdel u Hin Hid).
Qed.

(** X11: an accepted handshake attaches the user's id, role and name, and
    the connection ends up in its own room followed by exactly the rooms of
    its role, which it is told in [estado_conexion]. *)
Theorem accepted_handshake_joins_role_rooms :
  forall users now tok uid e u rol sid,
    tok <> EmptyString ->
    jwt_decode_access tok = Some (uid, e) ->
    seconds now < e ->
    findByPk uid users = Some u ->
    Users.Rol u = Some rol ->
    ~ In sid (rooms_for rol uid) ->
    exists s,
      connect users now (Some tok) sid = inr s /\
      userId s = uid /\ userRol s = rol /\ userName s = Users.nombre u /\
      rooms s = sid :: rooms_for rol uid /\
      emitted s = [estado_conexion true (sid :: rooms_for rol uid) (History.toISOString now)].
Proof.
  intros users now tok uid e u rol sid Hne Hd He Hf Hr Hsid.
  pose proof (findByPk_Some _ _ _ Hf) as [_ [Hid _]].
  unfold connect, authenticateSocket.
  assert (Ht : Js.truthy (Some tok) = true).
  { cbn. destruct (String.eqb_spec tok EmptyString); [contradiction|reflexivity]. }
  rewrite Ht, Hd. cbn [negb].
  destruct (Z.leb_spec e (seconds now)); [lia|]. rewrite Hf, Hr.
  eexists. split; [reflexivity|].
  unfold on_connection. cbn [emit userId userRol userName rooms emitted app].
  rewrite assignUserToRooms_joins. cbn [userRol userId].
  set (s0 := mkSocket sid (Users.usuario_id u) rol (Users.nombre u) [sid] []).
  destruct (fold_join_frame (rooms_for rol (Users.usuario_id u)) s0)
    as [_ [H2 [H3 [H4 [H5 _]]]]].
  assert (Hrooms : rooms (fold_left (fun acc r => join r acc)
                            (rooms_for rol (Users.usuario_id u)) s0)
                   = sid :: rooms_for rol uid).
  { rewrite fold_join_fresh.
    - cbn. now rewrite Hid.
    - apply rooms_for_NoDup.
    - intros r Hr' [<-|[]]. rewrite Hid in Hr'. contradiction. }
  rewrite Hrooms, H2, H3, H4, H5. cbn. auto.
Qed.

Lemma leave_rooms room s r :
  In r (rooms (leave room s)) <-> In r (rooms s) /\ r <> room.
Proof.
  unfold leave. cbn [rooms]. rewrite filter_In.
  destruct (String.eqb_spec room r) as [->|Hne]; cbn; intuition congruence.
Qed.

Lemma on_event_rooms hist now ev s r :
  (forall n, r <> pedido_room n) ->
  (In r (rooms (on_event hist now ev s)) <-> In r (rooms s)).
Proof.
  intros Hr. destruct ev as [| |p|p|reason|]; cbn [on_event]; try tauto.
  - destruct (String.eqb (userRol s) "administrador"); cbn; tauto.
  - destruct (String.eqb (userRol s) "administrador"); cbn; tauto.
  - destruct p as [n|]; [|tauto]. destruct (truthy_id (Some n)); [|tauto].
    cbn [emit rooms]. rewrite join_rooms. specialize (Hr n). intuition congruence.
  - destruct p as [n|]; [|tauto]. destruct (truthy_id (Some n)); [|tauto].
    cbn [emit rooms]. rewrite leave_rooms. specialize (Hr n). intuition congruence.
Qed.


Lemma pedido_room_not_reserved n : ~ In (pedido_room n) reserved.
Proof. unfold pedido_room, reserved. cbn. intuition discriminate. Qed.


Lemma on_events_rooms hist events : forall s r,
  (forall n, r <> pedido_room n) ->
  (In r (rooms (on_events hist events s)) <-> In r (rooms s)).
Proof.
  induction events as [|[now ev] events IH]; intros s r Hr; unfold on_events;
    cbn [fold_left fst snd]; [tauto|].
  unfold on_events in IH. rewrite IH by exact Hr. now apply on_event_rooms.
Qed.





(** *** Who receives what *)

Lemma connect_accepted users now token sid s :
  connect users now token sid = inr s ->
  exists u rol,
    Users.Rol u = Some rol /\
    s = on_connection now
          (mkSocket sid (Users.usuario_id u) rol (Users.nombre u) [sid] []).
Proof.
  unfold connect, authenticateSocket. destruct token as [tok|]; [|discriminate].
  destruct (negb _); [discriminate|].
  destruct (jwt_decode_access tok) as [[uid e]|]; [|discriminate].
  destruct (e <=? seconds now); [discriminate|].
  destruct (findByPk uid users) as [u|]; [|discriminate].
  destruct (Users.Rol u) as [rol|] eqn:Hr; [|discriminate].
  intros H. injection H as <-. now exists u, rol.
Qed.

Lemma connected_rooms users now token sid s :
  connect users now token sid = inr s ->
  forall r, In r (rooms s) <-> r = sid \/ In r (rooms_for (userRol s) (userId s)).
Proof.
  intros Hc r. apply connect_accepted in Hc. destruct Hc as [u [rol [_ ->]]].
  unfold on_connection. cbn [emit rooms userRol userId].
  rewrite assignUserToRooms_joins.
  destruct (fold_join_frame
              (rooms_for rol (Users.usuario_id u))
              (mkSocket sid (Users.usuario_id u) rol (Users.nombre u) [sid] []))
    as [_ [H2 [H3 _]]].
  cbn [userRol userId] in *. rewrite H2, H3, fold_join_rooms. cbn [rooms].
  simpl. intuition.
Qed.

(** Membership of a connection, possibly after inbound events, in the
    server's rooms. *)
Lemma connected_membership users now token sid s hist events r :
  connect users now token sid = inr s ->
  ~ In sid reserved ->
  In r reserved ->
  mem r (rooms (on_events hist events s)) =
    String.eqb r "notificaciones_globales"
    || existsb (String.eqb r) (role_rooms (userRol s)).
Proof.
  intros Hc Hsid Hr.
  assert (Hiff : In r (rooms (on_events hist events s)) <->
                 r = "notificaciones_globales"%string \/ In r (role_rooms (userRol s))).
  { rewrite on_events_rooms
      by (intros n ->; now apply (pedido_room_not_reserved n)).
    rewrite (connected_rooms _ _ _ _ _ Hc). unfold rooms_for.
    cbn [In]. rewrite in_app_iff. cbn [In]. split.
    - intros [->|[<-|[H|[<-|[]]]]]; auto.
      + contradiction.
      + exfalso. now apply (user_room_not_reserved (userId s)).
    - intros [->|H]; auto. }
  destruct (mem r (rooms (on_events hist events s))) eqn:Hm.
  - apply mem_In, Hiff in Hm. symmetry. apply orb_true_iff.
    destruct Hm as [->|Hm]; [left; reflexivity|right].
    apply existsb_exists. exists r. split; [assumption|apply String.eqb_refl].
  - symmetry. apply orb_false_iff. split.
    + destruct (String.eqb_spec r "notificaciones_globales") as [Heq|]; [|reflexivity].
      exfalso. assert (Hin : In r (rooms (on_events hist events s))) by (apply Hiff; auto).
      apply mem_In in Hin. congruence.
    + destruct (existsb _ _) eqn:He; [|reflexivity]. exfalso.
      apply existsb_exists in He. destruct He as [x [Hx Heq]].
      apply String.eqb_eq in Heq. subst x.
      assert (Hin : In r (rooms (on_events hist events s))) by (apply Hiff; auto).
      apply mem_In in Hin. congruence.
Qed.

Lemma reserved_cocineros : In "cocineros"%string reserved.
Proof. cbn. auto. Qed.
Lemma reserved_meseros : In "meseros"%string reserved.
Proof. cbn. auto. Qed.
Lemma reserved_administradores : In "administradores"%string reserved.
Proof. cbn. auto. Qed.
Lemma reserved_globales : In "notificaciones_globales"%string reserved.
Proof. cbn. auto. Qed.

Ltac membership Hc Hsid :=
  rewrite ?(connected_membership _ _ _ _ _ _ _ _ Hc Hsid reserved_cocineros),
          ?(connected_membership _ _ _ _ _ _ _ _ Hc Hsid reserved_meseros),
          ?(connected_membership _ _ _ _ _ _ _ _ Hc Hsid reserved_administradores),
          ?(connected_membership _ _ _ _ _ _ _ _ Hc Hsid reserved_globales).

Ltac by_role s :=
  let H := fresh "Hrol" in
  unfold role_rooms;
  destruct (String.eqb (userRol s) "cocinero") eqn:H;
    [apply String.eqb_eq in H; rewrite ?H; reflexivity|];
  clear H;
  destruct (String.eqb (userRol s) "mesero") eqn:H;
    [apply String.eqb_eq in H; rewrite ?H; reflexivity|];
  clear H;
  destruct (String.eqb (userRol s) "administrador") eqn:H;
    [apply String.eqb_eq in H; rewrite ?H; reflexivity|reflexivity].

(** X14: a new order is put in the history and sent to the cooks', the
    waiters' and the administrators' rooms with its [pedido_id]: a cook or a
    waiter gets one [nuevo_pedido], an administrator gets it twice plus one
    [actualizar_dashboard], any other role nothing. *)
Theorem new_order_fan_out :
  forall users now token sid s hist0 inbound t p h,
    connect users now token sid = inr s ->
    ~ In sid reserved ->
    let s' := on_events hist0 inbound s in
    let bus := Bus.emitNuevoPedido t p (Bus.mkBus h []) in
    Bus.hist bus = History.addNotification t (Bus.createNewPedidoNotification t p) h /\
    map Bus.room (Bus.sent bus) = ["cocineros"; "meseros"; "administradores"]%string /\
    (forall b, In b (Bus.sent bus) ->
               In ("pedido_id"%string, string_of_Z (Bus.pedido_id p))
                  (History.data (Bus.payload b))) /\
    map Bus.event (Bus.received s' (Bus.sent bus)) =
      (if String.eqb (userRol s) "cocinero" then ["nuevo_pedido"]
       else if String.eqb (userRol s) "mesero" then ["nuevo_pedido"]
       else if String.eqb (userRol s) "administrador"
            then ["nuevo_pedido"; "nuevo_pedido"; "actualizar_dashboard"]
       else [])%string.
Proof.
  intros users now token sid s hist0 inbound t p h Hc Hsid. cbv zeta.
  split; [reflexivity|]. split; [reflexivity|]. split.
  - intros b Hb. cbn in Hb.
    assert (Hst : History.stamped t (Bus.createNewPedidoNotification t p)
                  = Bus.createNewPedidoNotification t p).
    { unfold History.stamped. destruct (negb _); reflexivity. }
    rewrite Hst in Hb.
    destruct Hb as [<-|[<-|[<-|[]]]]; cbn; auto.
  - unfold Bus.received, Bus.emitNuevoPedido. cbn [Bus.sent app filter Bus.room].
    membership Hc Hsid. cbn [String.eqb Ascii.eqb Bool.eqb orb].
    by_role s.
Qed.

(** X15: a cancellation is put in the history and reaches every
    connection once as [pedido_cancelado]; administrators also get the
    dashboard update. *)
Theorem cancellation_reaches_every_connection :
  forall users now token sid s hist0 inbound t p h,
    connect users now token sid = inr s ->
    ~ In sid reserved ->
    let s' := on_events hist0 inbound s in
    let bus := Bus.emitPedidoCancelado t p (Bus.mkBus h []) in
    Bus.hist bus = History.addNotification t (Bus.createCanceladoNotification t p) h /\
    map Bus.event (Bus.received s' (Bus.sent bus)) =
      (if String.eqb (userRol s) "administrador"
       then ["pedido_cancelado"; "actualizar_dashboard"]
       else ["pedido_cancelado"])%string.
Proof.
  intros users now token sid s hist0 inbound t p h Hc Hsid. cbv zeta.
  split; [reflexivity|].
  unfold Bus.received, Bus.emitPedidoCancelado. cbn [Bus.sent app filter Bus.room].
  membership Hc Hsid. cbn [String.eqb Ascii.eqb Bool.eqb orb].
  by_role s.
Qed.

(** X16: a table update is not put in the history; it goes to the
    waiters' and administrators' rooms, so a cook gets nothing and an
    administrator gets it twice. *)
Theorem table_update_is_not_recorded :
  forall users now token sid s hist0 inbound t m bus,
    connect users now token sid = inr s ->
    ~ In sid reserved ->
    let s' := on_events hist0 inbound s in
    let bus' := Bus.emitMesaActualizada t m bus in
    Bus.hist bus' = Bus.hist bus /\
    (exists batch,
        Bus.sent bus' = Bus.sent bus ++ batch /\
        map Bus.room batch = ["meseros"; "administradores"]%string /\
        map Bus.event (Bus.received s' batch) =
          (if String.eqb (userRol s) "cocinero" then []
           else if String.eqb (userRol s) "mesero" then ["mesa_actualizada"]
           else if String.eqb (userRol s) "administrador"
                then ["mesa_actualizada"; "mesa_actualizada"]
           else [])%string).
Proof.
  intros users now token sid s hist0 inbound t m bus Hc Hsid. cbv zeta.
  split; [reflexivity|].
  eexists. split; [reflexivity|]. split; [reflexivity|].
  unfold Bus.received. cbn [filter Bus.room].
  membership Hc Hsid. cbn [String.eqb Ascii.eqb Bool.eqb orb].
  by_role s.
Qed.

(** X17: a state change is put in the history and sent to the cooks', the
    waiters', the order's and the administrators' rooms: a connection that
    joined the order's room gets it once, twice if it is also a cook or a
    waiter, three times and a dashboard update if it is an administrator. *)
Theorem state_change_fan_out :
  forall users now token sid s hist0 t0 t p prev h,
    connect users now token sid = inr s ->
    ~ In sid reserved ->
    Bus.pedido_id p <> 0 ->
    let follower := on_event hist0 t0 (unir_sala_pedido (Some (Bus.pedido_id p))) s in
    let bus := Bus.emitCambioEstado t p prev (Bus.mkBus h []) in
    Bus.hist bus = History.addNotification t (Bus.createEstadoNotification t p prev) h /\
    map Bus.room (Bus.sent bus) =
      ["cocineros"; "meseros"; pedido_room (Bus.pedido_id p); "administradores"]%string /\
    map Bus.event (Bus.received follower (Bus.sent bus)) =
      (if String.eqb (userRol s) "cocinero"
       then ["cambio_estado_pedido"; "cambio_estado_pedido"]
       else if String.eqb (userRol s) "mesero"
       then ["cambio_estado_pedido"; "cambio_estado_pedido"]
       else if String.eqb (userRol s) "administrador"
       then ["cambio_estado_pedido"; "cambio_estado_pedido"; "cambio_estado_pedido";
             "actualizar_dashboard"]
       else ["cambio_estado_pedido"])%string.
Proof.
  intros users now token sid s hist0 t0 t p prev h Hc Hsid Hn. cbv zeta.
  split; [reflexivity|]. split; [reflexivity|].
  change (on_event hist0 t0 (unir_sala_pedido (Some (Bus.pedido_id p))) s)
    with (on_events hist0 [(t0, unir_sala_pedido (Some (Bus.pedido_id p)))] s).
  unfold Bus.received, Bus.emitCambioEstado. cbn [Bus.sent app filter Bus.room].
  membership Hc Hsid.
  assert (Hroom : mem (pedido_room (Bus.pedido_id p))
                    (rooms (on_events hist0 [(t0, unir_sala_pedido (Some (Bus.pedido_id p)))] s))
                  = true).
  { apply mem_In. unfold on_events. cbn [fold_left fst snd on_event truthy_id].
    apply Z.eqb_neq in Hn. rewrite Hn. cbn [negb emit rooms]. apply join_rooms. now right. }
  rewrite Hroom. cbn [String.eqb Ascii.eqb Bool.eqb orb].
  by_role s.
Qed.

Lemma emit_one_sent t e bus :
  exists batch,
    Bus.sent (Bus.emit_one t e bus) = Bus.sent bus ++ batch /\
    forall b, In b batch ->
              Bus.event b = "actualizar_dashboard"%string ->
              Bus.room b = "administradores"%string.
Proof.
  destruct e as [p|p prev|p|m]; cbn [Bus.emit_one];
    (eexists; split; [reflexivity|]);
    intros b Hb Hev; cbn [In] in Hb;
    repeat (destruct Hb as [<-|Hb]; [first [reflexivity|discriminate Hev]|]);
    destruct Hb.
Qed.

Lemma emit_all_dashboard events : forall bus,
  (forall b, In b (Bus.sent bus) -> Bus.event b = "actualizar_dashboard"%string ->
             Bus.room b = "administradores"%string) ->
  forall b, In b (Bus.sent (Bus.emit_all events bus)) ->
            Bus.event b = "actualizar_dashboard"%string ->
            Bus.room b = "administradores"%string.
Proof.
  induction events as [|[t e] events IH]; intros bus Hbus; unfold Bus.emit_all;
    cbn [fold_left fst snd]; [exact Hbus|].
  apply IH. destruct (emit_one_sent t e bus) as [batch [-> Hbatch]].
  intros b Hb. apply in_app_or in Hb. destruct Hb; auto.
Qed.

(** X18: a connection whose role is not administrator never receives
    [actualizar_dashboard], whatever it sent before and whatever the bus
    emitted. *)
Theorem dashboard_updates_reach_administrators_only :
  forall users now token sid s hist0 inbound emits,
    connect users now token sid = inr s ->
    ~ In sid reserved ->
    userRol s <> "administrador"%string ->
    existsb (Bus.is_event "actualizar_dashboard")
      (Bus.received (on_events hist0 inbound s)
         (Bus.sent (Bus.emit_all emits Bus.start))) = false.
Proof.
  intros users now token sid s hist0 inbound emits Hc Hsid Hrol.
  destruct (existsb _ _) eqn:He; [exfalso|reflexivity].
  apply existsb_exists in He. destruct He as [b [Hb Hev]].
  unfold Bus.received in Hb. apply filter_In in Hb. destruct Hb as [Hb Hmem].
  unfold Bus.is_event in Hev. apply String.eqb_eq in Hev.
  rewrite (emit_all_dashboard emits Bus.start) in Hmem; auto.
  - rewrite (connected_membership _ _ _ _ _ _ _ _ Hc Hsid reserved_administradores) in Hmem.
    apply String.eqb_neq in Hrol. revert Hmem. unfold role_rooms.
    destruct (String.eqb (userRol s) "cocinero"); [discriminate|].
    destruct (String.eqb (userRol s) "mesero"); [discriminate|].
    rewrite Hrol. discriminate.
  - intros b' [].
Qed.

Lemma stamped_built t e n :
  In n (Bus.notification_of t e) -> History.stamped t n = n.
Proof.
  unfold History.stamped.
  destruct e as [p|p prev|p|m]; cbn [Bus.notification_of In]; intros H;
    try (destruct H as [<-|[]]; destruct (negb _); reflexivity).
  destruct H.
Qed.

Lemma In_incl_firstn {X} (l : list X) n x : In x (firstn n l) -> In x l.
Proof.
  revert l. induction n as [|n IH]; intros [|a l]; cbn; try tauto.
  intros [->|H]; auto.
Qed.

Lemma addAll_app a b h :
  History.addAll (a ++ b) h = History.addAll b (History.addAll a h).
Proof. unfold History.addAll. apply fold_left_app. Qed.

Lemma emit_all_hist emits : forall bus,
  Bus.hist (Bus.emit_all emits bus) =
  History.addAll
    (flat_map (fun e => map (pair (fst e)) (Bus.notification_of (fst e) (snd e))) emits)
    (Bus.hist bus).
Proof.
  induction emits as [|[t e] emits IH]; intros bus; unfold Bus.emit_all;
    cbn [fold_left fst snd flat_map]; [reflexivity|].
  unfold Bus.emit_all in IH. rewrite IH, addAll_app. f_equal.
  destruct e; reflexivity.
Qed.

(** X19: the history the bus fills holds the six most recent order
    notifications, newest first, and never a table update. *)
Theorem bus_history_keeps_last_six_orders :
  forall emits,
    let h := Bus.hist (Bus.emit_all emits Bus.start) in
    History.history h = firstn 6 (rev (Bus.recorded emits)) /\
    (List.length (History.history h) <= 6)%nat /\
    (forall n, In n (History.history h) -> History.type n <> "mesa_actualizada"%string) /\
    Props.reachable h.
Proof.
  intros emits. cbv zeta. rewrite emit_all_hist. cbn [Bus.start Bus.hist].
  set (timed := flat_map _ emits).
  assert (Hrec : map Props.stamp_event timed = Bus.recorded emits).
  { subst timed. unfold Bus.recorded. induction emits as [|[t e] emits IH];
      cbn [flat_map map fst snd]; [reflexivity|].
    rewrite map_app, IH. f_equal. rewrite map_map.
    rewrite <- (map_id (Bus.notification_of t e)) at 2. apply map_ext_in.
    intros n Hn. unfold Props.stamp_event. cbn [fst snd]. now apply (stamped_built t e). }
  destruct (addAll_from_empty timed) as [Hh _]. rewrite Hrec in Hh.
  split; [exact Hh|]. split; [rewrite Hh; apply firstn_le_length|]. split.
  - intros n Hn. rewrite Hh in Hn. apply (In_incl_firstn _ 6) in Hn. apply in_rev in Hn.
    unfold Bus.recorded in Hn. apply in_flat_map in Hn. destruct Hn as [[t e] [_ Hn]].
    cbn [fst snd] in Hn.
    destruct e as [p|p prev|p|m]; cbn [Bus.notification_of In] in Hn;
      try (destruct Hn as [<-|[]]; cbn; discriminate).
    destruct Hn.
  - apply reachable_addAll. constructor.
Qed.
End GatewayExtras.

(** ** Password reset and user accounts *)

Section AccountExtras.
Import Handler Codec Props Accounts.
Context {E : Env} {A : Gateway.AccessCodec} {H : Hasher}.

Lemma truthy_Some_iff s : Js.truthy (Some s) = true <-> s <> EmptyString.
Proof.
  cbn. destruct (String.eqb_spec s EmptyString); cbn; split; intros; congruence.
Qed.

Lemma update_users_none p f us :
  (forall u, In u us -> p u = false) -> update_users p f us = us.
Proof.
  intros Hp. unfold update_users. rewrite <- (map_id us) at 2. apply map_ext_in.
  intros u Hu. now rewrite (Hp u Hu).
Qed.

Lemma count_users_zero p us :
  count_users p us = 0 -> forall u, In u us -> p u = false.
Proof.
  unfold count_users. intros Hc u Hu. destruct (p u) eqn:Hpu; [|reflexivity].
  assert (Hin : In u (filter p us)) by (apply filter_In; auto).
  destruct (filter p us); [destruct Hin|]. cbn in Hc. lia.
Qed.

Lemma count_users_pos p us u :
  In u us -> p u = true -> (count_users p us =? 0) = false.
Proof.
  intros Hu Hp. unfold count_users. apply Z.eqb_neq.
  assert (Hin : In u (filter p us)) by (apply filter_In; auto).
  destruct (filter p us); [destruct Hin|]. cbn. lia.
Qed.

(** the decision tree of [resetPassword] for a token and a password that
    are both present *)
Lemma resetPassword_eq users now salt tok pw :
  tok <> EmptyString -> pw <> EmptyString ->
  resetPassword users now salt (Some tok) (Some pw) =
  match Gateway.jwt_decode_access tok with
  | None => (users, reply 401 "Token inválido.")
  | Some (uid, e) =>
      if e <=? seconds now
      then (users, reply 401 "El token ha expirado. Por favor, solicita un nuevo enlace.")
      else
        (update_users (live_with_id uid) (set_contrasena (bcrypt_hash pw salt)) users,
         if count_users (live_with_id uid) users =? 0
         then reply 404 "Usuario no encontrado o token inválido."
         else reply 200 "Contraseña actualizada exitosamente.")
  end.
Proof.
  intros Ht Hp. apply truthy_Some_iff in Ht, Hp. unfold resetPassword.
  rewrite Ht, Hp. cbn [negb orb].
  destruct (Gateway.jwt_decode_access tok) as [[uid e]|]; [|reflexivity].
  destruct (e <=? seconds now); [reflexivity|].
  destruct (count_users _ users =? 0); reflexivity.
Qed.

(** X20: a password reset is refused and no row is touched when the token
    or the new password is missing or empty (400), when the token does not
    decode (401), when it has expired (401), and when it names a user that
    is absent or soft-deleted (404). *)
Theorem reset_password_rejections :
  forall users now salt,
    (forall token pw, Js.truthy token = false \/ Js.truthy pw = false ->
       resetPassword users now salt token pw =
         (users, reply 400 "Token y nueva contraseña son requeridos.")) /\
    (forall tok pw, tok <> EmptyString -> pw <> EmptyString ->
       Gateway.jwt_decode_access tok = None ->
       resetPassword users now salt (Some tok) (Some pw) =
         (users, reply 401 "Token inválido.")) /\
    (forall tok pw uid e, tok <> EmptyString -> pw <> EmptyString ->
       Gateway.jwt_decode_access tok = Some (uid, e) -> e <= seconds now ->
       resetPassword users now salt (Some tok) (Some pw) =
         (users, reply 401 "El token ha expirado. Por favor, solicita un nuevo enlace.")) /\
    (forall tok pw uid e, tok <> EmptyString -> pw <> EmptyString ->
       Gateway.jwt_decode_access tok = Some (uid, e) -> seconds now < e ->
       Gateway.findByPk uid users = None ->
       resetPassword users now salt (Some tok) (Some pw) =
         (users, reply 404 "Usuario no encontrado o token inválido.")).
Proof.
  intros users now salt. split; [|split; [|split]].
  - intros token pw Hor. unfold resetPassword.
    destruct token as [tok|]; [|reflexivity]. destruct pw as [p|]; [|reflexivity].
    destruct Hor as [Hf|Hf]; rewrite Hf; cbn [negb orb]; [reflexivity|].
    now rewrite orb_true_r.
  - intros tok pw Ht Hp Hd. now rewrite resetPassword_eq, Hd.
  - intros tok pw uid e Ht Hp Hd He. rewrite resetPassword_eq, Hd by assumption.
    destruct (Z.leb_spec e (seconds now)); [reflexivity|lia].
  - intros tok pw uid e Ht Hp Hd He Hnone. rewrite resetPassword_eq, Hd by assumption.
    destruct (Z.leb_spec e (seconds now)); [lia|].
    assert (Hall : forall u, In u users -> live_with_id uid u = false).
    { intros u Hu. apply (find_none _ _ Hnone u Hu). }
    rewrite update_users_none by exact Hall.
    unfold count_users. rewrite filter_nothing by exact Hall. reflexivity.
Qed.

Lemma findOne_Some mail us u :
  Users.findOne mail us = Some u ->
  In u us /\ Users.correo u = mail /\ Users.deleted_at u = None.
Proof.
  unfold Users.findOne. intros Hf. apply find_some in Hf. destruct Hf as [Hin Hp].
  apply andb_true_iff in Hp. destruct Hp as [Hc Hd]. apply String.eqb_eq in Hc.
  destruct (Users.deleted_at u); [discriminate|]. auto.
Qed.


(** Replacing rows by one that still satisfies the search: the search
    finds the replacement. *)
Lemma find_map_replace {X} (p : X -> bool) (g : X -> X) (l : list X) (u s : X) :
  find p l = Some u -> g u = s -> p s = true ->
  (forall v, g v = s \/ g v = v) ->
  find p (map g l) = Some s.
Proof.
  intros Hf Hu Hs Hg. induction l as [|a l IH]; cbn [find map] in *; [discriminate|].
  destruct (Hg a) as [Ha|Ha]; rewrite Ha.
  - now rewrite Hs.
  - destruct (p a) eqn:Hpa.
    + injection Hf as ->. congruence.
    + now apply IH.
Qed.

Lemma findOne_set_contrasena mail uid h us :
  Users.findOne mail (update_users (live_with_id uid) (set_contrasena h) us) =
  option_map (fun u => if live_with_id uid u then set_contrasena h u else u)
    (Users.findOne mail us).
Proof.
  unfold Users.findOne, update_users. apply find_map_same.
  intros x. destruct (live_with_id uid x); reflexivity.
Qed.

Lemma live_with_own_id mail us u :
  Users.findOne mail us = Some u -> live_with_id (Users.usuario_id u) u = true.
Proof.
  intros Hu. apply findOne_Some in Hu. destruct Hu as [_ [_ Hdel]].
  unfold live_with_id. now rewrite Z.eqb_refl, Hdel.
Qed.

(** A token that decodes to the id of a live user and has not expired
    resets that user's password. *)
Lemma resetPassword_accepts users now salt tok pw e mail u :
  tok <> EmptyString -> pw <> EmptyString ->
  Users.findOne mail users = Some u ->
  Gateway.jwt_decode_access tok = Some (Users.usuario_id u, e) ->
  seconds now < e ->
  resetPassword users now salt (Some tok) (Some pw) =
    (update_users (live_with_id (Users.usuario_id u))
       (set_contrasena (bcrypt_hash pw salt)) users,
     reply 200 "Contraseña actualizada exitosamente.") /\
  Users.findOne mail (fst (resetPassword users now salt (Some tok) (Some pw))) =
    Some (set_contrasena (bcrypt_hash pw salt) u).
Proof.
  intros Ht Hp Hu Hd He.
  rewrite resetPassword_eq, Hd by assumption.
  destruct (Z.leb_spec e (seconds now)); [lia|]. cbn [fst snd].
  pose proof (live_with_own_id _ _ _ Hu) as Hlive.
  pose proof (findOne_Some _ _ _ Hu) as [Hin _].
  rewrite (count_users_pos _ _ u Hin Hlive). split; [reflexivity|].
  rewrite findOne_set_contrasena, Hu. cbn [option_map]. now rewrite Hlive.
Qed.

(** X21: any unexpired token signed under the access secret with the id
    of a live user resets that user's password: the stored hash is the hash
    of the new password, the rows of other users are kept, and from then on
    a login is refused with 401 exactly when the attempt does not match the
    new hash. *)
Theorem reset_password_then_login :
  forall users now salt tok pw e mail u,
    tok <> EmptyString -> pw <> EmptyString ->
    Users.findOne mail users = Some u ->
    Gateway.jwt_decode_access tok = Some (Users.usuario_id u, e) ->
    seconds now < e ->
    let users' := fst (resetPassword users now salt (Some tok) (Some pw)) in
    snd (resetPassword users now salt (Some tok) (Some pw)) =
      reply 200 "Contraseña actualizada exitosamente." /\
    Users.findOne mail users' = Some (set_contrasena (bcrypt_hash pw salt) u) /\
    (forall v, In v users -> Users.usuario_id v <> Users.usuario_id u -> In v users') /\
    (forall now' uuid req st attempt,
        Http.status (res (run (Auth.login users' now' uuid mail attempt req) st)) = Some 401
        <-> bcrypt_compare attempt (bcrypt_hash pw salt) = false).
Proof.
  intros users now salt tok pw e mail u Ht Hp Hu Hd He. cbv zeta.
  destruct (resetPassword_accepts users now salt tok pw e mail u Ht Hp Hu Hd He)
    as [Heq Hfind].
  split; [now rewrite Heq|]. split; [exact Hfind|]. split.
  - intros v Hv Hne. rewrite Heq. cbn [fst]. unfold update_users.
    apply in_map_iff. exists v. split; [|exact Hv].
    unfold live_with_id. apply Z.eqb_neq in Hne. now rewrite Hne.
  - intros now' uuid req st attempt. rewrite login_eq, Hfind.
    cbn [set_contrasena Users.contrasena].
    destruct (bcrypt_compare attempt (bcrypt_hash pw salt)); cbn [negb].
    + cbv zeta. split; [|discriminate].
      destruct (_ || _); [discriminate|]. destruct (Users.Rol _); discriminate.
    + split; reflexivity.
Qed.

(** X22: the link mailed by [forgotPassword] carries a token that
    [resetPassword] accepts during the 900 seconds after it was signed and
    refuses as expired from then on; the token is not used up, a second
    reset with it succeeds as well. *)
Theorem reset_link_round_trip :
  forall users now salt pw mail u,
    pw <> EmptyString ->
    Users.findOne mail users = Some u ->
    let tok := jwt_sign_access (Users.usuario_id u) (seconds now) (seconds now + 900) in
    tok <> EmptyString ->
    Gateway.jwt_decode_access tok = Some (Users.usuario_id u, seconds now + 900) ->
    forgotPassword users now mail true =
      ([mkMail mail (reset_link tok)], reply 200 generic_answer) /\
    (forall now', seconds now' < seconds now + 900 ->
       let once := resetPassword users now' salt (Some tok) (Some pw) in
       snd once = reply 200 "Contraseña actualizada exitosamente." /\
       Users.findOne mail (fst once) = Some (set_contrasena (bcrypt_hash pw salt) u) /\
       forall now'' salt' pw', pw' <> EmptyString -> seconds now'' < seconds now + 900 ->
         snd (resetPassword (fst once) now'' salt' (Some tok) (Some pw')) =
           reply 200 "Contraseña actualizada exitosamente.") /\
    (forall now', seconds now + 900 <= seconds now' ->
       resetPassword users now' salt (Some tok) (Some pw) =
         (users, reply 401 "El token ha expirado. Por favor, solicita un nuevo enlace.")).
Proof.
  intros users now salt pw mail u Hp Hu tok Ht Hd. split; [|split].
  - unfold forgotPassword. rewrite Hu. fold tok.
    pose proof (findOne_Some _ _ _ Hu) as [_ [Hmail _]]. now rewrite Hmail.
  - intros now' He. cbv zeta.
    destruct (resetPassword_accepts users now' salt tok pw _ mail u Ht Hp Hu Hd He)
      as [Heq Hfind].
    split; [now rewrite Heq|]. split; [exact Hfind|].
    intros now'' salt' pw' Hp' He'.
    assert (Hd' : Gateway.jwt_decode_access tok =
                  Some (Users.usuario_id (set_contrasena (bcrypt_hash pw salt) u),
                        seconds now + 900)) by exact Hd.
    destruct (resetPassword_accepts _ now'' salt' tok pw' _ mail _ Ht Hp' Hfind Hd' He')
      as [Heq' _].
    now rewrite Heq'.
  - intros now' He. rewrite resetPassword_eq, Hd by assumption.
    destruct (Z.leb_spec (seconds now + 900) (seconds now')); [reflexivity|lia].
Qed.

(** X23: when the mail is delivered, [forgotPassword] gives the same
    answer whether or not the address is registered; a mail only ever goes
    to the address of a live user and carries that user's link; the answer
    differs (500) exactly when a live user exists and the delivery
    fails. *)
Theorem forgot_password_answers :
  forall users now mail delivered,
    (delivered = true ->
       snd (forgotPassword users now mail delivered) = reply 200 generic_answer) /\
    (forall m, In m (fst (forgotPassword users now mail delivered)) ->
       delivered = true /\
       exists u, Users.findOne mail users = Some u /\ In u users /\
                 Users.deleted_at u = None /\ to m = mail /\
                 carries m = reset_link (jwt_sign_access (Users.usuario_id u)
                                           (seconds now) (seconds now + 900))) /\
    (snd (forgotPassword users now mail delivered) <> reply 200 generic_answer <->
       delivered = false /\ Users.findOne mail users <> None).
Proof.
  intros users now mail delivered. unfold forgotPassword.
  destruct (Users.findOne mail users) as [u|] eqn:Hu.
  - pose proof (findOne_Some _ _ _ Hu) as [Hin [Hmail Hdel]].
    destruct delivered; cbn [fst snd]; split; [|split| |split].
    + reflexivity.
    + intros m [<-|[]]. split; [reflexivity|]. exists u. cbn. auto.
    + split; [congruence|]. intros [? _]. discriminate.
    + discriminate.
    + intros m [].
    + split; [|discriminate]. intros _. split; [reflexivity|discriminate].
  - cbn [fst snd]. split; [reflexivity|]. split; [intros m []|].
    split; [congruence|]. intros [_ Hne]. congruence.
Qed.

Lemma findOne_app_new mail us v :
  existsb (fun u => String.eqb (Users.correo u) mail) us = false ->
  Users.correo v = mail -> Users.deleted_at v = None ->
  Users.findOne mail us = None /\ Users.findOne mail (us ++ [v]) = Some v.
Proof.
  intros Hex Hc Hd.
  assert (Hnone : Users.findOne mail us = None).
  { unfold Users.findOne. destruct (find _ us) as [w|] eqn:Hf; [exfalso|reflexivity].
    apply find_some in Hf. destruct Hf as [Hin Hp]. apply andb_true_iff in Hp.
    assert (Ht : existsb (fun u => String.eqb (Users.correo u) mail) us = true).
    { apply existsb_exists. exists w. tauto. }
    congruence. }
  split; [exact Hnone|]. unfold Users.findOne in *. rewrite find_app_split, Hnone.
  cbn. now rewrite Hc, String.eqb_refl, Hd.
Qed.

Lemma accounts_next_id_above us u : In u us -> Users.usuario_id u < next_id us.
Proof.
  induction us as [|a us IH]; cbn [In next_id fold_right]; [tauto|].
  intros [->|Hin]; [lia|]. specialize (IH Hin). unfold next_id in IH. lia.
Qed.

Lemma accounts_next_id_fresh us : ~ In (next_id us) (map Users.usuario_id us).
Proof.
  intros Hin. apply in_map_iff in Hin. destruct Hin as [u [Heq Hu]].
  apply accounts_next_id_above in Hu. lia.
Qed.

(** X24: after [changePassword] with a new password the row holds its
    hash, written once by the [beforeUpdate] hook, and
    [must_change_password] is off: the stateless login with the new
    password no longer asks for a change and returns the tokens. *)
Theorem change_password_then_login :
  forall users now salt uid nueva mail u st,
    Gateway.findByPk uid users = Some u ->
    Users.findOne mail users = Some u ->
    nueva <> Users.contrasena u ->
    bcrypt_compare nueva (bcrypt_hash nueva salt) = true ->
    let users' := fst (changePassword users salt uid nueva) in
    let saved := Users.mkUsuario uid (Users.nombre u) (Users.rol_id u) mail
                   (bcrypt_hash nueva salt) false None (Users.Rol u) in
    snd (changePassword users salt uid nueva) =
      reply 200 "Contraseña actualizada correctamente." /\
    Users.findOne mail users' = Some saved /\
    (forall v, In v users -> Users.usuario_id v <> uid -> In v users') /\
    res (run (AuthStateless.login users' now mail nueva) st) =
      match Users.Rol u with
      | Some r =>
          Http.mkResponse (Some 200) []
            (Some (Http.LoginWithRefresh uid (Users.nombre u) r
                     (jwt_sign_access uid (seconds now) (seconds now + 900))
                     (jwt_sign_refresh_plain uid (seconds now) (seconds now + 604800))))
      | None =>
          Http.mkResponse (Some 500) [] (Some (Http.Message "Error en el inicio de sesión."))
      end.
Proof.
  intros users now salt uid nueva mail u st Hpk Hu Hne Hcmp. cbv zeta.
  pose proof (findByPk_Some _ _ _ Hpk) as [Hin [Hid Hdel]].
  pose proof (findOne_Some _ _ _ Hu) as [_ [Hmail _]].
  unfold changePassword. rewrite Hpk. cbn [fst snd].
  unfold beforeUpdate. cbn [Users.contrasena set_contrasena].
  destruct (String.eqb_spec nueva (Users.contrasena u)) as [Heq|_]; [contradiction|].
  cbn [Users.usuario_id Users.nombre Users.rol_id Users.correo
       Users.must_change_password Users.deleted_at Users.Rol].
  unfold set_contrasena.
  cbn [Users.usuario_id Users.nombre Users.rol_id Users.correo
       Users.must_change_password Users.deleted_at Users.Rol].
  rewrite Hid, Hmail, Hdel.
  set (saved := Users.mkUsuario uid _ _ _ (bcrypt_hash nueva salt) _ _ _).
  assert (Hfind : Users.findOne mail
                    (update_users (fun v => Users.usuario_id v =? uid) (fun _ => saved) users)
                  = Some saved).
  { unfold Users.findOne, update_users.
    apply (find_map_replace _ _ _ u).
    - exact Hu.
    - now rewrite Hid, Z.eqb_refl.
    - cbn. now rewrite String.eqb_refl.
    - intros v. destruct (Users.usuario_id v =? uid); auto. }
  split; [reflexivity|]. split; [exact Hfind|]. split.
  - intros v Hv Hvne. unfold update_users. apply in_map_iff. exists v.
    split; [|exact Hv]. apply Z.eqb_neq in Hvne. now rewrite Hvne.
  - rewrite stateless_login_eq, Hfind. cbn [res]. unfold saved.
    cbn [Users.contrasena Users.must_change_password Users.Rol Users.usuario_id Users.nombre].
    rewrite Hcmp. cbn [negb]. reflexivity.
Qed.

(** X25: [createUser] with a fresh valid address appends one row with a
    fresh id, the hashed temporary password and [must_change_password] on,
    mails the temporary password (twice when both deliveries work), keeps
    ids and addresses unique, and the stateless login with the temporary
    password answers [mustChangePassword]. *)
Theorem created_user_must_change_password :
  forall users roles valid_email temporal salt mail rid first now st,
    existsb (fun u => String.eqb (Users.correo u) mail) users = false ->
    valid_email mail = true ->
    temporal <> EmptyString ->
    roles rid <> None ->
    bcrypt_compare temporal (bcrypt_hash temporal salt) = true ->
    let out := createUser users roles valid_email temporal salt mail (Some rid) first true in
    let usuario := Users.mkUsuario (next_id users) "Pendiente" rid mail
                     (bcrypt_hash temporal salt) true None (roles rid) in
    out = (users ++ [usuario],
           (if first then [mkMail mail temporal] else []) ++ [mkMail mail temporal],
           reply 201 "Usuario creado y contraseña temporal enviada.") /\
    ~ In (next_id users) (map Users.usuario_id users) /\
    (well_formed users -> well_formed (users ++ [usuario])) /\
    res (run (AuthStateless.login (users ++ [usuario]) now mail temporal) st) =
      Http.mkResponse (Some 200) []
        (Some (Http.MustChangePassword true (next_id users)
                 "Debe cambiar su contraseña antes de continuar.")).
Proof.
  intros users roles valid_email temporal salt mail rid first now st
         Hex Hval Htmp Hrol Hcmp. cbv zeta.
  set (usuario := Users.mkUsuario _ _ _ _ _ _ _ _).
  destruct (findOne_app_new mail users usuario Hex eq_refl eq_refl) as [Hnone Hnew].
  split; [|split; [|split]].
  - unfold createUser. rewrite Hnone, Hval, Hex. cbn [negb orb].
    apply truthy_Some_iff in Htmp. rewrite Htmp. reflexivity.
  - apply accounts_next_id_fresh.
  - intros [Hids Hmails]. split; rewrite map_app; cbn [map]; apply NoDup_snoc; auto.
    + apply accounts_next_id_fresh.
    + cbn [Users.correo usuario]. intros Hin. apply in_map_iff in Hin.
      destruct Hin as [w [Hw Hin]].
      assert (Ht : existsb (fun u => String.eqb (Users.correo u) mail) users = true).
      { apply existsb_exists. exists w. split; [exact Hin|]. now apply String.eqb_eq. }
      congruence.
  - rewrite stateless_login_eq, Hnew. cbn [res]. unfold usuario.
    cbn [Users.contrasena Users.must_change_password Users.usuario_id].
    rewrite Hcmp. reflexivity.
Qed.

(** X26: [createUser] answers 400 for the address of a live user and 500
    for an address held by a soft-deleted row, writing nothing; when the
    second delivery fails it answers 500 although the row was written, so
    that repeating the request answers 400. *)
Theorem create_user_failures :
  forall users roles valid_email temporal salt mail rid first second,
    (Users.findOne mail users <> None ->
       createUser users roles valid_email temporal salt mail rid first second =
         (users, [], reply 400 "El usuario ya existe.")) /\
    (Users.findOne mail users = None ->
     existsb (fun u => String.eqb (Users.correo u) mail) users = true ->
       createUser users roles valid_email temporal salt mail rid first second =
         (users, [], reply 500 "Error al crear usuario.")) /\
    (forall r, rid = Some r ->
       existsb (fun u => String.eqb (Users.correo u) mail) users = false ->
       valid_email mail = true ->
       let out := createUser users roles valid_email temporal salt mail rid first false in
       snd out = reply 500 "Error al crear usuario." /\
       List.length (fst (fst out)) = S (List.length users) /\
       forall temporal' salt' rid' first' second',
         createUser (fst (fst out)) roles valid_email temporal' salt' mail rid' first' second' =
           (fst (fst out), [], reply 400 "El usuario ya existe.")).
Proof.
  intros users roles valid_email temporal salt mail rid first second.
  split; [|split].
  - intros Hsome. unfold createUser.
    destruct (Users.findOne mail users); [reflexivity|congruence].
  - intros Hnone Hex. unfold createUser. rewrite Hnone.
    destruct rid as [r|]; [|reflexivity]. now rewrite Hex, orb_true_r.
  - intros r -> Hex Hval. cbv zeta.
    set (usuario := Users.mkUsuario (next_id users) "Pendiente" r mail
                      (if Js.truthy (Some temporal) then bcrypt_hash temporal salt
                       else temporal) true None (roles r)).
    destruct (findOne_app_new mail users usuario Hex eq_refl eq_refl) as [Hnone Hnew].
    assert (Hout : createUser users roles valid_email temporal salt mail (Some r) first false
                   = (users ++ [usuario], if first then [mkMail mail temporal] else [],
                      reply 500 "Error al crear usuario.")).
    { unfold createUser. rewrite Hnone, Hval, Hex. reflexivity. }
    rewrite Hout. cbn [fst snd]. split; [reflexivity|]. split.
    + rewrite length_app. cbn. lia.
    + intros. unfold createUser. now rewrite Hnew.
Qed.

Lemma set_deleted_at_back now u :
  Users.deleted_at u = None -> set_deleted_at None (set_deleted_at (Some now) u) = u.
Proof. destruct u. cbn. now intros ->. Qed.

(** X27: with unique ids and addresses, deleting a live user makes it
    invisible to [findByPk] and [findOne], a second delete finds nothing and
    changes nothing, the other users are kept, and [restoreUser] gives back
    the table as it was. *)
Theorem delete_then_restore :
  forall users now uid u,
    well_formed users ->
    Gateway.findByPk uid users = Some u ->
    let deleted := fst (deleteUser users now uid) in
    snd (deleteUser users now uid) =
      reply 200 "Usuario eliminado correctamente (soft delete)." /\
    Gateway.findByPk uid deleted = None /\
    Users.findOne (Users.correo u) deleted = None /\
    (forall now', deleteUser deleted now' uid = (deleted, reply 200 "Usuario no encontrado.")) /\
    (forall v, In v users -> Users.usuario_id v <> uid -> In v deleted) /\
    restoreUser deleted uid = (users, reply 200 "Usuario restaurado correctamente.").
Proof.
  intros users now uid u [Hids Hmails] Hpk. cbv zeta.
  pose proof (findByPk_Some _ _ _ Hpk) as [Hin [Hid Hdel]].
  assert (Hlive : live_with_id uid u = true).
  { unfold live_with_id. now rewrite Hid, Z.eqb_refl, Hdel. }
  assert (Hsame : forall v, In v users -> Users.usuario_id v = uid -> v = u).
  { intros v Hv Hvid. apply (NoDup_map_inj Users.usuario_id users); auto. congruence. }
  unfold deleteUser. cbn [fst snd].
  set (deleted := update_users (live_with_id uid) (set_deleted_at (Some now)) users).
  assert (Hgone : forall v, In v deleted -> live_with_id uid v = false).
  { intros v Hv. unfold deleted, update_users in Hv. apply in_map_iff in Hv.
    destruct Hv as [w [<- Hw]]. destruct (live_with_id uid w) eqn:Hlw; [|exact Hlw].
    unfold live_with_id. cbn. apply andb_false_r. }
  assert (Hcount : count_users (live_with_id uid) users = 1).
  { unfold count_users.
    rewrite (filter_unique Users.usuario_id (live_with_id uid) users u); auto.
    intros s Hs Hp. unfold live_with_id in Hp. apply andb_true_iff in Hp.
    destruct Hp as [Hp _]. apply Z.eqb_eq in Hp. congruence. }
  split; [now rewrite Hcount|]. split; [|split; [|split; [|split]]].
  - unfold Gateway.findByPk. destruct (find _ deleted) as [w|] eqn:Hf; [|reflexivity].
    apply find_some in Hf. destruct Hf as [Hw Hp].
    change (live_with_id uid w = true) in Hp. rewrite (Hgone w Hw) in Hp. discriminate.
  - unfold Users.findOne. destruct (find _ deleted) as [w|] eqn:Hf; [exfalso|reflexivity].
    apply find_some in Hf. destruct Hf as [Hw Hp]. apply andb_true_iff in Hp.
    destruct Hp as [Hc Hd]. apply String.eqb_eq in Hc.
    unfold deleted, update_users in Hw. apply in_map_iff in Hw.
    destruct Hw as [v [Hv Hvin]].
    assert (Hvu : v = u).
    { apply (NoDup_map_inj Users.correo users); auto.
      rewrite <- Hc, <- Hv. destruct (live_with_id uid v); reflexivity. }
    subst v. rewrite Hlive in Hv. subst w. discriminate.
  - intros now'. unfold deleteUser. rewrite update_users_none by exact Hgone.
    unfold count_users. rewrite filter_nothing by exact Hgone. reflexivity.
  - intros v Hv Hne. unfold deleted, update_users. apply in_map_iff. exists v.
    split; [|exact Hv]. unfold live_with_id. apply Z.eqb_neq in Hne. now rewrite Hne.
  - unfold restoreUser.
    assert (Hf : find (fun v => Users.usuario_id v =? uid) deleted
                 = Some (set_deleted_at (Some now) u)).
    { unfold deleted, update_users.
      rewrite find_map_same.
      - assert (Hfu : find (fun v => Users.usuario_id v =? uid) users = Some u).
        { destruct (find _ users) as [w|] eqn:Hfw.
          - apply find_some in Hfw. destruct Hfw as [Hw Hp]. apply Z.eqb_eq in Hp.
            f_equal. now apply Hsame.
          - apply (find_none _ _ Hfw) in Hin. rewrite Hid, Z.eqb_refl in Hin. discriminate. }
        rewrite Hfu. cbn [option_map]. now rewrite Hlive.
      - intros x. destruct (live_with_id uid x); reflexivity. }
    rewrite Hf. cbn [set_deleted_at Users.usuario_id]. rewrite Hid. f_equal.
    unfold deleted, update_users. rewrite map_map.
    rewrite <- (map_id users) at 2. apply map_ext_in. intros v Hv.
    destruct (live_with_id uid v) eqn:Hlv.
    + cbn [set_deleted_at Users.usuario_id].
      unfold live_with_id in Hlv. apply andb_true_iff in Hlv. destruct Hlv as [Hvid Hvd].
      rewrite Hvid. destruct v as [a b c d e f g h]. cbn in *.
      destruct g; [discriminate|reflexivity].
    + destruct (Users.usuario_id v =? uid) eqn:Hvid; [|reflexivity].
      apply Z.eqb_eq in Hvid. rewrite (Hsame v Hv Hvid) in Hlv. congruence.
Qed.
End AccountExtras.

(** ** The further properties on concrete runs *)


Lemma login_failure_leaves_no_trace_witness :
  Handler.run (Auth.login (E := Fixture.env) Sample.staff 1000 "u1" "nadie@sushi.co" "clave"
                 Fixture.no_token) Fixture.table
  = Handler.mkWorld Fixture.table
      (Http.mkResponse (Some 404) [] (Some (Http.Message "Usuario no encontrado."))) /\
  Handler.run (Auth.login (E := Fixture.env) Sample.staff 1000 "u1" "beto@sushi.co" "secreta"
                 Fixture.no_token) Fixture.table
  = Handler.mkWorld Fixture.table
      (Http.mkResponse (Some 401) [] (Some (Http.Message "Contraseña inválida."))).
Proof.
  pose proof (login_failure_leaves_no_trace (E := Fixture.env)) as [H404 H401].
  split.
  - apply H404. intros u [<-|[<-|[<-|[]]]]; cbn; discriminate.
  - apply (H401 Sample.staff 1000 "u1"%string "beto@sushi.co"%string "secreta"%string
             Fixture.no_token Fixture.table Fixture.beto); reflexivity.
Defined.


Lemma logged_out_token_is_reuse_witness :
  Props.verifies (E := Fixture.env) 1000 "R:s1" Fixture.claims_s1 /\
  Props.verifies (E := Fixture.env) 1500 "R:s1" Fixture.claims_s1 /\
  Store.active_of 7
    (Handler.db (Handler.run
       (Auth.refreshToken (E := Fixture.env) 1500 "u9" (Fixture.with_cookie "R:s1"))
       (Handler.db (Handler.run
          (Auth.logout (E := Fixture.env) 1000 (Fixture.with_cookie "R:s1"))
          Fixture.table)))) = [].
Proof.
  assert (V1 : Props.verifies (E := Fixture.env) 1000 "R:s1" Fixture.claims_s1)
    by (split; [reflexivity|vm_compute; reflexivity]).
  assert (V2 : Props.verifies (E := Fixture.env) 1500 "R:s1" Fixture.claims_s1)
    by (split; [reflexivity|vm_compute; reflexivity]).
  split; [exact V1|]. split; [exact V2|].
  exact (proj2 (proj2 (logged_out_token_is_reuse (E := Fixture.env) Fixture.table 1000 1500
                         "u9" (Fixture.with_cookie "R:s1") (Fixture.with_cookie "R:s1")
                         "R:s1" Fixture.claims_s1 eq_refl eq_refl V1 V2))).
Defined.


Lemma sessions_change_only_for_their_user_witness :
  Calls.sessions_of 8
    (Handler.db (Handler.run
       (Calls.handle (E := Fixture.env) Sample.staff 1000
          (Calls.Refresh "u9" (Fixture.with_cookie "R:zz"))) Fixture.table))
  = [Fixture.s3] /\
  Calls.sessions_of 7
    (Handler.db (Handler.run
       (Calls.handle (E := Fixture.env) Sample.staff 1000
          (Calls.Refresh "u9" (Fixture.with_cookie "R:zz"))) Fixture.table))
  <> Calls.sessions_of 7 Fixture.table.
Proof.
  split; [|vm_compute; discriminate].
  rewrite (sessions_change_only_for_their_user (E := Fixture.env) Sample.staff 1000
             (Calls.Refresh "u9" (Fixture.with_cookie "R:zz")) 8 Fixture.table
             table_well_formed).
  - reflexivity.
  - intros [tok [cl [Hp [[Hd _] Hid]]]]. cbn in Hp. injection Hp as <-.
    cbn in Hd. injection Hd as <-. discriminate.
Defined.

Lemma sessions_are_append_only_witness :
  Store.well_formed (Calls.run_calls (E := Fixture.env) Sample.staff Sample.calls []) /\
  Store.well_formed
    (Calls.run_calls (E := Fixture.env) Sample.staff Sample.calls Fixture.table) /\
  List.length (Calls.run_calls (E := Fixture.env) Sample.staff Sample.calls Fixture.table)
  = 5%nat.
Proof.
  pose proof (sessions_are_append_only (E := Fixture.env)) as [Hinv Hempty].
  split; [apply Hempty|]. split; [|reflexivity].
  exact (proj1 (Hinv Sample.staff Sample.calls Fixture.table table_well_formed)).
Defined.

Lemma stateless_refresh_never_consults_sessions_witness :
  Props.verifies (E := Fixture.env) 1000 "R:s1" Fixture.claims_s1 /\
  Handler.res (Handler.run
    (AuthStateless.refreshToken (E := Fixture.env) 1000 (Some "R:s1"%string)) [])
  = Http.mkResponse (Some 200) [] (Some (Http.AccessToken "A:7@1")) /\
  Http.status (Handler.res (Handler.run
    (AuthStateless.refreshToken (E := Fixture.env) 1000 None) Fixture.table)) = Some 401.
Proof.
  assert (V : Props.verifies (E := Fixture.env) 1000 "R:s1" Fixture.claims_s1)
    by (split; [reflexivity|vm_compute; reflexivity]).
  split; [exact V|]. split.
  - pose proof (stateless_refresh_never_consults_sessions (E := Fixture.env) 1000
                  (Some "R:s1"%string) []) as [_ [_ [_ [_ H200]]]].
    exact (H200 "R:s1"%string Fixture.claims_s1 eq_refl eq_refl V).
  - pose proof (stateless_refresh_never_consults_sessions (E := Fixture.env) 1000
                  None Fixture.table) as [_ [_ [H401 _]]].
    exact (H401 eq_refl).
Defined.

Lemma stateless_login_outcomes_witness :
  Handler.res (Handler.run
    (AuthStateless.login (E := Fixture.env) Sample.staff 1000 "beto@sushi.co" "clave")
    Fixture.table)
  = Http.mkResponse (Some 200) []
      (Some (Http.LoginWithRefresh 8 "Beto" "cocinero" "A:8@1" "P:8")) /\
  Http.status (Handler.res (Handler.run
    (AuthStateless.login (E := Fixture.env) Sample.staff 1000 "beto@sushi.co" "secreta")
    Fixture.table)) = Some 401.
Proof.
  split.
  - pose proof (stateless_login_outcomes (E := Fixture.env) Sample.staff 1000
                  "beto@sushi.co" "clave" Fixture.table) as [_ [_ [_ [_ [H200 _]]]]].
    exact (H200 Fixture.beto "cocinero"%string eq_refl eq_refl eq_refl eq_refl).
  - pose proof (stateless_login_outcomes (E := Fixture.env) Sample.staff 1000
                  "beto@sushi.co" "secreta" Fixture.table) as [_ [_ [_ [H401 _]]]].
    exact (proj1 (H401 Fixture.beto eq_refl eq_refl)).
Defined.

Lemma handshake_rejections_witness :
  Gateway.connect (A := Sample.access) (C := Fixture.clock) Sample.staff 1000 None "sock"
  = inl Gateway.TokenRequired /\
  Gateway.connect (A := Sample.access) (C := Fixture.clock) Sample.staff 901000
    (Some "A:7@1"%string) "sock"
  = inl Gateway.InvalidOrExpired /\
  Gateway.connect (A := Sample.access) (C := Fixture.clock) [Fixture.ana] 1000
    (Some "A:8@1"%string) "sock"
  = inl Gateway.UserNotFound.
Proof.
  split; [|split].
  - exact (proj1 (handshake_rejections (A := Sample.access) (C := Fixture.clock)
                    Sample.staff 1000 None "sock") eq_refl).
  - pose proof (handshake_rejections (A := Sample.access) (C := Fixture.clock)
                  Sample.staff 901000 (Some "A:7@1"%string) "sock") as [_ [_ [Hexp _]]].
    apply (Hexp "A:7@1"%string 7 901); first [reflexivity | vm_compute; discriminate].
  - pose proof (handshake_rejections (A := Sample.access) (C := Fixture.clock)
                  [Fixture.ana] 1000 (Some "A:8@1"%string) "sock") as [_ [_ [_ Hnone]]].
    apply (Hnone "A:8@1"%string 8 901); try reflexivity.
    intros u [<-|[]]. cbn. discriminate.
Defined.

Lemma accepted_handshake_joins_role_rooms_witness :
  Gateway.findByPk 9 Sample.staff = Some Sample.carla /\
  exists s,
    Gateway.connect (A := Sample.access) (C := Fixture.clock) Sample.staff 1000
      (Some "A:9@1"%string) "sock" = inr s /\
    Realtime.rooms s =
      ["sock"; "notificaciones_globales"; "administradores"; "cocineros"; "meseros";
       "usuario_9"]%string.
Proof.
  split; [reflexivity|].
  assert (Ht : "A:9@1"%string <> EmptyString) by discriminate.
  assert (Hsid : ~ In "sock"%string (Props.rooms_for "administrador" 9))
    by (vm_compute; intuition discriminate).
  destruct (accepted_handshake_joins_role_rooms (A := Sample.access) (C := Fixture.clock)
              Sample.staff 1000 "A:9@1" 9 901 Sample.carla "administrador" "sock"
              Ht eq_refl eq_refl eq_refl eq_refl Hsid)
    as [s [Hc [_ [_ [_ [Hrooms _]]]]]].
  exists s. split; [exact Hc|]. exact Hrooms.
Defined.



Lemma new_order_fan_out_witness :
  Gateway.connect (A := Sample.access) (C := Fixture.clock) Sample.staff 1000
    (Some "A:9@1"%string) "sock" = inr Sample.carla_socket /\
  map Bus.event
    (Bus.received
       (Gateway.on_events (C := Fixture.clock) History.constructor Sample.inbound
          Sample.carla_socket)
       (Bus.sent (Bus.emitNuevoPedido (C := Fixture.clock) 2000 Sample.pedido
                    (Bus.mkBus History.constructor []))))
  = ["nuevo_pedido"; "nuevo_pedido"; "actualizar_dashboard"]%string.
Proof.
  split; [reflexivity|].
  assert (Hsid : ~ In "sock"%string Gateway.reserved)
    by (vm_compute; intuition discriminate).
  exact (proj2 (proj2 (proj2
    (new_order_fan_out (A := Sample.access) (C := Fixture.clock) Sample.staff 1000
       (Some "A:9@1"%string) "sock" Sample.carla_socket History.constructor Sample.inbound
       2000 Sample.pedido History.constructor eq_refl Hsid)))).
Defined.

Lemma cancellation_reaches_every_connection_witness :
  Gateway.connect (A := Sample.access) (C := Fixture.clock) Sample.staff 1000
    (Some "A:8@1"%string) "sock" = inr Sample.beto_socket /\
  map Bus.event
    (Bus.received
       (Gateway.on_events (C := Fixture.clock) History.constructor Sample.inbound
          Sample.beto_socket)
       (Bus.sent (Bus.emitPedidoCancelado (C := Fixture.clock) 2000 Sample.pedido
                    (Bus.mkBus History.constructor []))))
  = ["pedido_cancelado"]%string.
Proof.
  split; [reflexivity|].
  assert (Hsid : ~ In "sock"%string Gateway.reserved)
    by (vm_compute; intuition discriminate).
  exact (proj2
    (cancellation_reaches_every_connection (A := Sample.access) (C := Fixture.clock)
       Sample.staff 1000 (Some "A:8@1"%string) "sock" Sample.beto_socket History.constructor
       Sample.inbound 2000 Sample.pedido History.constructor eq_refl Hsid)).
Defined.

Lemma table_update_is_not_recorded_witness :
  Gateway.connect (A := Sample.access) (C := Fixture.clock) Sample.staff 1000
    (Some "A:8@1"%string) "sock" = inr Sample.beto_socket /\
  Bus.hist (Bus.emitMesaActualizada (C := Fixture.clock) 2000 Sample.mesa Bus.start)
  = Bus.hist Bus.start /\
  Bus.received Sample.beto_socket
    (Bus.sent (Bus.emitMesaActualizada (C := Fixture.clock) 2000 Sample.mesa Bus.start))
  = [].
Proof.
  split; [reflexivity|].
  assert (Hsid : ~ In "sock"%string Gateway.reserved)
    by (vm_compute; intuition discriminate).
  destruct (table_update_is_not_recorded (A := Sample.access) (C := Fixture.clock)
              Sample.staff 1000 (Some "A:8@1"%string) "sock" Sample.beto_socket
              History.constructor [] 2000 Sample.mesa Bus.start eq_refl Hsid)
    as [Hh _].
  split; [exact Hh|reflexivity].
Defined.

Lemma state_change_fan_out_witness :
  Gateway.connect (A := Sample.access) (C := Fixture.clock) Sample.staff 1000
    (Some "A:8@1"%string) "sock" = inr Sample.beto_socket /\
  map Bus.event
    (Bus.received
       (Realtime.on_event (C := Fixture.clock) History.constructor 1500
          (Realtime.unir_sala_pedido (Some 41)) Sample.beto_socket)
       (Bus.sent (Bus.emitCambioEstado (C := Fixture.clock) 2000 Sample.pedido "pendiente"
                    (Bus.mkBus History.constructor []))))
  = ["cambio_estado_pedido"; "cambio_estado_pedido"]%string.
Proof.
  split; [reflexivity|].
  assert (Hsid : ~ In "sock"%string Gateway.reserved)
    by (vm_compute; intuition discriminate).
  assert (Hn : Bus.pedido_id Sample.pedido <> 0) by discriminate.
  exact (proj2 (proj2
    (state_change_fan_out (A := Sample.access) (C := Fixture.clock) Sample.staff 1000
       (Some "A:8@1"%string) "sock" Sample.beto_socket History.constructor 1500 2000
       Sample.pedido "pendiente" History.constructor eq_refl Hsid Hn))).
Defined.

Lemma dashboard_updates_reach_administrators_only_witness :
  Realtime.userRol Sample.beto_socket <> "administrador"%string /\
  existsb (Bus.is_event "actualizar_dashboard")
    (Bus.received
       (Gateway.on_events (C := Fixture.clock) History.constructor Sample.inbound
          Sample.beto_socket)
       (Bus.sent (Bus.emit_all (C := Fixture.clock) Sample.emits Bus.start))) = false /\
  existsb (Bus.is_event "actualizar_dashboard")
    (Bus.received Sample.carla_socket
       (Bus.sent (Bus.emit_all (C := Fixture.clock) Sample.emits Bus.start))) = true.
Proof.
  assert (Hrol : Realtime.userRol Sample.beto_socket <> "administrador"%string)
    by (vm_compute; discriminate).
  assert (Hsid : ~ In "sock"%string Gateway.reserved)
    by (vm_compute; intuition discriminate).
  split; [exact Hrol|]. split; [|reflexivity].
  exact (dashboard_updates_reach_administrators_only (A := Sample.access)
           (C := Fixture.clock) Sample.staff 1000 (Some "A:8@1"%string) "sock"
           Sample.beto_socket History.constructor Sample.inbound Sample.emits
           eq_refl Hsid Hrol).
Defined.

Lemma bus_history_keeps_last_six_orders_witness :
  List.length (Bus.recorded (C := Fixture.clock) Sample.emits) = 7%nat /\
  map History.type
    (History.history (Bus.hist (Bus.emit_all (C := Fixture.clock) Sample.emits Bus.start)))
  = map History.type (firstn 6 (rev (Bus.recorded (C := Fixture.clock) Sample.emits))) /\
  Props.reachable (C := Fixture.clock)
    (Bus.hist (Bus.emit_all (C := Fixture.clock) Sample.emits Bus.start)).
Proof.
  pose proof (bus_history_keeps_last_six_orders (C := Fixture.clock) Sample.emits)
    as [Hh [_ [_ Hr]]].
  cbv zeta in Hh, Hr.
  split; [reflexivity|]. split; [|exact Hr]. now rewrite Hh.
Defined.

Lemma staff_well_formed : Accounts.well_formed Sample.staff.
Proof.
  unfold Accounts.well_formed, Sample.staff. cbn [map].
  split; repeat (apply NoDup_cons; [simpl; intuition discriminate|]); apply NoDup_nil.
Defined.

Lemma reset_password_rejections_witness :
  Accounts.resetPassword (A := Sample.access) (H := Sample.hasher) Sample.staff 1000 "s"
    (Some "A:7@1"%string) (Some EmptyString)
  = (Sample.staff, Accounts.reply 400 "Token y nueva contraseña son requeridos.") /\
  Accounts.resetPassword (A := Sample.access) (H := Sample.hasher) Sample.staff 901000 "s"
    (Some "A:7@1"%string) (Some "nueva"%string)
  = (Sample.staff,
     Accounts.reply 401 "El token ha expirado. Por favor, solicita un nuevo enlace.") /\
  Accounts.resetPassword (A := Sample.access) (H := Sample.hasher) [Fixture.ana] 1000 "s"
    (Some "A:8@1"%string) (Some "nueva"%string)
  = ([Fixture.ana], Accounts.reply 404 "Usuario no encontrado o token inválido.").
Proof.
  assert (Ht7 : "A:7@1"%string <> EmptyString) by discriminate.
  assert (Ht8 : "A:8@1"%string <> EmptyString) by discriminate.
  assert (Hp : "nueva"%string <> EmptyString) by discriminate.
  split; [|split].
  - pose proof (reset_password_rejections (A := Sample.access) (H := Sample.hasher)
                  Sample.staff 1000 "s") as [H400 _].
    apply H400. right. reflexivity.
  - pose proof (reset_password_rejections (A := Sample.access) (H := Sample.hasher)
                  Sample.staff 901000 "s") as [_ [_ [Hexp _]]].
    apply (Hexp "A:7@1"%string "nueva"%string 7 901 Ht7 Hp eq_refl).
    vm_compute. discriminate.
  - pose proof (reset_password_rejections (A := Sample.access) (H := Sample.hasher)
                  [Fixture.ana] 1000 "s") as [_ [_ [_ H404]]].
    exact (H404 "A:8@1"%string "nueva"%string 8 901 Ht8 Hp eq_refl eq_refl eq_refl).
Defined.

Lemma reset_password_then_login_witness :
  Users.findOne "ana@sushi.co" Sample.staff = Some Fixture.ana /\
  Users.findOne "ana@sushi.co"
    (fst (Accounts.resetPassword (A := Sample.access) (H := Sample.hasher) Sample.staff
            1000 "s" (Some "A:7@1"%string) (Some "nueva"%string)))
  = Some (Accounts.set_contrasena "$nueva" Fixture.ana) /\
  Http.status (Handler.res (Handler.run
    (Auth.login (E := Fixture.env)
       (fst (Accounts.resetPassword (A := Sample.access) (H := Sample.hasher) Sample.staff
               1000 "s" (Some "A:7@1"%string) (Some "nueva"%string)))
       2000 "u1" "ana@sushi.co" "secreta" Fixture.no_token) Fixture.table)) = Some 401.
Proof.
  assert (Ht : "A:7@1"%string <> EmptyString) by discriminate.
  assert (Hp : "nueva"%string <> EmptyString) by discriminate.
  destruct (reset_password_then_login (E := Fixture.env) (A := Sample.access)
              (H := Sample.hasher) Sample.staff 1000 "s" "A:7@1" "nueva" 901
              "ana@sushi.co" Fixture.ana Ht Hp eq_refl eq_refl eq_refl)
    as [_ [Hfind [_ Hlogin]]].
  split; [reflexivity|]. split; [exact Hfind|].
  apply (proj2 (Hlogin 2000 "u1"%string Fixture.no_token Fixture.table "secreta"%string)).
  reflexivity.
Defined.

Lemma reset_link_round_trip_witness :
  Accounts.forgotPassword (E := Fixture.env) Sample.staff 1000 "ana@sushi.co" true
  = ([Accounts.mkMail "ana@sushi.co"
        "http://localhost:5173/#/reset-password?token=A:7@1"],
     Accounts.reply 200 Accounts.generic_answer) /\
  snd (Accounts.resetPassword (A := Sample.access) (H := Sample.hasher) Sample.staff
         900000 "s" (Some "A:7@1"%string) (Some "nueva"%string))
  = Accounts.reply 200 "Contraseña actualizada exitosamente." /\
  snd (Accounts.resetPassword (A := Sample.access) (H := Sample.hasher) Sample.staff
         901000 "s" (Some "A:7@1"%string) (Some "nueva"%string))
  = Accounts.reply 401 "El token ha expirado. Por favor, solicita un nuevo enlace.".
Proof.
  assert (Ht : Codec.jwt_sign_access (Env := Fixture.env) 7 (Codec.seconds 1000)
                 (Codec.seconds 1000 + 900) <> EmptyString)
    by (vm_compute; discriminate).
  assert (Hp : "nueva"%string <> EmptyString) by discriminate.
  destruct (reset_link_round_trip (E := Fixture.env) (A := Sample.access)
              (H := Sample.hasher) Sample.staff 1000 "s" "nueva" "ana@sushi.co"
              Fixture.ana Hp eq_refl Ht eq_refl)
    as [Hmail [Hok Hexp]].
  split; [exact Hmail|]. split.
  - assert (Hlt : Codec.seconds 900000 < Codec.seconds 1000 + 900) by reflexivity.
    exact (proj1 (Hok 900000 Hlt)).
  - assert (Hle : Codec.seconds 1000 + 900 <= Codec.seconds 901000)
      by (vm_compute; discriminate).
    exact (f_equal snd (Hexp 901000 Hle)).
Defined.

Lemma forgot_password_answers_witness :
  snd (Accounts.forgotPassword (E := Fixture.env) Sample.staff 1000 "ana@sushi.co" true)
  = snd (Accounts.forgotPassword (E := Fixture.env) Sample.staff 1000 "nadie@sushi.co" true) /\
  snd (Accounts.forgotPassword (E := Fixture.env) Sample.staff 1000 "ana@sushi.co" false)
  <> Accounts.reply 200 Accounts.generic_answer.
Proof.
  pose proof (forgot_password_answers (E := Fixture.env) Sample.staff 1000
                "ana@sushi.co" true) as [Hana _].
  pose proof (forgot_password_answers (E := Fixture.env) Sample.staff 1000
                "nadie@sushi.co" true) as [Hnadie _].
  pose proof (forgot_password_answers (E := Fixture.env) Sample.staff 1000
                "ana@sushi.co" false) as [_ [_ Hfail]].
  split.
  - now rewrite (Hana eq_refl), (Hnadie eq_refl).
  - apply (proj2 Hfail). split; [reflexivity|]. vm_compute. discriminate.
Defined.

Lemma change_password_then_login_witness :
  Gateway.findByPk 7 Sample.staff = Some Fixture.ana /\
  Users.must_change_password Fixture.ana = true /\
  Handler.res (Handler.run
    (AuthStateless.login (E := Fixture.env)
       (fst (Accounts.changePassword (H := Sample.hasher) Sample.staff "s" 7 "nueva"))
       2000 "ana@sushi.co" "nueva") Fixture.table)
  = Http.mkResponse (Some 200) []
      (Some (Http.LoginWithRefresh 7 "Ana" "mesero" "A:7@2" "P:7")).
Proof.
  assert (Hne : "nueva"%string <> Users.contrasena Fixture.ana) by discriminate.
  destruct (change_password_then_login (E := Fixture.env) (H := Sample.hasher)
              Sample.staff 2000 "s" 7 "nueva" "ana@sushi.co" Fixture.ana Fixture.table
              eq_refl eq_refl Hne eq_refl)
    as [_ [_ [_ Hlogin]]].
  split; [reflexivity|]. split; [reflexivity|]. exact Hlogin.
Defined.

Lemma created_user_must_change_password_witness :
  Sample.isEmail "dora@sushi.co" = true /\
  map Users.usuario_id
    (fst (fst (Accounts.createUser (H := Sample.hasher) Sample.staff Sample.roles
                 Sample.isEmail "a1b2c3d4e5f6" "s" "dora@sushi.co" (Some 1) true true)))
  = [7; 8; 9; 10] /\
  Handler.res (Handler.run
    (AuthStateless.login (E := Fixture.env)
       (fst (fst (Accounts.createUser (H := Sample.hasher) Sample.staff Sample.roles
                    Sample.isEmail "a1b2c3d4e5f6" "s" "dora@sushi.co" (Some 1) true true)))
       2000 "dora@sushi.co" "a1b2c3d4e5f6") Fixture.table)
  = Http.mkResponse (Some 200) []
      (Some (Http.MustChangePassword true 10
               "Debe cambiar su contraseña antes de continuar.")).
Proof.
  assert (Htmp : "a1b2c3d4e5f6"%string <> EmptyString) by discriminate.
  assert (Hrol : Sample.roles 1 <> None) by discriminate.
  destruct (created_user_must_change_password (E := Fixture.env) (H := Sample.hasher)
              Sample.staff Sample.roles Sample.isEmail "a1b2c3d4e5f6" "s" "dora@sushi.co"
              1 true 2000 Fixture.table eq_refl eq_refl Htmp Hrol eq_refl)
    as [Hout [_ [_ Hlogin]]].
  split; [reflexivity|]. cbv zeta in Hout. rewrite Hout. cbn [fst].
  split; [reflexivity|]. exact Hlogin.
Defined.

Lemma create_user_failures_witness :
  Accounts.createUser (H := Sample.hasher) Sample.staff Sample.roles Sample.isEmail
    "a1b2c3d4e5f6" "s" "ana@sushi.co" (Some 1) true true
  = (Sample.staff, [], Accounts.reply 400 "El usuario ya existe.") /\
  snd (Accounts.createUser (H := Sample.hasher) Sample.staff Sample.roles Sample.isEmail
         "a1b2c3d4e5f6" "s" "dora@sushi.co" (Some 1) true false)
  = Accounts.reply 500 "Error al crear usuario." /\
  snd (Accounts.createUser (H := Sample.hasher)
         (fst (fst (Accounts.createUser (H := Sample.hasher) Sample.staff Sample.roles
                      Sample.isEmail "a1b2c3d4e5f6" "s" "dora@sushi.co" (Some 1) true false)))
         Sample.roles Sample.isEmail "f6e5d4c3b2a1" "t" "dora@sushi.co" (Some 1) true true)
  = Accounts.reply 400 "El usuario ya existe.".
Proof.
  split; [|split].
  - pose proof (create_user_failures (H := Sample.hasher) Sample.staff Sample.roles
                  Sample.isEmail "a1b2c3d4e5f6" "s" "ana@sushi.co" (Some 1) true true)
      as [H400 _].
    apply H400. vm_compute. discriminate.
  - pose proof (create_user_failures (H := Sample.hasher) Sample.staff Sample.roles
                  Sample.isEmail "a1b2c3d4e5f6" "s" "dora@sushi.co" (Some 1) true true)
      as [_ [_ Hfail]].
    exact (proj1 (Hfail 1 eq_refl eq_refl eq_refl)).
  - pose proof (create_user_failures (H := Sample.hasher) Sample.staff Sample.roles
                  Sample.isEmail "a1b2c3d4e5f6" "s" "dora@sushi.co" (Some 1) true true)
      as [_ [_ Hfail]].
    destruct (Hfail 1 eq_refl eq_refl eq_refl) as [_ [_ Hagain]].
    cbv zeta in Hagain.
    now rewrite (Hagain "f6e5d4c3b2a1"%string "t"%string (Some 1) true true).
Defined.

Lemma delete_then_restore_witness :
  Gateway.findByPk 8 Sample.staff = Some Fixture.beto /\
  Gateway.findByPk 8 (fst (Accounts.deleteUser Sample.staff 5000 8)) = None /\
  Accounts.restoreUser (fst (Accounts.deleteUser Sample.staff 5000 8)) 8
  = (Sample.staff, Accounts.reply 200 "Usuario restaurado correctamente.").
Proof.
  destruct (delete_then_restore Sample.staff 5000 8 Fixture.beto staff_well_formed eq_refl)
    as [_ [Hpk [_ [_ [_ Hback]]]]].
  split; [reflexivity|]. split; [exact Hpk|exact Hback].
Defined.
